(** * iridium-sbd: the AT-command transport and the SBD session chain

    A shallow embedding of [iridium-sbd.js].  The driver is one mutable
    object ([iridium]) plus four module-level bindings ([df], [er], [kr],
    [tf]); here they are the fields of one [state] record that every
    function threads.  Callbacks are first-order: each anonymous function of
    the source is one constructor of [fn] carrying its free variables, and
    [call] runs its body.  Serial writes, emitted events and callback
    invocations are appended to a trace; an uncaught JavaScript exception is
    the [Throw] outcome. *)

From Stdlib Require Import ZArith List String Ascii Lia Bool.
From stdpp Require Import list.
Import ListNotations.

Local Open Scope list_scope.
Local Open Scope string_scope.

(** ** Bytes and strings *)

(** A Buffer is a list of octets.  A line read with [toString('binary')]
    has one character per octet, so lines and chunks are [string]s. *)
Definition octet := ascii.

Definition octet_val (b : octet) : Z := Z.of_N (N_of_ascii b).

(** Store into a [Uint8Array] slot: the value modulo 256. *)
Definition to_octet (v : Z) : octet := ascii_of_N (Z.to_N (v mod 256)%Z).

Definition CR : string := String "013"%char "".
Definition LF : string := String "010"%char "".

Fixpoint string_of_octets (l : list octet) : string :=
  match l with
  | [] => ""
  | c :: l' => String c (string_of_octets l')
  end.

(** [strip_prefix p s] removes the literal [p] from the front of [s]. *)
Fixpoint strip_prefix (p s : string) : option string :=
  match p with
  | "" => Some s
  | String a p' =>
      match s with
      | String b s' => if Ascii.eqb a b then strip_prefix p' s' else None
      | "" => None
      end
  end.

(** Leftmost search: the first suffix of [s] at which [m] succeeds;
    this is how an unanchored regular expression scans its input. *)
Fixpoint search {A} (m : string -> option A) (s : string) : option A :=
  match m s with
  | Some r => Some r
  | None => match s with
            | "" => None
            | String _ s' => search m s'
            end
  end.

Definition is_digit (c : ascii) : bool :=
  (48 <=? nat_of_ascii c)%nat && (nat_of_ascii c <=? 57)%nat.

(** Line terminators of [.] and white space of [\s], among the code units
    a binary-decoded line can hold (0..255). *)
Definition is_line_terminator (c : ascii) : bool :=
  (nat_of_ascii c =? 10)%nat || (nat_of_ascii c =? 13)%nat.

Definition is_space (c : ascii) : bool :=
  let n := nat_of_ascii c in
  ((9 <=? n)%nat && (n <=? 13)%nat) || (n =? 32)%nat || (n =? 160)%nat.

(** The longest prefix whose characters satisfy [p], and the rest. *)
Fixpoint span (p : ascii -> bool) (s : string) : string * string :=
  match s with
  | "" => ("", "")
  | String c s' =>
      if p c then let (a, b) := span p s' in (String c a, b)
      else ("", s)
  end.

(** [(\d+)]: greedy; every literal that follows one in the patterns below
    starts with a non-digit, so the longest run is the only candidate. *)
Definition digits1 (s : string) : option (string * string) :=
  match span is_digit s with
  | ("", _) => None
  | (d, rest) => Some (d, rest)
  end.

(** [(\d+)] then the literal [sep], repeated for each separator in [seps],
    then a last [(\d+)]: the captured groups in order. *)
Fixpoint digit_fields (seps : list string) (s : string) : option (list string) :=
  match digits1 s with
  | None => None
  | Some (d, rest) =>
      match seps with
      | [] => Some [d]
      | sep :: seps' =>
          match strip_prefix sep rest with
          | None => None
          | Some rest' =>
              match digit_fields seps' rest' with
              | None => None
              | Some ds => Some (d :: ds)
              end
          end
      end
  end.

(** ToNumber of a string of decimal digits (exact; a JavaScript number
    agrees with it below 2^53, and stays far above 32 beyond). *)
Definition digit_val (c : ascii) : Z := (Z.of_nat (nat_of_ascii c) - 48)%Z.

Fixpoint to_number_from (acc : Z) (s : string) : Z :=
  match s with
  | "" => acc
  | String c s' => to_number_from (10 * acc + digit_val c)%Z s'
  end.

Definition to_number (s : string) : Z := to_number_from 0 s.

(** Decimal rendering of a length, as in ["AT+SBDWB=" + buffer.length]. *)
Definition digit_char (n : nat) : ascii := ascii_of_nat (48 + n).

Fixpoint decimal_from (fuel n : nat) (acc : string) : string :=
  match fuel with
  | O => acc
  | S fuel' =>
      let acc' := String (digit_char (n mod 10)) acc in
      if (n <? 10)%nat then acc' else decimal_from fuel' (n / 10) acc'
  end.

Definition decimal (n : nat) : string := decimal_from (S n) n "".

(** ** Regular expressions of the driver *)

Inductive regexp :=
| OK            (* /^OK\r/ *)
| ALL           (* /.*/ *)
| RE_ERROR      (* /ERROR/ *)
| RE_SBDRING    (* /^SBDRING/ *)
| RE_AREG       (* /^\+AREG/ *)
| RE_READY      (* /READY/ *)
| RE_CIEV       (* /\+CIEV:0,[^0]/ *)
| RE_SBDIX      (* /\+SBDIX/ *).

Definition starts_with (p s : string) : bool :=
  match strip_prefix p s with Some _ => true | None => false end.

Definition contains (p s : string) : bool :=
  match search (strip_prefix p) s with Some _ => true | None => false end.

Definition ciev_here (s : string) : option unit :=
  match strip_prefix "+CIEV:0," s with
  | Some (String c _) => if Ascii.eqb c "0" then None else Some tt
  | _ => None
  end.

(** [pattern.test(line)] *)
Definition test (r : regexp) (s : string) : bool :=
  match r with
  | OK => starts_with ("OK" ++ CR) s
  | ALL => true
  | RE_ERROR => contains "ERROR" s
  | RE_SBDRING => starts_with "SBDRING" s
  | RE_AREG => starts_with "+AREG" s
  | RE_READY => contains "READY" s
  | RE_CIEV => match search ciev_here s with Some _ => true | None => false end
  | RE_SBDIX => contains "+SBDIX" s
  end.

(** [line.match(/^\+AREG:(\d+),(\d+)/)] *)
Definition match_AREG (line : string) : option (list string) :=
  match strip_prefix "+AREG:" line with
  | Some rest => digit_fields [","] rest
  | None => None
  end.

(** [text.match(/\+SBDIX: (\d+), (\d+), (\d+), (\d+), (\d+), (\d+)/)]:
    the six groups m[1] .. m[6]. *)
Record sbdix := {
  status : string;
  momsn : string;
  mtstatus : string;
  mtmsn : string;
  mtlen : string;
  mtqueued : string
}.

Definition sbdix_here (s : string) : option sbdix :=
  match strip_prefix "+SBDIX: " s with
  | Some rest =>
      match digit_fields [", "; ", "; ", "; ", "; ", "] rest with
      | Some [m1; m2; m3; m4; m5; m6] =>
          Some {| status := m1; momsn := m2; mtstatus := m3;
                  mtmsn := m4; mtlen := m5; mtqueued := m6 |}
      | _ => None
      end
  | None => None
  end.

Definition match_SBDIX (text : string) : option sbdix :=
  search sbdix_here text.

(** [result.match(/CCLK:(\d+)\/(\d+)\/(\d+),(\d+):(\d+):(\d+)/)] *)
Definition cclk_here (s : string) : option (list string) :=
  match strip_prefix "CCLK:" s with
  | Some rest => digit_fields ["/"; "/"; ","; ":"; ":"] rest
  | None => None
  end.

Definition match_CCLK (result : string) : option (list string) :=
  search cclk_here result.

(** The two patterns made of a literal tag, optional white space and one
    group holding the rest of the line (-MSSTM: and CSQ:): white space is
    skipped greedily, then the characters up to the line terminator are
    captured. *)
Definition tagged_here (tag s : string) : option string :=
  match strip_prefix tag s with
  | Some rest =>
      let (_, after) := span is_space rest in
      Some (fst (span (fun c => negb (is_line_terminator c)) after))
  | None => None
  end.

Definition match_MSSTM (result : string) : option string :=
  search (tagged_here "-MSSTM:") result.

Definition match_CSQ (result : string) : option string :=
  search (tagged_here "CSQ:") result.

(** ** The MO checksum of sendBinaryMessage (lines 172-180) *)

(** ToInt32, applied by [&] and [>>] to their operands. *)
Definition to_int32 (x : Z) : Z := ((x + 2 ^ 31) mod 2 ^ 32 - 2 ^ 31)%Z.

Definition js_and (x y : Z) : Z := Z.land (to_int32 x) (to_int32 y).
Definition js_sar (x k : Z) : Z := Z.shiftr (to_int32 x) k.

(** [Buffer.alloc(n)]: [n] zero octets. *)
Definition Buffer_alloc (n : nat) : list octet := replicate n zero.

(** One turn of the [for] loop: [ob[i] = buffer[i]; sum += buffer[i]]. *)
Definition checksum_step (buffer : list octet) (acc : list octet * Z) (i : nat)
  : list octet * Z :=
  let b := default zero (buffer !! i) in
  (<[i := b]> (fst acc), (snd acc + octet_val b)%Z).

(** The frame [ob] that sendBinaryMessage builds for [buffer]. *)
Definition checksum_frame (buffer : list octet) : list octet :=
  let n := length buffer in
  let '(ob, sum) :=
    fold_left (checksum_step buffer) (seq 0 n) (Buffer_alloc (n + 2), 0%Z) in
  let ob := <[n + 1 := to_octet (js_and sum 255)]> ob in
  let sum := js_sar sum 8 in
  <[n := to_octet (js_and sum 255)]> ob.

(** The sum of the payload octets, as an integer. *)
Fixpoint sum_octets (l : list octet) : Z :=
  match l with
  | [] => 0%Z
  | b :: l' => (octet_val b + sum_octets l')%Z
  end.

(** ** The line framer of readSBD in text mode (lines 274-280) *)

(** [s.split("\n")] *)
Fixpoint split_lf (s : string) : list string :=
  match s with
  | "" => [""]
  | String c s' =>
      if Ascii.eqb c "010" then "" :: split_lf s'
      else match split_lf s' with
           | h :: t => String c h :: t
           | [] => [String c ""]
           end
  end.

(** [data += chunk; parts = data.split("\n"); data = parts.pop()]:
    the complete lines to emit and the retained fragment. *)
Definition frame_text (data chunk : string) : list string * string :=
  let parts := split_lf (data ++ chunk) in
  (List.removelast parts, List.last parts "").

(** The lines readSBD emits over a run of chunks in text mode, and the
    fragment it retains at the end. *)
Fixpoint readSBD_lines (data : string) (chunks : list string) : list string * string :=
  match chunks with
  | [] => ([], data)
  | chunk :: chunks' =>
      let (parts, rest) := frame_text data chunk in
      let (parts', rest') := readSBD_lines rest chunks' in
      ((parts ++ parts')%list, rest')
  end.

(** The byte stream a run of chunks carries. *)
Fixpoint stream (chunks : list string) : string :=
  match chunks with
  | [] => ""
  | chunk :: chunks' => chunk ++ stream chunks'
  end.

(** No line feed in [s]: what holds of every retained fragment. *)
Fixpoint no_lf (s : string) : bool :=
  match s with
  | "" => true
  | String c s' => negb (Ascii.eqb c "010") && no_lf s'
  end.

(** ** JavaScript values *)

(** A text or a Buffer: commands written to the port, data events,
    messages handed to the send functions. *)
Inductive strbuf :=
| Str (s : string)
| Buf (b : list octet).

(** What reaches a callback as its first argument ([err]). *)
Inductive jsval :=
| ENull
| EUndefined
| EFalse
| EStr (s : string)
| ERegExp (r : regexp)          (* the matched entry of [iridium.errors] *)
| EObj (error : string).        (* the object with the one field [error] *)

(** What reaches a callback as its second argument. *)
Inductive result :=
| RUndefined
| RStr (s : string)
| RBuf (b : list octet)
| RParseInt (s : string)         (* parseInt(s) *)
| RDateUTC (m : list string)     (* new Date(Date.UTC(2000 + Number(m[1]), m[2] - 1, ...)) *)
| RIridiumTime (hex : string).   (* new Date(1399818235000 + parseInt(hex, 16) * 90) *)

(** [if (err)] *)
Definition truthy (v : jsval) : bool :=
  match v with
  | ENull | EUndefined | EFalse => false
  | EStr s => negb (String.eqb s "")
  | ERegExp _ | EObj _ => true
  end.

(** [err == null] *)
Definition eq_null (v : jsval) : bool :=
  match v with
  | ENull | EUndefined => true
  | _ => false
  end.

(** [if (message)] for a text or a Buffer: an object is always truthy. *)
Definition strbuf_truthy (m : strbuf) : bool :=
  match m with
  | Str s => negb (String.eqb s "")
  | Buf _ => true
  end.

Definition strbuf_length (m : strbuf) : nat :=
  match m with
  | Str s => String.length s
  | Buf b => length b
  end.

Definition result_of (d : strbuf) : result :=
  match d with
  | Str s => RStr s
  | Buf b => RBuf b
  end.

(** The number held by [iridium.c_attempt], which the object literal
    leaves undefined. *)
Inductive jsnum :=
| Undefined
| NaN
| Num (z : Z).

(** [n++] *)
Definition incr (n : jsnum) : jsnum :=
  match n with
  | Num z => Num (z + 1)
  | _ => NaN
  end.

(** [n <= m] *)
Definition num_le (n : jsnum) (m : Z) : bool :=
  match n with
  | Num z => (z <=? m)%Z
  | _ => false
  end.

(** ** Closures *)

(** One constructor per anonymous function of the source, with the
    variables it closes over. *)
Inductive fn :=
| f_undefined                                       (* no callback given *)
| f_app (id : nat)                                  (* a callback of the application *)
| f_series (i : nat)                                (* async.series: callback of task i *)
| f_mailboxSend (buffer : strbuf) (callback : fn)   (* lines 136-155 *)
| f_SBDWB (ob : list octet) (callback : fn)         (* lines 183-219 *)
| f_written (callback : fn)                         (* lines 194-218 *)
| f_SBDWT (callback : fn) (maxWait : option Z)      (* lines 228-251 *)
| f_network (callback : fn)                         (* lines 204-216 and 238-249 *)
| f_monitoring_off (callback : fn)                  (* lines 214-216 and 247-249 *)
| f_fail (callback : fn) (err : jsval)              (* function () { callback(err); } *)
| f_CCLK (callback : fn)                            (* lines 365-375 *)
| f_MSSTM (callback : fn)                           (* lines 379-392 *)
| f_CSQ (callback : fn)                             (* lines 404-413 *)
| f_SBDRB (mtqueued' : string) (callback : fn)      (* lines 443-462 *)
| f_SBDIXA (callback : fn)                          (* lines 486-554 *)
| f_MT_read (callback : fn) (momsn' : string)       (* lines 541-545 *)
| f_finish (callback : fn) (momsn' : result).       (* function (err) { callback(err, momsn); } *)

(** The functions handed to setTimeout. *)
Inductive task :=
| t_timeout (command : strbuf)                      (* AT, lines 581-583 *)
| t_flush                                           (* enableBinaryMode, lines 256-262 *)
| t_drain                                           (* mailboxSend, lines 141-143 *)
| t_retry (buffer : strbuf) (callback : fn).        (* mailboxSend, lines 151-153 *)

(** ** Observable effects *)

(** A log message is kept as the operands of its string concatenation. *)
Inductive piece :=
| PStr (s : string)
| PVal (v : jsval)
| PRes (r : result)
| PData (d : strbuf)
| PHex (b : list octet)           (* b.toString('hex') *)
| PNum (z : Z).

Inductive emitted :=
| ev_initialized
| ev_ringalert
| ev_newmessage (messageBuffer : list octet) (mtqueued' : string)
| ev_debug (message : list piece).

Inductive effect :=
| Write (w : strbuf)                              (* serialPort.write *)
| Emit (e : emitted)                              (* iridiumEvents.emit *)
| Called (id : nat) (err : jsval) (r : result)    (* an application callback runs *)
| Completed (err : jsval) (r : result)            (* df runs datafunction(err, text) *)
| Attempt (buffer : strbuf).                      (* mailboxSend starts a send *)

(** ** The driver state *)

Record globals_t := {
  bars : Z;
  baudrate : Z;
  debug : Z;
  defaultTimeout : Z;
  simpleTimeout : Z;
  timeoutForever : Z;
  maxAttempts : Z;
  maxWait : option Z      (* read by waitForNetwork; absent from the literal *)
}.

Record binary_t := {
  mode : bool;
  binary_buffer : list octet;
  bufferCounter : nat
}.

Record state := {
  buffer : string;
  data : string;
  messagePending : Z;
  binary : binary_t;
  lock : Z;
  pending : Z;              (* a decimal string stored there is kept by value *)
  c_attempt : jsnum;
  globals : globals_t;
  df : option fn;           (* the wrapper around this datafunction *)
  er : option regexp;       (* [None]: undefined or false *)
  kr : option regexp;
  tf : option nat;          (* handle of the last timeout timer *)
  serialEmitter : bool;     (* assigned by readSBD *)
  timers : list (nat * (Z * task));   (* handle, delay, function *)
  next_timer : nat;
  series_pos : nat;         (* async.series: index of the running task *)
  trace : list effect       (* newest first *)
}.

Definition bufferSize : nat := 1024.

(** The object literal and the module-level bindings as the module
    leaves them. *)
Definition iridium : state := {|
  buffer := "";
  data := "";
  messagePending := 0;
  binary := {| mode := false; binary_buffer := Buffer_alloc bufferSize;
               bufferCounter := 0 |};
  lock := 0;
  pending := 0;
  c_attempt := Undefined;
  globals := {| bars := 0; baudrate := 19200; debug := 0;
                defaultTimeout := 40 * 1000; simpleTimeout := 2000;
                timeoutForever := -1; maxAttempts := 5; maxWait := None |};
  df := None;
  er := None;
  kr := None;
  tf := None;
  serialEmitter := false;
  timers := [];
  next_timer := 0;
  series_pos := 0;
  trace := []
|}.

Definition set_buffer v st := {|
  buffer := v; data := data st; messagePending := messagePending st;
  binary := binary st; lock := lock st; pending := pending st;
  c_attempt := c_attempt st; globals := globals st; df := df st; er := er st;
  kr := kr st; tf := tf st; serialEmitter := serialEmitter st;
  timers := timers st; next_timer := next_timer st;
  series_pos := series_pos st; trace := trace st |}.

Definition set_data v st := {|
  buffer := buffer st; data := v; messagePending := messagePending st;
  binary := binary st; lock := lock st; pending := pending st;
  c_attempt := c_attempt st; globals := globals st; df := df st; er := er st;
  kr := kr st; tf := tf st; serialEmitter := serialEmitter st;
  timers := timers st; next_timer := next_timer st;
  series_pos := series_pos st; trace := trace st |}.

Definition set_messagePending v st := {|
  buffer := buffer st; data := data st; messagePending := v;
  binary := binary st; lock := lock st; pending := pending st;
  c_attempt := c_attempt st; globals := globals st; df := df st; er := er st;
  kr := kr st; tf := tf st; serialEmitter := serialEmitter st;
  timers := timers st; next_timer := next_timer st;
  series_pos := series_pos st; trace := trace st |}.

Definition set_binary v st := {|
  buffer := buffer st; data := data st; messagePending := messagePending st;
  binary := v; lock := lock st; pending := pending st;
  c_attempt := c_attempt st; globals := globals st; df := df st; er := er st;
  kr := kr st; tf := tf st; serialEmitter := serialEmitter st;
  timers := timers st; next_timer := next_timer st;
  series_pos := series_pos st; trace := trace st |}.

Definition set_lock v st := {|
  buffer := buffer st; data := data st; messagePending := messagePending st;
  binary := binary st; lock := v; pending := pending st;
  c_attempt := c_attempt st; globals := globals st; df := df st; er := er st;
  kr := kr st; tf := tf st; serialEmitter := serialEmitter st;
  timers := timers st; next_timer := next_timer st;
  series_pos := series_pos st; trace := trace st |}.

Definition set_pending v st := {|
  buffer := buffer st; data := data st; messagePending := messagePending st;
  binary := binary st; lock := lock st; pending := v;
  c_attempt := c_attempt st; globals := globals st; df := df st; er := er st;
  kr := kr st; tf := tf st; serialEmitter := serialEmitter st;
  timers := timers st; next_timer := next_timer st;
  series_pos := series_pos st; trace := trace st |}.

Definition set_c_attempt v st := {|
  buffer := buffer st; data := data st; messagePending := messagePending st;
  binary := binary st; lock := lock st; pending := pending st;
  c_attempt := v; globals := globals st; df := df st; er := er st;
  kr := kr st; tf := tf st; serialEmitter := serialEmitter st;
  timers := timers st; next_timer := next_timer st;
  series_pos := series_pos st; trace := trace st |}.

Definition set_globals v st := {|
  buffer := buffer st; data := data st; messagePending := messagePending st;
  binary := binary st; lock := lock st; pending := pending st;
  c_attempt := c_attempt st; globals := v; df := df st; er := er st;
  kr := kr st; tf := tf st; serialEmitter := serialEmitter st;
  timers := timers st; next_timer := next_timer st;
  series_pos := series_pos st; trace := trace st |}.

Definition set_df v st := {|
  buffer := buffer st; data := data st; messagePending := messagePending st;
  binary := binary st; lock := lock st; pending := pending st;
  c_attempt := c_attempt st; globals := globals st; df := v; er := er st;
  kr := kr st; tf := tf st; serialEmitter := serialEmitter st;
  timers := timers st; next_timer := next_timer st;
  series_pos := series_pos st; trace := trace st |}.

Definition set_er v st := {|
  buffer := buffer st; data := data st; messagePending := messagePending st;
  binary := binary st; lock := lock st; pending := pending st;
  c_attempt := c_attempt st; globals := globals st; df := df st; er := v;
  kr := kr st; tf := tf st; serialEmitter := serialEmitter st;
  timers := timers st; next_timer := next_timer st;
  series_pos := series_pos st; trace := trace st |}.

Definition set_kr v st := {|
  buffer := buffer st; data := data st; messagePending := messagePending st;
  binary := binary st; lock := lock st; pending := pending st;
  c_attempt := c_attempt st; globals := globals st; df := df st; er := er st;
  kr := v; tf := tf st; serialEmitter := serialEmitter st;
  timers := timers st; next_timer := next_timer st;
  series_pos := series_pos st; trace := trace st |}.

Definition set_tf v st := {|
  buffer := buffer st; data := data st; messagePending := messagePending st;
  binary := binary st; lock := lock st; pending := pending st;
  c_attempt := c_attempt st; globals := globals st; df := df st; er := er st;
  kr := kr st; tf := v; serialEmitter := serialEmitter st;
  timers := timers st; next_timer := next_timer st;
  series_pos := series_pos st; trace := trace st |}.

Definition set_serialEmitter v st := {|
  buffer := buffer st; data := data st; messagePending := messagePending st;
  binary := binary st; lock := lock st; pending := pending st;
  c_attempt := c_attempt st; globals := globals st; df := df st; er := er st;
  kr := kr st; tf := tf st; serialEmitter := v;
  timers := timers st; next_timer := next_timer st;
  series_pos := series_pos st; trace := trace st |}.

Definition set_timers v n st := {|
  buffer := buffer st; data := data st; messagePending := messagePending st;
  binary := binary st; lock := lock st; pending := pending st;
  c_attempt := c_attempt st; globals := globals st; df := df st; er := er st;
  kr := kr st; tf := tf st; serialEmitter := serialEmitter st;
  timers := v; next_timer := n;
  series_pos := series_pos st; trace := trace st |}.

Definition set_series_pos v st := {|
  buffer := buffer st; data := data st; messagePending := messagePending st;
  binary := binary st; lock := lock st; pending := pending st;
  c_attempt := c_attempt st; globals := globals st; df := df st; er := er st;
  kr := kr st; tf := tf st; serialEmitter := serialEmitter st;
  timers := timers st; next_timer := next_timer st;
  series_pos := v; trace := trace st |}.

(** Append one effect to the trace. *)
Definition record (e : effect) st := {|
  buffer := buffer st; data := data st; messagePending := messagePending st;
  binary := binary st; lock := lock st; pending := pending st;
  c_attempt := c_attempt st; globals := globals st; df := df st; er := er st;
  kr := kr st; tf := tf st; serialEmitter := serialEmitter st;
  timers := timers st; next_timer := next_timer st;
  series_pos := series_pos st; trace := e :: trace st |}.

(** How a handler ends: normally, by an uncaught exception, or at a
    point where the outcome depends on library behaviour that is not
    modelled (UTF-8 decoding of a Buffer, async's handling of a task
    callback invoked twice). *)
Inductive outcome :=
| Ok (st : state)
| Throw (st : state) (exception : string)
| Unmodelled (st : state).

Definition bind (o : outcome) (k : state -> outcome) : outcome :=
  match o with
  | Ok st => k st
  | _ => o
  end.

(** ** Timers *)

(** [setTimeout(f, delay)]: a fresh handle. *)
Definition setTimeout (f : task) (delay : Z) (st : state) : nat * state :=
  let id := next_timer st in
  (id, set_timers ((id, (delay, f)) :: timers st) (S id) st).

(** [clearTimeout(id)] *)
Definition clearTimeout (id : nat) (st : state) : state :=
  set_timers (List.filter (fun t => negb (fst t =? id)%nat) (timers st))
             (next_timer st) st.

(** [if (tf) clearTimeout(tf)] *)
Definition cancel_tf (st : state) : state :=
  match tf st with
  | Some id => clearTimeout id st
  | None => st
  end.

Fixpoint find_timer (id : nat) (l : list (nat * (Z * task))) : option (Z * task) :=
  match l with
  | [] => None
  | (i, t) :: l' => if (i =? id)%nat then Some t else find_timer id l'
  end.

(** ** Logging, events, the port *)

Definition emit (e : emitted) (st : state) : state := record (Emit e) st.

(** [iridium.log(message)] *)
Definition log (message : list piece) (st : state) : state :=
  if (debug (globals st) =? 0)%Z then st else emit (ev_debug message) st.

(** [serialPort.write] *)
Definition write (w : strbuf) (st : state) : state := record (Write w) st.

(** ** AT: send one command (lines 570-592) *)

Definition AT (command : strbuf) (endregexp keepregexp : option regexp)
    (datafunction : fn) (timeout : option Z) (st : state) : state :=
  let st := set_er endregexp st in
  let st := set_kr keepregexp st in
  let st := cancel_tf st in
  (* [delete tf] leaves a [let] binding as it is *)
  let st := set_df (Some datafunction) st in
  let timeout := match timeout with
                 | Some t => if (t =? 0)%Z then defaultTimeout (globals st) else t
                 | None => defaultTimeout (globals st)
                 end in
  let st := if (0 <? timeout)%Z
            then let (id, st') := setTimeout (t_timeout command) timeout st in
                 set_tf (Some id) st'
            else st in
  match command with
  | Buf b => write (Buf b) (log [PStr "[BINARY] > "; PHex b] st)
  | Str s => write (Str (s ++ CR)) (log [PStr "> "; PData command] st)
  end.

(** lines 563-565 *)
Definition ATS (command : strbuf) (endregexp keepregexp : option regexp)
    (callback : fn) (timeout : option Z) (st : state) : state :=
  AT command endregexp keepregexp callback timeout st.

(** ** One-command operations *)

Definition waitForNetwork (callback : fn) (maxWait' : option Z) (st : state) : state :=
  ATS (Str "AT+CIER=1,1,0") (Some RE_CIEV) (Some ALL) callback
      (Some (match maxWait (globals st) with
             | Some w => if (w =? 0)%Z then timeoutForever (globals st) else w
             | None => timeoutForever (globals st)
             end)) st.

Definition getSystemTime (callback : fn) (st : state) : state :=
  AT (Str "AT+CCLK?") (Some OK) (Some ALL) (f_CCLK callback) None st.

Definition getNetworkTime (callback : fn) (st : state) : state :=
  AT (Str "AT-MSSTM") (Some OK) (Some ALL) (f_MSSTM callback) None st.

Definition getSignalQuality (callback : fn) (st : state) : state :=
  AT (Str "AT+CSQ") (Some OK) (Some ALL) (f_CSQ callback) None st.

Definition disableFlowControl (callback : fn) (st : state) : state :=
  let st := log [PStr "[SDB] DISABLING FLOW CONTROL"] st in
  ATS (Str "AT&K0") (Some OK) (Some ALL) callback
      (Some (simpleTimeout (globals st))) st.

Definition disableSignalMonitoring (callback : fn) (st : state) : state :=
  ATS (Str "AT+CIER=0,0,0") (Some OK) (Some ALL) callback
      (Some (simpleTimeout (globals st))) st.

Definition ringAlertEnable (callback : fn) (st : state) : state :=
  ATS (Str "AT+SBDMTA=1") (Some OK) (Some ALL) callback
      (Some (simpleTimeout (globals st))) st.

Definition echoOff (callback : fn) (st : state) : state :=
  ATS (Str "ATE0") (Some OK) (Some ALL) callback
      (Some (simpleTimeout (globals st))) st.

Definition enableRegistration (callback : fn) (st : state) : state :=
  ATS (Str "AT+SBDAREG=1") (Some OK) (Some ALL) callback
      (Some (simpleTimeout (globals st))) st.

Definition clearMOBuffers (callback : fn) (st : state) : state :=
  ATS (Str "AT+SBDD0") (Some OK) (Some ALL) callback
      (Some (simpleTimeout (globals st))) st.

Definition clearMTBuffers (callback : fn) (st : state) : state :=
  ATS (Str "AT+SBDD1") (Some OK) (Some ALL) callback
      (Some (simpleTimeout (globals st))) st.

Definition clearBuffers (callback : fn) (st : state) : state :=
  ATS (Str "AT+SBDD2") (Some OK) (Some ALL) callback
      (Some (simpleTimeout (globals st))) st.

(** lines 254-263 *)
Definition enableBinaryMode (bufferTimeout : Z) (st : state) : state :=
  let b := binary st in
  let st := set_binary {| mode := true; binary_buffer := binary_buffer b;
                          bufferCounter := bufferCounter b |} st in
  snd (setTimeout t_flush bufferTimeout st).

(** lines 441-463 *)
Definition readBinaryMessage (mtqueued : string) (callback : fn) (st : state) : state :=
  let st := enableBinaryMode 1000 st in
  AT (Str "AT+SBDRB") None None (f_SBDRB mtqueued callback)
     (Some (simpleTimeout (globals st))) st.

(** lines 485-487 *)
Definition initiateSession (callback : fn) (st : state) : state :=
  AT (Str "AT+SBDIXA") (Some OK) (Some RE_SBDIX) (f_SBDIXA callback) None st.

(** lines 556-560 *)
Definition finishSession (callback : fn) (momsn : result) (st : state) : state :=
  clearMOBuffers (f_finish callback momsn) st.

(** sendMessage, lines 223-228.  A Buffer given as the message is truthy;
    its text is empty when the Buffer is. *)
Definition sendMessage (message : strbuf) (callback : fn) (maxWait' : option Z)
    (st : state) : outcome :=
  match message with
  | Str s =>
      let command := if strbuf_truthy message then "AT+SBDWT=" ++ s else "AT+SBDD0" in
      Ok (AT (Str command) (Some OK) (Some ALL) (f_SBDWT callback maxWait') None st)
  | Buf [] =>
      Ok (AT (Str ("AT+SBDWT=" ++ "")) (Some OK) (Some ALL)
             (f_SBDWT callback maxWait') None st)
  | Buf _ => Unmodelled st
  end.

(** sendBinaryMessage, lines 162-183 *)
Definition sendBinaryMessage (message : strbuf) (callback : fn)
    (maxWait' : option Z) (st : state) : outcome :=
  if (strbuf_length message =? 0)%nat then sendMessage message callback maxWait' st
  else
    match message with
    | Str _ => Throw st "TypeError: the size argument must be a number"
    | Buf buffer =>
        let command := "AT+SBDWB=" ++ decimal (length buffer) in
        let ob := checksum_frame buffer in
        Ok (AT (Str command) (Some RE_READY) (Some ALL) (f_SBDWB ob callback) None st)
    end.

(** ** Unsolicited responses *)

(** lines 52-54 *)
Definition sbdring (st : state) : outcome := Ok (emit ev_ringalert st).

(** lines 66-71 *)
Definition areg (line : string) (st : state) : outcome :=
  match match_AREG line with
  | Some [regevent; regerr] =>
      Ok (log [PStr "Registration result: "; PStr regevent;
               PStr " with error "; PStr regerr] st)
  | _ => Throw st "TypeError: cannot read properties of null"
  end.

Inductive handler := h_sbdring | h_areg.

(** The table [iridium.unsollicited], in its key order. *)
Definition unsollicited : list (regexp * handler) :=
  [(RE_SBDRING, h_sbdring); (RE_AREG, h_areg)].

(** The table [iridium.errors]. *)
Definition errors : list regexp := [RE_ERROR].

Definition execute (h : handler) (line : string) (st : state) : outcome :=
  match h with
  | h_sbdring => sbdring st
  | h_areg => areg line st
  end.

(** The first entry of a table whose pattern matches the line. *)
Fixpoint first_match {A} (table : list (regexp * A)) (line : string) : option A :=
  match table with
  | [] => None
  | (pattern, a) :: table' =>
      if test pattern line then Some a else first_match table' line
  end.

Definition first_error (line : string) : option regexp :=
  first_match (map (fun e => (e, e)) errors) line.

(** ** Initialisation (lines 87-111) *)

(** async.series over echoOff, clearBuffers, enableRegistration,
    ringAlertEnable, initComplete: what the callback of task [i] does when
    the task reports [err].  initComplete calls its callback at once, so
    it is run here together with the final callback of batchProcess. *)
Definition series_callback (i : nat) (err : jsval) (st : state) : outcome :=
  if negb (i =? series_pos st)%nat then Unmodelled st
  else
    let st := set_series_pos (S i) st in
    if truthy err then Ok (log [PStr "Batch process had error: "] st)
    else
      match i with
      | 0 => Ok (clearBuffers (f_series 1) st)
      | 1 => Ok (enableRegistration (f_series 2) st)
      | 2 => Ok (ringAlertEnable (f_series 3) st)
      | 3 =>
          let st := emit ev_initialized st in
          let st := log [PStr "[SBD] IRIDIUM INITIALIZED"] st in
          let st := set_series_pos 5 st in
          Ok (log [PStr "Batch process completed OK"] st)
      | _ => Unmodelled st
      end.

Definition init (st : state) : state :=
  echoOff (f_series 0) (set_series_pos 0 st).

(** ** Running a closure *)

(** [ib.copy(messageBuffer, 0, 2, messageLength + 2)] into a fresh
    Buffer of [messageLength] octets: what the blob lacks stays zero. *)
Definition message_of (messageLength : nat) (after_header : list octet) : list octet :=
  take messageLength (after_header ++ Buffer_alloc messageLength)%list.

Fixpoint call (f : fn) (err : jsval) (r : result) (st : state) {struct f} : outcome :=
  match f with
  | f_undefined => Throw st "TypeError: callback is not a function"
  | f_app id => Ok (record (Called id err r) st)
  | f_series i => series_callback i err st
  | f_mailboxSend buffer callback =>
      if eq_null err then
        let st := if strbuf_truthy buffer
                  then log [PStr "[SBD] Binary message sent successfully, assigned MOMSN ";
                            PRes r] st
                  else st in
        let st := if (0 <? pending st)%Z
                  then snd (setTimeout t_drain 1000 st)
                  else set_lock 0 st in
        call callback EFalse r st
      else
        let st := log [PStr "[SBD] Iridium returned error "; PVal err;
                       PStr ", will retry in 20s"] st in
        Ok (snd (setTimeout (t_retry buffer callback) 20000 st))
  | f_SBDWB ob callback =>
      if truthy err then
        Ok (clearMOBuffers (f_fail callback err) (set_messagePending 0 st))
      else
        Ok (ATS (Buf ob) (Some OK) (Some ALL) (f_written callback) None st)
  | f_written callback =>
      if truthy err then
        Ok (clearMOBuffers (f_fail callback err) (set_messagePending 0 st))
      else
        let st := set_messagePending 1 st in
        Ok (waitForNetwork (f_network callback) (maxWait (globals st)) st)
  | f_SBDWT callback maxWait' =>
      if truthy err then
        Ok (clearMOBuffers (f_fail callback err) (set_messagePending 0 st))
      else
        let st := set_messagePending 1 st in
        Ok (waitForNetwork (f_network callback) maxWait' st)
  | f_network callback =>
      if truthy err then
        Ok (clearMOBuffers (f_fail callback err) (set_messagePending 0 st))
      else
        let st := set_messagePending 2 st in
        Ok (disableSignalMonitoring (f_monitoring_off callback) st)
  | f_monitoring_off callback => Ok (initiateSession callback st)
  | f_fail callback err' => call callback err' RUndefined st
  | f_CCLK callback =>
      if truthy err then call callback err RUndefined st
      else
        match r with
        | RStr result =>
            match match_CCLK result with
            | None => call callback (EStr "UNKNOWN_TIME") RUndefined st
            | Some m => call callback ENull (RDateUTC m) st
            end
        | _ => Throw st "TypeError: result.match is not a function"
        end
  | f_MSSTM callback =>
      if truthy err then call callback err RUndefined st
      else
        match r with
        | RStr result =>
            match match_MSSTM result with
            | None => call callback (EStr "UNKNOWN_TIME") RUndefined st
            | Some m1 => call callback ENull (RIridiumTime m1) st
            end
        | _ => Throw st "TypeError: result.match is not a function"
        end
  | f_CSQ callback =>
      if truthy err then call callback err RUndefined st
      else
        match r with
        | RStr result =>
            match match_CSQ result with
            | None => call callback (EStr "UNKNOWN_SIGNAL_QUALITY") RUndefined st
            | Some m1 => call callback ENull (RParseInt m1) st
            end
        | _ => Throw st "TypeError: result.match is not a function"
        end
  | f_SBDRB mtqueued callback =>
      if truthy err then Ok (clearMTBuffers (f_fail callback err) st)
      else
        match r with
        | RBuf (hi :: lo :: after_header) =>
            let messageLength := Z.to_nat (256 * octet_val hi + octet_val lo) in
            let messageBuffer := message_of messageLength after_header in
            let st := log [PStr "Received message is "; PHex messageBuffer] st in
            let b := binary st in
            let st := set_binary {| mode := false; binary_buffer := binary_buffer b;
                                    bufferCounter := bufferCounter b |} st in
            let st := set_pending (to_number mtqueued) st in
            let st := emit (ev_newmessage messageBuffer mtqueued) st in
            Ok (clearMTBuffers callback st)
        | RBuf _ => Throw st "RangeError: attempt to access memory outside buffer bounds"
        | _ => Throw st "TypeError: ib.readUInt16BE is not a function"
        end
  | f_SBDIXA callback =>
      if truthy err then
        Ok (clearMOBuffers (f_fail callback err) (set_messagePending 1 st))
      else
        match r with
        | RStr text =>
            match match_SBDIX text with
            | Some m =>
                if (to_number (status m) <=? 4)%Z then
                  let st := log [PStr "MO message transferred successfully"] st in
                  let st := set_messagePending 0 st in
                  let st := if (0 <? to_number (mtqueued m))%Z
                            then log [PStr "There are still "; PStr (mtqueued m);
                                      PStr " messages waiting!"] st
                            else st in
                  if (to_number (mtstatus m) =? 0)%Z then
                    let st := log [PStr "No MT messages are pending"] st in
                    Ok (finishSession callback (RStr (momsn m)) st)
                  else if (to_number (mtstatus m) =? 1)%Z then
                    let st := log [PStr "A MT message has been transferred, use AT+SBDRT to read it"] st in
                    Ok (readBinaryMessage (mtqueued m) (f_MT_read callback (momsn m)) st)
                  else
                    let st := log [PStr "Error determining MT status: ";
                                   PStr (mtstatus m)] st in
                    Ok (finishSession callback (RStr (momsn m)) st)
                else if (to_number (status m) =? 18)%Z then
                  let st := log [PStr "MO message failed, radio failure"] st in
                  let st := set_messagePending 1 st in
                  Ok (clearMOBuffers (f_fail callback (EStr "radio failure")) st)
                else if (to_number (status m) =? 32)%Z then
                  let st := log [PStr "MO message failed, network failure"] st in
                  let st := set_messagePending 1 st in
                  Ok (clearMOBuffers (f_fail callback (EStr "network failure")) st)
                else
                  let st := log [PStr "MO message failed, error "; PStr (status m)] st in
                  let st := set_messagePending 1 st in
                  Ok (clearMOBuffers (f_fail callback (EStr "unknown failure")) st)
            | None =>
                (* [momsn] is not in scope in this branch *)
                Throw (log [PStr "Error parsing SBDIX!"] st)
                      "ReferenceError: momsn is not defined"
            end
        | _ => Throw st "TypeError: text.match is not a function"
        end
  | f_MT_read callback momsn =>
      Ok (clearMOBuffers (f_finish callback (RStr momsn)) st)
  | f_finish callback momsn => call callback err momsn st
  end.

(** The wrapper [df] built by AT (lines 575-579). *)
Definition invoke_df (err : jsval) (text : result) (st : state) : outcome :=
  match df st with
  | None => Throw st "TypeError: df is not a function"
  | Some datafunction =>
      let st := cancel_tf st in
      call datafunction err text (record (Completed err text) st)
  end.

(** ** mailboxSend and mailboxCheck (lines 124-160) *)

Definition mailboxSend (buffer : strbuf) (callback : fn) (st : state) : outcome :=
  let st := set_c_attempt (incr (c_attempt st)) st in
  if num_le (c_attempt st) (maxAttempts (globals st)) then
    let st := set_lock 1 st in
    sendBinaryMessage buffer (f_mailboxSend buffer callback) None
                      (record (Attempt buffer) st)
  else
    let st := log [PStr "[SBD] Failed to send. The maxAttempts of send requests has been reached."] st in
    call callback
         (EObj "Failed to send. The maxAttempts of send requests has been reached.")
         RUndefined st.

(** The double nearest to the integer [z] (ties to the even mantissa), for
    [z] below the largest double: a double holds 53 significant bits. *)
Definition round_double (z : Z) : Z :=
  let a := Z.abs z in
  let ulp := (2 ^ Z.max 0 (Z.log2 a - 52))%Z in
  let q := (a / ulp)%Z in
  let r := (a mod ulp)%Z in
  let q' := if (2 * r <? ulp)%Z then q
            else if (ulp <? 2 * r)%Z then (q + 1)%Z
            else if Z.even q then q else (q + 1)%Z in
  (Z.sgn z * (q' * ulp))%Z.

(** [iridium.pending++].  The counter holds a number or, after an MT
    message, the text mtqueued of the status line, whose value [pending] is:
    the text is converted to a double, one is added, and the sum is a
    double again.  Below 2^53 that is the exact successor.  A text of more
    than 20 significant digits is converted as the engine chooses, so
    values from 2^64 on are left out, as are those at or below -2^53, which
    nothing stores. *)
Definition increment (z : Z) : option Z :=
  if ((- 2 ^ 53 <? z) && (z <? 2 ^ 64))%Z
  then Some (round_double (round_double z + 1))
  else None.

Definition mailboxCheck (st : state) : outcome :=
  if (lock st =? 0)%Z then sendMessage (Str "") f_undefined None st
  else match increment (pending st) with
       | Some p => Ok (set_pending p st)
       | None => Unmodelled st
       end.

(** ** The data handler installed by open (lines 306-341) *)

Definition on_data (data : strbuf) (st : state) : outcome :=
  let st := log [PStr "< "; PData data] st in
  match er st with
  | None =>
      (* [delete(df)] and [delete(er)] leave the [let] bindings as they are *)
      invoke_df ENull (result_of data) st
  | Some er' =>
      match data with
      | Buf _ => Unmodelled st
      | Str line =>
          match first_match unsollicited line with
          | Some h => execute h line st
          | None =>
              match first_error line with
              | Some e =>
                  bind (invoke_df (ERegExp e) (RStr (buffer st)) st)
                       (fun st => Ok (set_buffer "" st))
              | None =>
                  let st := match kr st with
                            | Some kr' =>
                                if test kr' line
                                then set_buffer (buffer st ++ (line ++ LF)) st
                                else st
                            | None => set_buffer (buffer st ++ (line ++ LF)) st
                            end in
                  if test er' line then
                    bind (invoke_df ENull (RStr (buffer st)) st)
                         (fun st => Ok (set_buffer "" st))
                  else Ok st
              end
          end
      end
  end.

(** ** readSBD: the parser given to the serial port (lines 265-282) *)

(** [source.copy(target, offset)]: octets that do not fit are dropped. *)
Fixpoint copy_at (source : list octet) (offset : nat) (target : list octet)
  : list octet :=
  match source with
  | [] => target
  | b :: source' => copy_at source' (S offset) (<[offset := b]> target)
  end.

(** [parts.forEach(part => emitter.emit('data', part))] *)
Fixpoint emit_data (parts : list string) (st : state) : outcome :=
  match parts with
  | [] => Ok st
  | part :: parts' => bind (on_data (Str part) st) (emit_data parts')
  end.

Definition readSBD (buffer : string) (st : state) : outcome :=
  let st := set_serialEmitter true st in
  let b := binary st in
  if mode b then
    Ok (set_binary
          {| mode := mode b;
             binary_buffer := copy_at (list_ascii_of_string buffer)
                                      (bufferCounter b) (binary_buffer b);
             bufferCounter := bufferCounter b + String.length buffer |} st)
  else
    let (parts, rest) := frame_text (data st) buffer in
    emit_data parts (set_data rest st).

(** ** Timer callbacks *)

(** The flush armed by enableBinaryMode (lines 256-262). *)
Definition flush (st : state) : outcome :=
  let b := binary st in
  let ob := copy_at (take (bufferCounter b) (binary_buffer b)) 0
                    (Buffer_alloc (bufferCounter b)) in
  if serialEmitter st then
    bind (on_data (Buf ob) st)
         (fun st =>
            let b := binary st in
            Ok (set_binary {| mode := false; binary_buffer := binary_buffer b;
                              bufferCounter := 0 |} st))
  else Throw st "TypeError: cannot read properties of undefined".

(** The timer with handle [id] expires. *)
Definition fire (id : nat) (st : state) : outcome :=
  match find_timer id (timers st) with
  | None => Ok st
  | Some (_, f) =>
      let st := clearTimeout id st in
      match f with
      | t_timeout command =>
          Ok (log [PStr "Sending a timeout event for command "; PData command] st)
      | t_flush => flush st
      | t_drain => sendMessage (Str "") f_undefined None st
      | t_retry buffer callback => mailboxSend buffer callback st
      end
  end.

(** ** open (lines 286-354) *)

(** [iridium.globals[key] = config[key]] when the key is one of globals. *)
Definition set_option (key : string) (v : Z) (g : globals_t) : globals_t :=
  if String.eqb key "bars" then
    {| bars := v; baudrate := baudrate g; debug := debug g;
       defaultTimeout := defaultTimeout g; simpleTimeout := simpleTimeout g;
       timeoutForever := timeoutForever g; maxAttempts := maxAttempts g;
       maxWait := maxWait g |}
  else if String.eqb key "baudrate" then
    {| bars := bars g; baudrate := v; debug := debug g;
       defaultTimeout := defaultTimeout g; simpleTimeout := simpleTimeout g;
       timeoutForever := timeoutForever g; maxAttempts := maxAttempts g;
       maxWait := maxWait g |}
  else if String.eqb key "debug" then
    {| bars := bars g; baudrate := baudrate g; debug := v;
       defaultTimeout := defaultTimeout g; simpleTimeout := simpleTimeout g;
       timeoutForever := timeoutForever g; maxAttempts := maxAttempts g;
       maxWait := maxWait g |}
  else if String.eqb key "defaultTimeout" then
    {| bars := bars g; baudrate := baudrate g; debug := debug g;
       defaultTimeout := v; simpleTimeout := simpleTimeout g;
       timeoutForever := timeoutForever g; maxAttempts := maxAttempts g;
       maxWait := maxWait g |}
  else if String.eqb key "simpleTimeout" then
    {| bars := bars g; baudrate := baudrate g; debug := debug g;
       defaultTimeout := defaultTimeout g; simpleTimeout := v;
       timeoutForever := timeoutForever g; maxAttempts := maxAttempts g;
       maxWait := maxWait g |}
  else if String.eqb key "timeoutForever" then
    {| bars := bars g; baudrate := baudrate g; debug := debug g;
       defaultTimeout := defaultTimeout g; simpleTimeout := simpleTimeout g;
       timeoutForever := v; maxAttempts := maxAttempts g;
       maxWait := maxWait g |}
  else if String.eqb key "maxAttempts" then
    {| bars := bars g; baudrate := baudrate g; debug := debug g;
       defaultTimeout := defaultTimeout g; simpleTimeout := simpleTimeout g;
       timeoutForever := timeoutForever g; maxAttempts := v;
       maxWait := maxWait g |}
  else if String.eqb key "maxWait" then
    (* only when something has defined globals.maxWait before *)
    match maxWait g with
    | Some _ =>
        {| bars := bars g; baudrate := baudrate g; debug := debug g;
           defaultTimeout := defaultTimeout g; simpleTimeout := simpleTimeout g;
           timeoutForever := timeoutForever g; maxAttempts := maxAttempts g;
           maxWait := Some v |}
    | None => g
    end
  else g.

(** The numeric options of a config object, in key order.  The keys port
    and flowControl only reach the serial port, which is not modelled. *)
Fixpoint open (config : list (string * Z)) (st : state) : state :=
  match config with
  | [] => st
  | (key, v) :: config' =>
      let st := set_globals (set_option key v (globals st)) st in
      let st := log [PStr "set option: "; PStr key; PStr ": "; PNum v] st in
      open config' st
  end.

(** ** The event loop *)

Inductive event :=
| PortOpen                       (* the port reports open: init runs *)
| SerialData (chunk : string)    (* the port hands a chunk to readSBD *)
| TimerFires (id : nat).

Definition step (ev : event) (st : state) : outcome :=
  match ev with
  | PortOpen => Ok (init st)
  | SerialData chunk => readSBD chunk st
  | TimerFires id => fire id st
  end.

(** An uncaught exception ends the process. *)
Fixpoint run (evs : list event) (st : state) : outcome :=
  match evs with
  | [] => Ok st
  | ev :: evs' => bind (step ev st) (run evs')
  end.

(** ** Reading the trace *)

Definition is_write (e : effect) : bool :=
  match e with Write _ => true | _ => false end.

Definition is_completed (e : effect) : bool :=
  match e with Completed _ _ => true | _ => false end.

Definition is_attempt (e : effect) : bool :=
  match e with Attempt _ => true | _ => false end.

(** Commands sent: every AT call writes once, and nothing else writes. *)
Definition sends (st : state) : nat := length (List.filter is_write (trace st)).

(** Completions: runs of a datafunction. *)
Definition completions (st : state) : nat :=
  length (List.filter is_completed (trace st)).

(** Send attempts started by mailboxSend. *)
Definition attempts (st : state) : nat :=
  length (List.filter is_attempt (trace st)).

(** What was written to the port, newest first. *)
Fixpoint writes_of (t : list effect) : list strbuf :=
  match t with
  | [] => []
  | Write w :: t' => w :: writes_of t'
  | _ :: t' => writes_of t'
  end.

Definition writes (st : state) : list strbuf := writes_of (trace st).

(** The application callbacks that ran, newest first. *)
Fixpoint calls_of (t : list effect) : list (nat * jsval * result) :=
  match t with
  | [] => []
  | Called id err r :: t' => (id, err, r) :: calls_of t'
  | _ :: t' => calls_of t'
  end.

Definition calls (st : state) : list (nat * jsval * result) := calls_of (trace st).

(** Events other than debug messages, newest first. *)
Fixpoint events_of (t : list effect) : list emitted :=
  match t with
  | [] => []
  | Emit (ev_debug _) :: t' => events_of t'
  | Emit e :: t' => e :: events_of t'
  | _ :: t' => events_of t'
  end.

Definition events (st : state) : list emitted := events_of (trace st).

(** A command is in flight when more were sent than completed. *)
Definition inflight (st : state) : Prop := (completions st < sends st)%nat.

Definition state_of (o : outcome) : state :=
  match o with
  | Ok st | Throw st _ | Unmodelled st => st
  end.

(** Send attempts that the counter still allows. *)
Definition quota (st : state) : Z :=
  match c_attempt st with
  | Num c => Z.max 0 (maxAttempts (globals st) - c)
  | _ => 0%Z
  end.

(** ** The three modem queries *)

Inductive query := SignalQuality | SystemTime | NetworkTime.

(** The datafunction each query hands to AT. *)
Definition query_fn (q : query) (callback : fn) : fn :=
  match q with
  | SignalQuality => f_CSQ callback
  | SystemTime => f_CCLK callback
  | NetworkTime => f_MSSTM callback
  end.

(** The error a query hands to the application for the response [text]. *)
Definition reported_error (q : query) (text : string) : option jsval :=
  match calls (state_of (call (query_fn q (f_app 0)) ENull (RStr text) iridium)) with
  | (_, err, _) :: _ => Some err
  | [] => None
  end.

(** ** The MO dispositions, as the specification words them *)

Inductive mo_disposition :=
| MO_succeeded
| MO_failed (reason : string).

Definition mo_disposition_of (status : Z) : mo_disposition :=
  if (status <=? 4)%Z then MO_succeeded
  else if (status =? 18)%Z then MO_failed "radio failure"
  else if (status =? 32)%Z then MO_failed "network failure"
  else MO_failed "unknown failure".

(** ** Scenarios *)

Definition ok_line : string := "OK" ++ CR ++ LF.

(** The driver once the port is open and the modem has answered OK to
    the four initialisation commands. *)
Definition ready : state :=
  state_of (run [PortOpen; SerialData ok_line; SerialData ok_line;
                 SerialData ok_line; SerialData ok_line] iridium).

(** A text send as far as the session command AT+SBDIXA. *)
Definition in_session : state :=
  state_of (bind (sendMessage (Str "hi") (f_app 7) None ready)
                 (run [SerialData ok_line;
                       SerialData ("+CIEV:0,3" ++ CR ++ LF);
                       SerialData ok_line])).

(** The session reports one MT message: the binary read AT+SBDRB is sent. *)
Definition reading_MT : state :=
  state_of (run [SerialData ("+SBDIX: 0, 1, 1, 1, 4, 0" ++ CR ++ LF);
                 SerialData ok_line] in_session).

(** A signal-quality query that the modem has answered. *)
Definition after_query : state :=
  state_of (run [SerialData ("+CSQ:5" ++ CR ++ LF); SerialData ok_line]
                (getSignalQuality (f_app 9) ready)).

(** ** Properties stated below *)

(** What sending a command leaves alone. *)
Definition same_session (st st' : state) : Prop :=
  buffer st' = buffer st /\ data st' = data st /\
  messagePending st' = messagePending st /\ binary st' = binary st /\
  lock st' = lock st /\ pending st' = pending st /\
  c_attempt st' = c_attempt st /\ globals st' = globals st /\
  serialEmitter st' = serialEmitter st /\ series_pos st' = series_pos st /\
  calls st' = calls st /\ events st' = events st /\
  completions st' = completions st /\ attempts st' = attempts st.

Definition wire_of (command : strbuf) : strbuf :=
  match command with
  | Str s => Str (s ++ CR)
  | Buf b => Buf b
  end.

(** The claim for one command: sending it arms no timer, that is, the
    pending timers are those left once the previous timeout is cancelled. *)
Definition arms_no_timer (command : strbuf) (e k : option regexp) (f : fn)
    (timeout : Z) (st : state) : Prop :=
  timers (AT command e k f (Some timeout) st) = timers (cancel_tf st).

Definition unsolicited_first (line : string) (st : state) : Prop :=
  forall h,
    first_match unsollicited line = Some h ->
    on_data (Str line) st =
      execute h line (log [PStr "< "; PData (Str line)] st) /\
    buffer (state_of (on_data (Str line) st)) = buffer st /\
    df (state_of (on_data (Str line) st)) = df st /\
    writes (state_of (on_data (Str line) st)) = writes st /\
    completions (state_of (on_data (Str line) st)) = completions st.

Definition parse_failure_kind (q : query) : string :=
  match q with
  | SignalQuality => "UNKNOWN_SIGNAL_QUALITY"
  | SystemTime | NetworkTime => "UNKNOWN_TIME"
  end.

Definition distinct_parse_errors (q1 q2 : query) (text1 text2 : string) : Prop :=
  reported_error q1 text1 <> reported_error q2 text2.

(** [st] differs from [st0] in nothing the attempt count depends on. *)
Definition keeps (st0 st : state) : Prop :=
  globals st = globals st0 /\ c_attempt st = c_attempt st0 /\
  attempts st = attempts st0.

(** What the counter still allows never grows, and every attempt uses
    one unit of it. *)
Definition within_quota (st0 st : state) : Prop :=
  globals st = globals st0 /\
  (attempts st0 <= attempts st)%nat /\
  (Z.of_nat (attempts st) + quota st <= Z.of_nat (attempts st0) + quota st0)%Z.

Definition too_many : string :=
  "Failed to send. The maxAttempts of send requests has been reached.".

(** ** Vocabulary of the further properties *)

(** Each line followed by LF, in order: the bytes a run of lines came from. *)
Fixpoint unlines (lines : list string) : string :=
  match lines with
  | [] => ""
  | line :: lines' => line ++ LF ++ unlines lines'
  end.

(** Every element of a list of strings holds no line feed. *)
Fixpoint all_no_lf (lines : list string) : bool :=
  match lines with
  | [] => true
  | line :: lines' => no_lf line && all_no_lf lines'
  end.

(** The octets received so far in binary mode and not yet flushed. *)
Definition binary_received (st : state) : list octet :=
  take (bufferCounter (binary st)) (binary_buffer (binary st)).

(** The Buffer that the flush timer hands to the data handler. *)
Definition flushed_blob (st : state) : list octet :=
  copy_at (take (bufferCounter (binary st)) (binary_buffer (binary st))) 0
          (Buffer_alloc (bufferCounter (binary st))).

(** Back to text mode with an empty binary buffer count. *)
Definition end_binary (st : state) : outcome :=
  Ok (set_binary {| mode := false; binary_buffer := binary_buffer (binary st);
                    bufferCounter := 0 |} st).

(** The reply to AT+SBDRB: two octets of length (high first), the
    payload, then whatever follows (the two checksum octets). *)
Definition SBDRB_frame (payload trailer : list octet) : list octet :=
  (to_octet (Z.of_nat (length payload) / 256) ::
   to_octet (Z.of_nat (length payload)) :: payload ++ trailer)%list.

(** The delay AT uses: the given one, or defaultTimeout when it is
    missing or 0. *)
Definition effective_timeout (timeout : option Z) (st : state) : Z :=
  match timeout with
  | Some t => if (t =? 0)%Z then defaultTimeout (globals st) else t
  | None => defaultTimeout (globals st)
  end.

(** [!kr || kr.test(line)] *)
Definition kept (k : option regexp) (line : string) : bool :=
  match k with
  | Some kr' => test kr' line
  | None => true
  end.

(** A line that is neither unsolicited, nor an error, nor the end of the
    command with end pattern [e]. *)
Definition body_line (e : regexp) (line : string) : bool :=
  match first_match unsollicited line, first_error line with
  | None, None => negb (test e line)
  | _, _ => false
  end.

(** A line that ends the command with end pattern [e]. *)
Definition end_line (e : regexp) (line : string) : bool :=
  match first_match unsollicited line, first_error line with
  | None, None => test e line
  | _, _ => false
  end.

(** Everything but the body buffer and the debug trace is as before. *)
Definition only_body_differs (st st' : state) : Prop :=
  data st' = data st /\ messagePending st' = messagePending st /\
  binary st' = binary st /\ lock st' = lock st /\ pending st' = pending st /\
  c_attempt st' = c_attempt st /\ globals st' = globals st /\
  df st' = df st /\ er st' = er st /\ kr st' = kr st /\ tf st' = tf st /\
  timers st' = timers st /\ next_timer st' = next_timer st /\
  series_pos st' = series_pos st /\
  writes st' = writes st /\ calls st' = calls st /\ events st' = events st /\
  sends st' = sends st /\ completions st' = completions st.

(** The option names that open copies into globals on the initial
    object (port and flowControl only reach the serial port). *)
Definition known_option (key : string) : bool :=
  existsb (String.eqb key)
    ["bars"; "baudrate"; "debug"; "defaultTimeout"; "simpleTimeout";
     "timeoutForever"; "maxAttempts"].

(** The datafunctions of the stages of a send, up to the session. *)
Definition send_stages (ob : list octet) (callback : fn) (maxWait' : option Z)
  : list fn :=
  [f_SBDWB ob callback; f_written callback; f_SBDWT callback maxWait';
   f_network callback; f_SBDIXA callback].

(** messagePending after a failed stage. *)
Definition pending_after_failure (f : fn) : Z :=
  match f with
  | f_SBDIXA _ => 1%Z
  | _ => 0%Z
  end.

(** A non-empty string of decimal digits. *)
Fixpoint digits_only (s : string) : bool :=
  match s with
  | "" => true
  | String c s' => is_digit c && digits_only s'
  end.

Definition number_text (s : string) : bool :=
  negb (String.eqb s "") && digits_only s.

Definition starts_with_digit (s : string) : bool :=
  match s with
  | "" => false
  | String c _ => is_digit c
  end.

(** The status line of a session, as the modem prints it. *)
Definition SBDIX_line (m : sbdix) : string :=
  "+SBDIX: " ++ status m ++ ", " ++ momsn m ++ ", " ++ mtstatus m ++ ", " ++
  mtmsn m ++ ", " ++ mtlen m ++ ", " ++ mtqueued m.

(** All six fields are numbers. *)
Definition well_formed (m : sbdix) : bool :=
  number_text (status m) && number_text (momsn m) && number_text (mtstatus m) &&
  number_text (mtmsn m) && number_text (mtlen m) && number_text (mtqueued m).

(** [st'] is [st] after a line has gone through the data handler and
    before the datafunction runs: what the datafunction can observe of the
    session is unchanged. *)
Definition arrived (st st' : state) : Prop :=
  data st' = "" /\ binary st' = binary st /\
  messagePending st' = messagePending st /\ lock st' = lock st /\
  pending st' = pending st /\ c_attempt st' = c_attempt st /\
  globals st' = globals st /\ series_pos st' = series_pos st /\
  writes st' = writes st /\ calls st' = calls st /\ events st' = events st.

(** Whether the character [c] occurs in [s]. *)
Fixpoint has_char (c : ascii) (s : string) : bool :=
  match s with
  | "" => false
  | String c' s' => Ascii.eqb c c' || has_char c s'
  end.

(** The signal-quality indication with [bars] bars. *)
Definition CIEV_line (bars : ascii) : string := "+CIEV:0," ++ String bars "".

(** What the driver has written for a text send or mailbox check that
    went through, newest first. *)
Definition session_writes (command : string) : list strbuf :=
  [Str ("AT+SBDD0" ++ CR); Str ("AT+SBDIXA" ++ CR); Str ("AT+CIER=0,0,0" ++ CR);
   Str ("AT+CIER=1,1,0" ++ CR); Str (command ++ CR)].

(** The replies of the modem to a send that goes through with no MT
    message to read: OK to the write, a signal indication, OK to the end of
    monitoring, the session result and its OK, OK to the buffer clear. *)
Definition session_replies (bars : ascii) (m : sbdix) : list event :=
  [SerialData (("OK" ++ CR) ++ LF);
   SerialData ((CIEV_line bars ++ CR) ++ LF);
   SerialData (("OK" ++ CR) ++ LF);
   SerialData ((SBDIX_line m ++ CR) ++ LF);
   SerialData (("OK" ++ CR) ++ LF);
   SerialData (("OK" ++ CR) ++ LF)].

(** [message ? "AT+SBDWT=" + message : "AT+SBDD0"] *)
Definition write_command (message : string) : string :=
  if strbuf_truthy (Str message) then "AT+SBDWT=" ++ message else "AT+SBDD0".

(** ** The responses to the three queries *)

(** The shapes the specification gives: [CSQ:\s*(\d+)], the clock
    [CCLK:YY/MM/DD,HH:MM:SS], and [-MSSTM:] with a hexadecimal token.
    These follow the specification's words, not the patterns of the code. *)
Definition is_hex (c : ascii) : bool :=
  let n := nat_of_ascii c in
  is_digit c || ((97 <=? n)%nat && (n <=? 102)%nat)
  || ((65 <=? n)%nat && (n <=? 70)%nat).

(** Some suffix of [s] satisfies [m]. *)
Definition found (m : string -> bool) (s : string) : bool :=
  match search (fun s' => if m s' then Some tt else None) s with
  | Some _ => true
  | None => false
  end.

(** What follows the tag and the white space after it. *)
Definition after_tag (tag s : string) : option string :=
  match strip_prefix tag s with
  | Some rest => Some (snd (span is_space rest))
  | None => None
  end.

Definition csq_shape_here (s : string) : bool :=
  match after_tag "CSQ:" s with
  | Some (String c _) => is_digit c
  | _ => false
  end.

Definition msstm_shape_here (s : string) : bool :=
  match after_tag "-MSSTM:" s with
  | Some (String c _) => is_hex c
  | _ => false
  end.

Definition two_digits (s : string) : option string :=
  match s with
  | String a (String b rest) => if is_digit a && is_digit b then Some rest else None
  | _ => None
  end.

Fixpoint two_digit_fields (seps : list string) (s : string) : option string :=
  match two_digits s with
  | None => None
  | Some rest =>
      match seps with
      | [] => Some rest
      | sep :: seps' =>
          match strip_prefix sep rest with
          | None => None
          | Some rest' => two_digit_fields seps' rest'
          end
      end
  end.

Definition cclk_shape_here (s : string) : bool :=
  match strip_prefix "CCLK:" s with
  | Some rest =>
      match two_digit_fields ["/"; "/"; ","; ":"; ":"] rest with
      | Some _ => true
      | None => false
      end
  | None => false
  end.

Definition expected_shape (q : query) (text : string) : bool :=
  match q with
  | SignalQuality => found csq_shape_here text
  | SystemTime => found cclk_shape_here text
  | NetworkTime => found msstm_shape_here text
  end.

(** The response holds a clock: CCLK: and six numbers separated by
    / / , : and : *)
Definition clock_text (text : string) : Prop :=
  exists pre d1 d2 d3 d4 d5 d6 post,
    text = pre ++ "CCLK:" ++ d1 ++ "/" ++ d2 ++ "/" ++ d3 ++ "," ++
           d4 ++ ":" ++ d5 ++ ":" ++ d6 ++ post /\
    number_text d1 = true /\ number_text d2 = true /\ number_text d3 = true /\
    number_text d4 = true /\ number_text d5 = true /\ number_text d6 = true.

(** What a query needs to find in its response to report a value. *)
Definition answers (q : query) (text : string) : Prop :=
  match q with
  | SignalQuality => contains "CSQ:" text = true
  | SystemTime => clock_text text
  | NetworkTime => contains "-MSSTM:" text = true
  end.

(** ** Send attempts and SBDIX sessions *)

(** The attempt counter is undefined, not a number, or a natural number
    below 2^53 (where [c_attempt++] is the exact successor). *)
Definition counter_started (st : state) : Prop :=
  match c_attempt st with
  | Num c => (0 <= c < 2 ^ 53)%Z
  | _ => True
  end.

(** The write that starts an SBDIX session. *)
Definition is_session_write (w : strbuf) : bool :=
  match w with
  | Str s => String.eqb s ("AT+SBDIXA" ++ CR)
  | Buf _ => false
  end.

(** SBDIX sessions started so far. *)
Definition sessions (st : state) : nat :=
  length (List.filter is_session_write (writes st)).

(** Closures that neither are nor wrap a stage of a send on its way to
    the session: application callbacks, the continuations that report to
    them, and the datafunctions of the queries and of the session result. *)
Fixpoint settled (f : fn) : bool :=
  match f with
  | f_undefined | f_app _ | f_series _ => true
  | f_mailboxSend _ callback | f_fail callback _ | f_CCLK callback
  | f_MSSTM callback | f_CSQ callback | f_SBDRB _ callback
  | f_SBDIXA callback | f_MT_read callback _ | f_finish callback _ =>
      settled callback
  | f_SBDWB _ _ | f_written _ | f_SBDWT _ _ | f_network _
  | f_monitoring_off _ => false
  end.

(** The datafunctions of a send before its session: after AT+SBDWB, after
    the payload, after AT+SBDWT, after the network wait, after the end of
    signal monitoring. *)
Definition on_the_way (f : fn) : bool :=
  match f with
  | f_SBDWB _ callback | f_written callback | f_SBDWT callback _
  | f_network callback | f_monitoring_off callback => settled callback
  | _ => false
  end.

(** One when the command in flight belongs to a send that has not
    reached its session yet. *)
Definition sessions_ahead (st : state) : nat :=
  match df st with
  | Some f => if on_the_way f then 1 else 0
  | None => 0
  end.

Definition timer_settled (t : nat * (Z * task)) : bool :=
  match snd (snd t) with
  | t_retry _ callback => settled callback
  | _ => true
  end.

(** Every callback the driver holds, in the slot or in a retry timer, is
    settled: no callback given to the driver is itself a stage of a send. *)
Definition orderly (st : state) : bool :=
  match df st with
  | Some f => settled f || on_the_way f
  | None => true
  end && forallb timer_settled (timers st).

(** The event fires the follow-up mailbox check that mailboxSend armed. *)
Definition fires_check (ev : event) (st : state) : bool :=
  match ev with
  | TimerFires id =>
      match find_timer id (timers st) with
      | Some (_, t_drain) => true
      | _ => false
      end
  | _ => false
  end.

(** Follow-up mailbox checks fired during a run. *)
Fixpoint checks (evs : list event) (st : state) : nat :=
  match evs with
  | [] => 0
  | ev :: evs' =>
      (if fires_check ev st then 1 else 0) +
      match step ev st with
      | Ok st' => checks evs' st'
      | _ => 0
      end
  end.

(** [st] is reached from [st0] by handlers that made no send attempt:
    it is orderly, and it started no session that [st0] did not have ahead. *)
Definition calm (st0 st : state) : Prop :=
  orderly st = true /\ attempts st = attempts st0 /\
  sessions st + sessions_ahead st <= sessions st0 + sessions_ahead st0.

(** [st] is reached from [st0] with at most [k] follow-up checks: every
    session beyond those ahead in [st0] is paid for by a send attempt or by
    one of the checks. *)
Definition paced (k : nat) (st0 st : state) : Prop :=
  orderly st = true /\ attempts st0 <= attempts st /\
  sessions st + sessions_ahead st + attempts st0 <=
    sessions st0 + sessions_ahead st0 + attempts st + k.

(** *** Scenarios of a mailboxSend chain *)

(** The driver with the attempt counter started at [c] by the
    application, and one message known to be waiting. *)
Definition counting_from (c : Z) : state :=
  set_pending 1 (set_c_attempt (Num c) ready).

(** The replies to one binary send whose session ends with MO status
    [status]: READY, OK to the payload, a signal indication, OK to the end
    of monitoring, the session result and its OK, OK to the buffer clear. *)
Definition attempt_replies (status : string) : list event :=
  [SerialData ("READY" ++ CR ++ LF); SerialData ok_line;
   SerialData ("+CIEV:0,3" ++ CR ++ LF); SerialData ok_line;
   SerialData ("+SBDIX: " ++ status ++ ", 5, 0, 0, 0, 0" ++ CR ++ LF);
   SerialData ok_line; SerialData ok_line].

(** Four attempts that fail with a network failure, each retried when
    its 20 s timer fires, a fifth that succeeds, then the follow-up mailbox
    check as far as its session command. *)
Definition five_attempts_and_a_check : list event :=
  (attempt_replies "32" ++ [TimerFires 9] ++
   attempt_replies "32" ++ [TimerFires 15] ++
   attempt_replies "32" ++ [TimerFires 21] ++
   attempt_replies "32" ++ [TimerFires 27] ++
   attempt_replies "0" ++ [TimerFires 33] ++
   [SerialData ok_line; SerialData ("+CIEV:0,3" ++ CR ++ LF);
    SerialData ok_line])%list.

(** The last allowed attempt fails at once; its retry is refused; then
    one more OK arrives from the modem and the retry it arms fires. *)
Definition refused_then_stray_OK : list event :=
  [SerialData ("ERROR" ++ CR ++ LF); SerialData ok_line; TimerFires 6;
   SerialData ok_line; TimerFires 7].

(** * Proofs *)

(** ** The line framer *)

Lemma split_lf_nonempty (s : string) : split_lf s <> [].
Proof.
  destruct s as [|c s]; simpl; [discriminate|].
  destruct (Ascii.eqb c "010"); [discriminate|].
  destruct (split_lf s); discriminate.
Qed.

Lemma removelast_cons2 {A} (x y : A) (l : list A) :
  List.removelast (x :: y :: l) = x :: List.removelast (y :: l).
Proof. reflexivity. Qed.

Lemma last_cons2 {A} (x y : A) (l : list A) (d : A) :
  List.last (x :: y :: l) d = List.last (y :: l) d.
Proof. reflexivity. Qed.

(** Splitting a concatenation: the complete lines of the first part, then
    the split of its fragment followed by the second part. *)
Lemma split_lf_app (a b : string) :
  split_lf (a ++ b) =
  (List.removelast (split_lf a) ++ split_lf (List.last (split_lf a) "" ++ b))%list.
Proof.
  induction a as [|c a IH]; [reflexivity|].
  cbn [append split_lf].
  destruct (Ascii.eqb c "010") eqn:Ec.
  - rewrite IH.
    destruct (split_lf a) as [|h t] eqn:Es; [now apply split_lf_nonempty in Es|].
    reflexivity.
  - rewrite IH.
    destruct (split_lf a) as [|h t] eqn:Es; [now apply split_lf_nonempty in Es|].
    destruct t as [|x t].
    + cbn [List.removelast List.last app append split_lf]. rewrite Ec.
      destruct (split_lf (h ++ b)) eqn:Eh; [now apply split_lf_nonempty in Eh|].
      reflexivity.
    + rewrite !removelast_cons2, !last_cons2. reflexivity.
Qed.

Lemma append_assoc (a b c : string) : (a ++ b) ++ c = a ++ (b ++ c).
Proof. induction a; simpl; congruence. Qed.

Lemma append_nil_r (a : string) : a ++ "" = a.
Proof. induction a; simpl; congruence. Qed.

Lemma removelast_app_ne {A} (l1 l2 : list A) :
  l2 <> [] -> List.removelast (l1 ++ l2)%list = (l1 ++ List.removelast l2)%list.
Proof. intros H. now apply List.removelast_app. Qed.

Lemma last_app_ne {A} (l1 l2 : list A) (d : A) :
  l2 <> [] -> List.last (l1 ++ l2)%list d = List.last l2 d.
Proof.
  intros H. induction l1 as [|x l1 IH]; [reflexivity|].
  simpl. destruct (l1 ++ l2)%list eqn:E; [|exact IH].
  destruct l1; simpl in E; [contradiction|discriminate].
Qed.

(** Two chunks in a row frame like their concatenation. *)
Lemma frame_text_app (d c1 c2 : string) :
  frame_text d (c1 ++ c2) =
  (fst (frame_text d c1) ++ fst (frame_text (snd (frame_text d c1)) c2),
   snd (frame_text (snd (frame_text d c1)) c2))%list.
Proof.
  unfold frame_text; cbn [fst snd].
  rewrite <- append_assoc, split_lf_app.
  rewrite removelast_app_ne by apply split_lf_nonempty.
  rewrite last_app_ne by apply split_lf_nonempty.
  reflexivity.
Qed.

Lemma split_lf_no_lf (s : string) : no_lf s = true -> split_lf s = [s].
Proof.
  induction s as [|c s IH]; [reflexivity|].
  simpl. destruct (Ascii.eqb c "010"); [discriminate|].
  simpl. intros H. now rewrite IH.
Qed.

Lemma last_split_no_lf (s : string) : no_lf (List.last (split_lf s) "") = true.
Proof.
  induction s as [|c s IH]; [reflexivity|].
  simpl. destruct (Ascii.eqb c "010") eqn:Ec.
  - destruct (split_lf s) eqn:Es; [now apply split_lf_nonempty in Es|]. exact IH.
  - destruct (split_lf s) as [|h t] eqn:Es; [now apply split_lf_nonempty in Es|].
    destruct t; [|exact IH].
    simpl in *. now rewrite Ec, IH.
Qed.

Lemma readSBD_lines_stream (chunks : list string) (d : string) :
  no_lf d = true ->
  readSBD_lines d chunks = frame_text d (stream chunks).
Proof.
  revert d. induction chunks as [|c cs IH]; intros d Hd.
  - unfold frame_text. cbn [readSBD_lines stream]. rewrite append_nil_r.
    now rewrite split_lf_no_lf.
  - cbn [readSBD_lines stream]. rewrite frame_text_app.
    destruct (frame_text d c) as [parts rest] eqn:E1. cbn [fst snd].
    rewrite IH.
    + now destruct (frame_text rest (stream cs)).
    + unfold frame_text in E1. injection E1 as _ <-. apply last_split_no_lf.
Qed.


Lemma sum_octets_app (l1 l2 : list octet) :
  sum_octets (l1 ++ l2)%list = (sum_octets l1 + sum_octets l2)%Z.
Proof. induction l1 as [|b l1 IH]; simpl; lia. Qed.

Lemma octet_val_range (b : octet) : (0 <= octet_val b < 256)%Z.
Proof.
  unfold octet_val. pose proof (N_ascii_bounded b). lia.
Qed.

Lemma octet_val_to_octet (v : Z) : octet_val (to_octet v) = (v mod 256)%Z.
Proof.
  unfold octet_val, to_octet.
  pose proof (Z.mod_pos_bound v 256 ltac:(lia)).
  rewrite N_ascii_embedding by lia. lia.
Qed.

Lemma to_int32_mod256 (x : Z) : (to_int32 x mod 256 = x mod 256)%Z.
Proof.
  unfold to_int32.
  rewrite (Z.mod_eq (x + 2 ^ 31) (2 ^ 32)) by lia.
  replace (x + 2 ^ 31 - 2 ^ 32 * ((x + 2 ^ 31) / 2 ^ 32) - 2 ^ 31)%Z
    with (x + (- (2 ^ 24 * ((x + 2 ^ 31) / 2 ^ 32))) * 256)%Z by lia.
  apply Z_mod_plus_full.
Qed.

Lemma to_int32_div256 (x : Z) : ((to_int32 x / 256) mod 256 = (x / 256) mod 256)%Z.
Proof.
  unfold to_int32.
  rewrite (Z.mod_eq (x + 2 ^ 31) (2 ^ 32)) by lia.
  replace (x + 2 ^ 31 - 2 ^ 32 * ((x + 2 ^ 31) / 2 ^ 32) - 2 ^ 31)%Z
    with (x + (- (2 ^ 24 * ((x + 2 ^ 31) / 2 ^ 32))) * 256)%Z by lia.
  rewrite Z.div_add by lia.
  replace (- (2 ^ 24 * ((x + 2 ^ 31) / 2 ^ 32)))%Z
    with ((- (2 ^ 16 * ((x + 2 ^ 31) / 2 ^ 32))) * 256)%Z by lia.
  apply Z_mod_plus_full.
Qed.

(** [v & 0xff] keeps the low octet of [v]. *)
Lemma js_and_255 (x : Z) : js_and x 255 = (x mod 256)%Z.
Proof.
  unfold js_and. change (to_int32 255) with (Z.ones 8).
  rewrite Z.land_ones by lia. apply to_int32_mod256.
Qed.

(** [(v >> 8) & 0xff] is the second octet of [v]. *)
Lemma js_sar_and_255 (x : Z) : js_and (js_sar x 8) 255 = ((x / 256) mod 256)%Z.
Proof.
  rewrite js_and_255. unfold js_sar.
  rewrite Z.shiftr_div_pow2 by lia. apply to_int32_div256.
Qed.

(** The loop invariant after [k] turns. *)
Lemma checksum_loop (buffer : list octet) (k : nat) :
  (k <= length buffer)%nat ->
  fold_left (checksum_step buffer) (seq 0 k)
            (Buffer_alloc (length buffer + 2), 0%Z) =
  ((take k buffer ++ Buffer_alloc (length buffer + 2 - k))%list,
   sum_octets (take k buffer)).
Proof.
  induction k as [|k IH]; intros Hk.
  - simpl. now rewrite Nat.sub_0_r.
  - rewrite seq_S, fold_left_app, IH by lia. change (0 + k)%nat with k. cbn [fold_left].
    destruct (lookup_lt_is_Some_2 buffer k ltac:(lia)) as [b Hb].
    unfold checksum_step; cbn [fst snd]. unfold octet in *. rewrite Hb; cbv [default from_option id].
    rewrite (take_S_r _ _ _ Hb), sum_octets_app; cbn [sum_octets].
    f_equal; [|lia].
    rewrite insert_app_r_alt by (rewrite length_take; lia).
    rewrite length_take, Nat.min_l, Nat.sub_diag by lia.
    replace (length buffer + 2 - k)%nat with (S (length buffer + 2 - S k)) by lia.
    unfold Buffer_alloc. cbn [replicate]. simpl. now rewrite <- app_assoc.
Qed.

(** The frame is the payload followed by the two octets of the sum. *)
Lemma checksum_frame_eq (buffer : list octet) :
  checksum_frame buffer =
  (buffer ++ [to_octet (sum_octets buffer / 256); to_octet (sum_octets buffer)])%list.
Proof.
  unfold checksum_frame.
  rewrite checksum_loop by lia.
  rewrite take_ge by lia.
  replace (length buffer + 2 - length buffer)%nat with 2%nat by lia.
  unfold Buffer_alloc; cbn [replicate].
  rewrite !insert_app_r_alt by (rewrite ?length_insert; lia).
  rewrite Nat.sub_diag.
  replace (length buffer + 1 - length buffer)%nat with 1%nat by lia.
  cbn [insert list_insert].
  f_equal. f_equal.
  - unfold to_octet. rewrite js_sar_and_255. now rewrite Z.mod_mod by lia.
  - unfold to_octet. rewrite js_and_255. now rewrite Z.mod_mod by lia.
Qed.

(** ** AT and its timer *)


Ltac break_if :=
  match goal with
  | |- context [if ?b then _ else _] => destruct b eqn:?
  end.

Lemma AT_effect command e k f timeout st :
  let st' := AT command e k f timeout st in
  df st' = Some f /\ er st' = e /\ kr st' = k /\
  writes st' = wire_of command :: writes st /\
  sends st' = S (sends st) /\
  same_session st st'.
Proof.
  destruct st as [b d mp bin lk pe ca g dfn ern krn tfn se tm nt sp tr];
    unfold AT, same_session, cancel_tf, log, emit, write, setTimeout, clearTimeout.
  cbn.
  destruct timeout as [t|]; [destruct (t =? 0)%Z|]; destruct tfn; cbn;
    repeat (break_if; cbn); destruct command; cbn; repeat (break_if; cbn);
    repeat split; reflexivity.
Qed.

Lemma log_effect message st :
  let st' := log message st in
  df st' = df st /\ er st' = er st /\ kr st' = kr st /\ tf st' = tf st /\
  timers st' = timers st /\ next_timer st' = next_timer st /\
  writes st' = writes st /\ sends st' = sends st /\ same_session st st'.
Proof.
  destruct st as [b d mp bin lk pe ca g dfn ern krn tfn se tm nt sp tr]; unfold log, emit, same_session. cbn.
  break_if; cbn; repeat split; reflexivity.
Qed.

Lemma AT_buffer command e k f timeout st : buffer (AT command e k f timeout st) = buffer st.
Proof. apply (AT_effect command e k f timeout st). Qed.

Lemma log_buffer message st : buffer (log message st) = buffer st.
Proof. apply (log_effect message st). Qed.

Lemma AT_data command e k f timeout st : data (AT command e k f timeout st) = data st.
Proof. apply (AT_effect command e k f timeout st). Qed.

Lemma log_data message st : data (log message st) = data st.
Proof. apply (log_effect message st). Qed.

Lemma AT_messagePending command e k f timeout st : messagePending (AT command e k f timeout st) = messagePending st.
Proof. apply (AT_effect command e k f timeout st). Qed.

Lemma log_messagePending message st : messagePending (log message st) = messagePending st.
Proof. apply (log_effect message st). Qed.

Lemma AT_binary command e k f timeout st : binary (AT command e k f timeout st) = binary st.
Proof. apply (AT_effect command e k f timeout st). Qed.

Lemma log_binary message st : binary (log message st) = binary st.
Proof. apply (log_effect message st). Qed.

Lemma AT_lock command e k f timeout st : lock (AT command e k f timeout st) = lock st.
Proof. apply (AT_effect command e k f timeout st). Qed.

Lemma log_lock message st : lock (log message st) = lock st.
Proof. apply (log_effect message st). Qed.

Lemma AT_pending command e k f timeout st : pending (AT command e k f timeout st) = pending st.
Proof. apply (AT_effect command e k f timeout st). Qed.

Lemma log_pending message st : pending (log message st) = pending st.
Proof. apply (log_effect message st). Qed.

Lemma AT_c_attempt command e k f timeout st : c_attempt (AT command e k f timeout st) = c_attempt st.
Proof. apply (AT_effect command e k f timeout st). Qed.

Lemma log_c_attempt message st : c_attempt (log message st) = c_attempt st.
Proof. apply (log_effect message st). Qed.

Lemma AT_globals command e k f timeout st : globals (AT command e k f timeout st) = globals st.
Proof. apply (AT_effect command e k f timeout st). Qed.

Lemma log_globals message st : globals (log message st) = globals st.
Proof. apply (log_effect message st). Qed.

Lemma AT_serialEmitter command e k f timeout st : serialEmitter (AT command e k f timeout st) = serialEmitter st.
Proof. apply (AT_effect command e k f timeout st). Qed.

Lemma log_serialEmitter message st : serialEmitter (log message st) = serialEmitter st.
Proof. apply (log_effect message st). Qed.

Lemma AT_series_pos command e k f timeout st : series_pos (AT command e k f timeout st) = series_pos st.
Proof. apply (AT_effect command e k f timeout st). Qed.

Lemma log_series_pos message st : series_pos (log message st) = series_pos st.
Proof. apply (log_effect message st). Qed.

Lemma AT_calls command e k f timeout st :
  calls_of (trace (AT command e k f timeout st)) = calls_of (trace st).
Proof. apply (AT_effect command e k f timeout st). Qed.

Lemma log_calls message st :
  calls_of (trace (log message st)) = calls_of (trace st).
Proof. apply (log_effect message st). Qed.

Lemma AT_events command e k f timeout st :
  events_of (trace (AT command e k f timeout st)) = events_of (trace st).
Proof. apply (AT_effect command e k f timeout st). Qed.

Lemma log_events message st :
  events_of (trace (log message st)) = events_of (trace st).
Proof. apply (log_effect message st). Qed.

Lemma AT_completions command e k f timeout st :
  length (List.filter is_completed (trace (AT command e k f timeout st))) = length (List.filter is_completed (trace st)).
Proof. apply (AT_effect command e k f timeout st). Qed.

Lemma log_completions message st :
  length (List.filter is_completed (trace (log message st))) = length (List.filter is_completed (trace st)).
Proof. apply (log_effect message st). Qed.

Lemma AT_attempts command e k f timeout st :
  length (List.filter is_attempt (trace (AT command e k f timeout st))) = length (List.filter is_attempt (trace st)).
Proof. apply (AT_effect command e k f timeout st). Qed.

Lemma log_attempts message st :
  length (List.filter is_attempt (trace (log message st))) = length (List.filter is_attempt (trace st)).
Proof. apply (log_effect message st). Qed.

Lemma AT_df command e k f timeout st : df (AT command e k f timeout st) = Some f.
Proof. apply (AT_effect command e k f timeout st). Qed.

Lemma AT_er command e k f timeout st : er (AT command e k f timeout st) = e.
Proof. apply (AT_effect command e k f timeout st). Qed.

Lemma AT_kr command e k f timeout st : kr (AT command e k f timeout st) = k.
Proof. apply (AT_effect command e k f timeout st). Qed.

Lemma AT_writes command e k f timeout st :
  writes_of (trace (AT command e k f timeout st)) = wire_of command :: writes_of (trace st).
Proof. apply (AT_effect command e k f timeout st). Qed.

Lemma AT_sends command e k f timeout st :
  length (List.filter is_write (trace (AT command e k f timeout st))) =
  S (length (List.filter is_write (trace st))).
Proof. apply (AT_effect command e k f timeout st). Qed.

Lemma log_writes message st :
  writes_of (trace (log message st)) = writes_of (trace st).
Proof. apply (log_effect message st). Qed.

Lemma log_sends message st :
  length (List.filter is_write (trace (log message st))) =
  length (List.filter is_write (trace st)).
Proof. apply (log_effect message st). Qed.

Lemma log_df message st : df (log message st) = df st.
Proof. apply (log_effect message st). Qed.

Lemma log_er message st : er (log message st) = er st.
Proof. apply (log_effect message st). Qed.

Lemma log_kr message st : kr (log message st) = kr st.
Proof. apply (log_effect message st). Qed.

Lemma log_tf message st : tf (log message st) = tf st.
Proof. apply (log_effect message st). Qed.

Lemma log_timers message st : timers (log message st) = timers st.
Proof. apply (log_effect message st). Qed.

Lemma log_next_timer message st : next_timer (log message st) = next_timer st.
Proof. apply (log_effect message st). Qed.

Create Rewrite HintDb proj.
#[local] Hint Rewrite AT_buffer log_buffer AT_data log_data AT_messagePending log_messagePending AT_binary log_binary AT_lock log_lock AT_pending log_pending AT_c_attempt log_c_attempt AT_globals log_globals AT_serialEmitter log_serialEmitter AT_series_pos log_series_pos AT_calls log_calls AT_events log_events AT_completions log_completions AT_attempts log_attempts AT_df AT_er AT_kr AT_writes AT_sends log_writes log_sends log_df log_er log_kr log_tf log_timers log_next_timer : proj.

(** Push projections through the operations. *)
Ltac proj :=
  unfold calls, writes, events, sends, completions, attempts in *;
  repeat (progress (autorewrite with proj; cbn)).

(** ** C7 *)


(** C7 as stated fails at timeout 0: on the initialised driver a command
    sent with timeout 0 arms the 40000 ms default timer. *)
Lemma AT_zero_timeout_arms_timer :
  (0 <= 0)%Z /\
  ~ arms_no_timer (Str "AT+CSQ") (Some OK) (Some ALL) (f_app 1) 0 ready /\
  timers (AT (Str "AT+CSQ") (Some OK) (Some ALL) (f_app 1) (Some 0%Z) ready) =
    [(4%nat, (40000%Z, t_timeout (Str "AT+CSQ")))].
Proof.
  split; [lia|]. split; [|reflexivity].
  unfold arms_no_timer. vm_compute. discriminate.
Qed.

(** C7, amended.  A command sent with a negative timeout (the sentinel
    timeoutForever is -1) arms no timer and leaves the timer handle as it
    was; its datafunction waits in the slot.  A timeout of 0 is not such a
    value: it is replaced by defaultTimeout, exactly as a missing one. *)
Theorem AT_negative_timeout command e k f timeout st :
  (timeout < 0)%Z ->
  arms_no_timer command e k f timeout st /\
  tf (AT command e k f (Some timeout) st) = tf st /\
  df (AT command e k f (Some timeout) st) = Some f /\
  AT command e k f (Some 0%Z) st = AT command e k f None st.
Proof.
  intros H. unfold arms_no_timer.
  assert (E0 : (timeout =? 0)%Z = false) by lia.
  assert (E1 : (0 <? timeout)%Z = false) by lia.
  destruct st as [b d mp bin lk pe ca g dfn ern krn tfn se tm nt sp tr];
    unfold AT, cancel_tf, log, emit, write, clearTimeout; cbn.
  rewrite E0, E1.
  destruct tfn; cbn; destruct command; cbn; repeat (break_if; cbn);
    repeat split; reflexivity.
Qed.

Lemma AT_negative_timeout_witness :
  arms_no_timer (Str "AT+CIER=1,1,0") (Some RE_CIEV) (Some ALL) (f_app 1) (-1) ready /\
  tf (AT (Str "AT+CIER=1,1,0") (Some RE_CIEV) (Some ALL) (f_app 1) (Some (-1)%Z) ready)
    = tf ready /\
  df (AT (Str "AT+CIER=1,1,0") (Some RE_CIEV) (Some ALL) (f_app 1) (Some (-1)%Z) ready)
    = Some (f_app 1) /\
  AT (Str "AT+CIER=1,1,0") (Some RE_CIEV) (Some ALL) (f_app 1) (Some 0%Z) ready =
  AT (Str "AT+CIER=1,1,0") (Some RE_CIEV) (Some ALL) (f_app 1) None ready.
Proof.
  apply (AT_negative_timeout (Str "AT+CIER=1,1,0") (Some RE_CIEV) (Some ALL)
           (f_app 1) (-1) ready).
  lia.
Defined.

(** ** C1 *)

(** A timeout timer that expires only logs. *)
Lemma fire_timeout id delay command st :
  find_timer id (timers st) = Some (delay, t_timeout command) ->
  fire id st =
  Ok (log [PStr "Sending a timeout event for command "; PData command]
          (clearTimeout id st)).
Proof. intros H. unfold fire. now rewrite H. Qed.

(** C1.  What the code does when a command times out: the signal-quality
    query is sent with the default 40000 ms timeout; when that timer
    expires the slot still holds the datafunction and the end pattern, no
    callback has run and no completion is recorded, so one more command was
    sent than completed. *)
Theorem timeout_expiry_only_logs :
  let st := getSignalQuality (f_app 1) ready in
  tf st = Some 4%nat /\
  find_timer 4 (timers st) = Some (40000%Z, t_timeout (Str "AT+CSQ")) /\
  inflight st /\
  exists st',
    fire 4 st = Ok st' /\
    df st' = df st /\ er st' = er st /\ timers st' = [] /\
    calls st' = calls st /\
    completions st' = completions st /\
    sends st' = S (completions st').
Proof.
  cbv zeta. split; [reflexivity|]. split; [reflexivity|].
  split; [unfold inflight; vm_compute; lia|].
  eexists. split; [vm_compute; reflexivity|].
  repeat split; reflexivity.
Qed.

(** ** C2 *)

(** C2.  For every parsed +SBDIX line the datafunction of initiateSession
    disposes of the MO message by its status: at most 4, messagePending
    becomes 0 and the session goes on to the MT disposition without
    calling back; 18, 32 and any other status send AT+SBDD0 (clear the MO
    buffer) and leave a continuation that hands the callback
    "radio failure", "network failure" and "unknown failure". *)
Theorem initiateSession_MO_disposition callback text m err st :
  truthy err = false ->
  match_SBDIX text = Some m ->
  match mo_disposition_of (to_number (status m)) with
  | MO_succeeded =>
      exists st',
        call (f_SBDIXA callback) err (RStr text) st = Ok st' /\
        messagePending st' = 0%Z /\
        calls st' = calls st /\
        (df st' = Some (f_finish callback (RStr (momsn m))) \/
         df st' = Some (f_SBDRB (mtqueued m) (f_MT_read callback (momsn m))))
  | MO_failed reason =>
      exists st',
        call (f_SBDIXA callback) err (RStr text) st = Ok st' /\
        writes st' = Str ("AT+SBDD0" ++ CR) :: writes st /\
        calls st' = calls st /\
        df st' = Some (f_fail callback (EStr reason)) /\
        forall err' r s,
          call (f_fail callback (EStr reason)) err' r s =
          call callback (EStr reason) RUndefined s
  end.
Proof.
  intros Herr Hm. unfold mo_disposition_of. cbn [call]. rewrite Herr, Hm.
  unfold finishSession, readBinaryMessage, clearMOBuffers, ATS.
  repeat break_if;
    (eexists; split; [reflexivity|]); proj; repeat split; auto.
Qed.

Lemma initiateSession_MO_disposition_witness :
  exists st',
    call (f_SBDIXA (f_app 7)) ENull
         (RStr ("+SBDIX: 18, 0, 0, 0, 0, 0" ++ CR ++ LF)) in_session = Ok st' /\
    writes st' = Str ("AT+SBDD0" ++ CR) :: writes in_session /\
    calls st' = calls in_session /\
    df st' = Some (f_fail (f_app 7) (EStr "radio failure")) /\
    forall err' r s,
      call (f_fail (f_app 7) (EStr "radio failure")) err' r s =
      call (f_app 7) (EStr "radio failure") RUndefined s.
Proof.
  exact (initiateSession_MO_disposition (f_app 7)
           ("+SBDIX: 18, 0, 0, 0, 0, 0" ++ CR ++ LF)
           {| status := "18"; momsn := "0"; mtstatus := "0";
              mtmsn := "0"; mtlen := "0"; mtqueued := "0" |}
           ENull in_session eq_refl eq_refl).
Defined.

(** ** C4 *)


(** C4 as stated fails while the binary read AT+SBDRB is in flight (no end
    pattern): the line SBDRING is handed to that command's datafunction,
    which counts as its completion, and no ringalert is emitted.  The last
    conjunct reaches that state from one chunk that carries the session
    result, OK and SBDRING. *)
Lemma ring_during_binary_read_completes_command :
  inflight reading_MT /\
  writes reading_MT = Str ("AT+SBDRB" ++ CR) :: writes in_session /\
  er reading_MT = None /\
  first_match unsollicited ("SBDRING" ++ CR) = Some h_sbdring /\
  ~ unsolicited_first ("SBDRING" ++ CR) reading_MT /\
  completions (state_of (on_data (Str ("SBDRING" ++ CR)) reading_MT)) =
    S (completions reading_MT) /\
  events (state_of (on_data (Str ("SBDRING" ++ CR)) reading_MT)) =
    events reading_MT /\
  events (state_of (run [SerialData ("+SBDIX: 0, 1, 1, 1, 4, 0" ++ CR ++ LF ++
                                     "OK" ++ CR ++ LF ++ "SBDRING" ++ CR ++ LF)]
                        in_session)) = events in_session.
Proof.
  split; [unfold inflight; vm_compute; lia|].
  split; [vm_compute; reflexivity|].
  split; [vm_compute; reflexivity|].
  split; [vm_compute; reflexivity|].
  split.
  - intros H. destruct (H h_sbdring) as (_ & _ & _ & _ & Hc).
    + vm_compute; reflexivity.
    + vm_compute in Hc. discriminate.
  - split; [vm_compute; reflexivity|].
    split; vm_compute; reflexivity.
Qed.

(** C4, amended.  While the command in flight has an end pattern, a line
    that matches an unsolicited pattern is handled by the handler of the
    first such pattern and by nothing else: the body buffer, the slot, the
    port and the number of completions are as before. *)
Theorem unsolicited_before_patterns line e st :
  er st = Some e ->
  unsolicited_first line st.
Proof.
  intros He h Hh. unfold on_data. rewrite log_er, He, Hh.
  split; [reflexivity|].
  destruct h; cbn [execute]; unfold sbdring, areg.
  - cbn [state_of]. unfold emit. proj. repeat split; reflexivity.
  - destruct (match_AREG line) as [[|? [|? [|? ?]]]|]; cbn [state_of];
      proj; repeat split; reflexivity.
Qed.

Lemma unsolicited_before_patterns_witness :
  unsolicited_first ("SBDRING" ++ CR) in_session.
Proof.
  apply (unsolicited_before_patterns ("SBDRING" ++ CR) OK in_session).
  vm_compute; reflexivity.
Defined.

(** ** C8 *)

(** C8.  What the code does with lines that arrive when nothing is in
    flight: after a signal-quality query has completed, the line hello is
    appended to the body buffer, and a following OK runs the datafunction of
    the completed query a second time, now reporting a parse failure. *)
Theorem idle_line_is_kept_and_completes_again :
  sends after_query = completions after_query /\
  calls after_query = [(9%nat, ENull, RParseInt "5")] /\
  buffer after_query = "" /\
  first_match unsollicited ("hello" ++ CR) = None /\
  exists st1,
    on_data (Str ("hello" ++ CR)) after_query = Ok st1 /\
    buffer st1 = "hello" ++ CR ++ LF /\
    exists st2,
      on_data (Str ("OK" ++ CR)) st1 = Ok st2 /\
      completions st2 = S (sends st2) /\
      calls st2 = [(9%nat, EStr "UNKNOWN_SIGNAL_QUALITY", RUndefined);
                   (9%nat, ENull, RParseInt "5")].
Proof.
  repeat (split; [vm_compute; reflexivity|]).
  eexists. split; [vm_compute; reflexivity|].
  split; [vm_compute; reflexivity|].
  eexists. split; [vm_compute; reflexivity|].
  split; vm_compute; reflexivity.
Qed.


(** ** C5: the attempt counter *)


Lemma keeps_refl st : keeps st st.
Proof. repeat split. Qed.

Ltac break_match :=
  match goal with
  | |- context [match ?x with _ => _ end] => destruct x eqn:?
  end.

Ltac keeps_tac :=
  unfold keeps in *; cbn [state_of]; proj; intuition congruence.

Lemma series_callback_keeps i err st0 st :
  keeps st0 st -> keeps st0 (state_of (series_callback i err st)).
Proof.
  intros H. unfold series_callback, clearBuffers, enableRegistration,
    ringAlertEnable, ATS, emit.
  repeat break_match; keeps_tac.
Qed.

Lemma call_keeps f : forall err r st0 st,
  keeps st0 st -> keeps st0 (state_of (call f err r st)).
Proof.
  induction f; intros e r st0 st H; cbn [call];
    unfold finishSession, readBinaryMessage, enableBinaryMode,
      clearMOBuffers, clearMTBuffers, waitForNetwork,
      disableSignalMonitoring, initiateSession, ATS, emit, setTimeout;
    try (apply series_callback_keeps; assumption);
    repeat break_match;
    try (apply IHf);
    keeps_tac.
Qed.


Lemma keeps_within_quota st0 st : keeps st0 st -> within_quota st0 st.
Proof.
  intros (Hg & Hc & Ha). unfold within_quota, quota.
  rewrite Hg, Hc, Ha. repeat split; lia.
Qed.

Lemma within_quota_trans st0 st1 st2 :
  within_quota st0 st1 -> within_quota st1 st2 -> within_quota st0 st2.
Proof.
  intros (Hg1 & Ha1 & Hq1) (Hg2 & Ha2 & Hq2).
  repeat split; [congruence|lia|lia].
Qed.

Lemma sendMessage_keeps message callback maxWait' st0 st :
  keeps st0 st -> keeps st0 (state_of (sendMessage message callback maxWait' st)).
Proof.
  intros H. unfold sendMessage. repeat break_match; keeps_tac.
Qed.

Lemma sendBinaryMessage_keeps message callback maxWait' st0 st :
  keeps st0 st ->
  keeps st0 (state_of (sendBinaryMessage message callback maxWait' st)).
Proof.
  intros H. unfold sendBinaryMessage.
  destruct (strbuf_length message =? 0)%nat;
    [now apply sendMessage_keeps|].
  destruct message; keeps_tac.
Qed.

Lemma invoke_df_keeps err text st0 st :
  keeps st0 st -> keeps st0 (state_of (invoke_df err text st)).
Proof.
  intros H. unfold invoke_df. destruct (df st) eqn:E; [|exact H].
  apply call_keeps. unfold cancel_tf, clearTimeout.
  destruct (tf st); keeps_tac.
Qed.

Lemma state_of_bind_set_buffer o v st0 :
  keeps st0 (state_of o) ->
  keeps st0 (state_of (bind o (fun st => Ok (set_buffer v st)))).
Proof. destruct o; cbn; auto. Qed.

Lemma on_data_keeps d st0 st :
  keeps st0 st -> keeps st0 (state_of (on_data d st)).
Proof.
  intros H. unfold on_data.
  assert (H' : keeps st0 (log [PStr "< "; PData d] st)) by keeps_tac.
  rewrite log_er. destruct (er st) as [er'|]; [|now apply invoke_df_keeps].
  destruct d as [line|b]; [|exact H'].
  destruct (first_match unsollicited line) as [h|].
  { destruct h; cbn [execute]; unfold sbdring, areg, emit;
      repeat break_match; keeps_tac. }
  destruct (first_error line).
  { apply state_of_bind_set_buffer. now apply invoke_df_keeps. }
  rewrite log_kr.
  match goal with |- context [if test er' line then _ else _] =>
    destruct (test er' line) end.
  - apply state_of_bind_set_buffer. apply invoke_df_keeps.
    destruct (kr st); [break_match|]; keeps_tac.
  - destruct (kr st); [break_match|]; keeps_tac.
Qed.

Lemma emit_data_keeps parts : forall st0 st,
  keeps st0 st -> keeps st0 (state_of (emit_data parts st)).
Proof.
  induction parts as [|part parts IH]; intros st0 st H; [exact H|].
  cbn [emit_data].
  pose proof (on_data_keeps (Str part) st0 st H) as Hd.
  destruct (on_data (Str part) st); cbn [bind state_of] in *; auto.
Qed.

Lemma readSBD_keeps chunk st0 st :
  keeps st0 st -> keeps st0 (state_of (readSBD chunk st)).
Proof.
  intros H. unfold readSBD. cbn [binary set_serialEmitter].
  destruct (mode (binary st)); [keeps_tac|].
  destruct (frame_text _ _) as [parts rest].
  apply emit_data_keeps. keeps_tac.
Qed.

Lemma flush_keeps st0 st : keeps st0 st -> keeps st0 (state_of (flush st)).
Proof.
  intros H. unfold flush. destruct (serialEmitter st); [|exact H].
  match goal with |- context [on_data ?d st] =>
    pose proof (on_data_keeps d st0 st H) as Hd;
    destruct (on_data d st) end; cbn [bind state_of] in *; keeps_tac.
Qed.

Lemma clearTimeout_keeps id st0 st : keeps st0 st -> keeps st0 (clearTimeout id st).
Proof. intros H. unfold clearTimeout. keeps_tac. Qed.

Lemma mailboxSend_within_quota buffer callback st :
  within_quota st (state_of (mailboxSend buffer callback st)).
Proof.
  unfold mailboxSend. cbn [c_attempt globals set_c_attempt].
  destruct (num_le (incr (c_attempt st)) (maxAttempts (globals st))) eqn:E.
  - destruct (c_attempt st) as [| |c] eqn:Ec; try discriminate.
    cbn [incr num_le] in E.
    eapply within_quota_trans;
      [|apply keeps_within_quota, sendBinaryMessage_keeps, keeps_refl].
    unfold within_quota, quota, attempts. cbn. rewrite Ec.
    repeat split; [lia|]. fold (attempts st). lia.
  - eapply within_quota_trans;
      [|apply keeps_within_quota, call_keeps, keeps_refl].
    unfold within_quota, quota. proj.
    repeat split; [lia|].
    destruct (c_attempt st) as [| |c]; cbn [incr num_le] in *; lia.
Qed.

Lemma fire_within_quota id st : within_quota st (state_of (fire id st)).
Proof.
  unfold fire. destruct (find_timer id (timers st)) as [[delay f]|];
    [|apply keeps_within_quota, keeps_refl].
  pose proof (clearTimeout_keeps id st st (keeps_refl st)) as Hc.
  destruct f.
  - apply keeps_within_quota. keeps_tac.
  - apply keeps_within_quota. now apply flush_keeps.
  - apply keeps_within_quota. now apply sendMessage_keeps.
  - eapply within_quota_trans; [apply keeps_within_quota, Hc|].
    apply mailboxSend_within_quota.
Qed.

Lemma step_within_quota ev st : within_quota st (state_of (step ev st)).
Proof.
  destruct ev; cbn [step].
  - apply keeps_within_quota. unfold init, echoOff, ATS. keeps_tac.
  - apply keeps_within_quota, readSBD_keeps, keeps_refl.
  - apply fire_within_quota.
Qed.

Lemma run_within_quota evs : forall st, within_quota st (state_of (run evs st)).
Proof.
  induction evs as [|ev evs IH]; intros st; cbn [run].
  - apply keeps_within_quota, keeps_refl.
  - pose proof (step_within_quota ev st) as Hs.
    destruct (step ev st) as [st1|st1 ?|st1]; cbn [bind state_of] in *; auto.
    eapply within_quota_trans; [exact Hs|apply IH].
Qed.


Lemma low16_split (s : Z) :
  ((s mod 2 ^ 16) / 256 = (s / 256) mod 256 /\
   (s mod 2 ^ 16) mod 256 = s mod 256)%Z.
Proof.
  change (2 ^ 16)%Z with (256 * 256)%Z.
  rewrite Z.rem_mul_r by lia.
  pose proof (Z.mod_pos_bound s 256 ltac:(lia)).
  pose proof (Z.mod_pos_bound (s / 256) 256 ltac:(lia)).
  split.
  - rewrite Z.mul_comm, Z.div_add by lia. rewrite Z.div_small by lia. lia.
  - rewrite Z.mul_comm, Z_mod_plus_full. apply Z.mod_mod. lia.
Qed.

(** C3.  For a non-empty payload the frame sendBinaryMessage builds is the
    payload followed by two octets, at indices len and len + 1, that encode
    the sum of the payload octets modulo 2^16 with the high octet first;
    this frame is what is written to the port once the modem says READY. *)
Theorem sendBinaryMessage_checksum buffer callback maxWait' st :
  buffer <> [] ->
  exists hi lo,
    checksum_frame buffer = (buffer ++ [hi; lo])%list /\
    checksum_frame buffer !! length buffer = Some hi /\
    checksum_frame buffer !! (length buffer + 1)%nat = Some lo /\
    (256 * octet_val hi + octet_val lo = sum_octets buffer mod 2 ^ 16)%Z /\
    exists st',
      sendBinaryMessage (Buf buffer) callback maxWait' st = Ok st' /\
      df st' = Some (f_SBDWB (checksum_frame buffer) callback) /\
      forall err r s,
        truthy err = false ->
        writes (state_of (call (f_SBDWB (checksum_frame buffer) callback) err r s)) =
        Buf (checksum_frame buffer) :: writes s.
Proof.
  intros Hne.
  exists (to_octet (sum_octets buffer / 256)), (to_octet (sum_octets buffer)).
  rewrite checksum_frame_eq.
  split; [reflexivity|].
  split; [rewrite lookup_app_r by lia; now rewrite Nat.sub_diag|].
  split.
  { rewrite lookup_app_r by lia.
    now replace (length buffer + 1 - length buffer)%nat with 1%nat by lia. }
  split.
  { rewrite !octet_val_to_octet.
    destruct (low16_split (sum_octets buffer)) as [H1 H2].
    rewrite <- H1, <- H2.
    pose proof (Z.div_mod (sum_octets buffer mod 2 ^ 16) 256 ltac:(lia)). lia. }
  unfold sendBinaryMessage. cbn [strbuf_length].
  destruct buffer as [|b buffer]; [contradiction|]. cbn [length Nat.eqb].
  eexists. split; [reflexivity|]. split.
  - rewrite AT_df. now rewrite checksum_frame_eq.
  - intros err r s Herr. cbn [call]. rewrite Herr. cbn [state_of].
    unfold ATS. proj. reflexivity.
Qed.

Lemma sendBinaryMessage_checksum_witness :
  exists hi lo,
    checksum_frame ["001"; "002"; "003"]%char =
      (["001"; "002"; "003"]%char ++ [hi; lo])%list /\
    checksum_frame ["001"; "002"; "003"]%char !! 3%nat = Some hi /\
    checksum_frame ["001"; "002"; "003"]%char !! (3 + 1)%nat = Some lo /\
    (256 * octet_val hi + octet_val lo =
     sum_octets ["001"; "002"; "003"]%char mod 2 ^ 16)%Z /\
    exists st',
      sendBinaryMessage (Buf ["001"; "002"; "003"]%char) (f_app 7) None ready = Ok st' /\
      df st' = Some (f_SBDWB (checksum_frame ["001"; "002"; "003"]%char) (f_app 7)) /\
      forall err r s,
        truthy err = false ->
        writes (state_of (call (f_SBDWB (checksum_frame ["001"; "002"; "003"]%char)
                                       (f_app 7)) err r s)) =
        Buf (checksum_frame ["001"; "002"; "003"]%char) :: writes s.
Proof.
  apply (sendBinaryMessage_checksum ["001"; "002"; "003"]%char (f_app 7) None ready).
  discriminate.
Defined.

(** * Further properties of the driver *)

(** ** The line framer loses nothing *)

Lemma split_lf_lossless (s : string) :
  unlines (List.removelast (split_lf s)) ++ List.last (split_lf s) "" = s /\
  all_no_lf (List.removelast (split_lf s)) = true.
Proof.
  induction s as [|c s [IH1 IH2]]; [split; reflexivity|].
  cbn [split_lf]. destruct (Ascii.eqb c "010") eqn:Ec.
  - apply Ascii.eqb_eq in Ec. subst c.
    destruct (split_lf s) as [|h t] eqn:Es; [now apply split_lf_nonempty in Es|].
    rewrite removelast_cons2, last_cons2.
    split; [|exact IH2].
    change (String "010" (unlines (List.removelast (h :: t)) ++ List.last (h :: t) "")
            = String "010" s).
    now rewrite IH1.
  - destruct (split_lf s) as [|h t] eqn:Es; [now apply split_lf_nonempty in Es|].
    destruct t as [|x t].
    + split; [|reflexivity].
      change (String c h = String c s). cbn in IH1. now rewrite IH1.
    + rewrite !removelast_cons2, !last_cons2 in *.
      cbn [unlines all_no_lf no_lf] in *. rewrite Ec. cbn [negb andb].
      split; [|exact IH2].
      change (String c ((h ++ LF ++ unlines (List.removelast (x :: t))) ++
                        List.last (x :: t) "") = String c s).
      now rewrite IH1.
Qed.

(** X1.  Framing loses nothing: the lines readSBD emits for a chunk, each
    followed by the LF that ended it, then the fragment it retains, are the
    old fragment followed by the chunk; no line and no fragment holds an
    LF, and CR is left in place. *)
Theorem frame_text_lossless (data chunk : string) :
  unlines (fst (frame_text data chunk)) ++ snd (frame_text data chunk) =
    data ++ chunk /\
  all_no_lf (fst (frame_text data chunk)) = true /\
  no_lf (snd (frame_text data chunk)) = true.
Proof.
  unfold frame_text; cbn [fst snd].
  destruct (split_lf_lossless (data ++ chunk)) as [H1 H2].
  repeat split; [exact H1|exact H2|apply last_split_no_lf].
Qed.

(** ** Binary mode *)

Lemma length_list_ascii_of_string (s : string) :
  length (list_ascii_of_string s) = String.length s.
Proof. induction s; simpl; congruence. Qed.

Lemma list_ascii_of_string_app (a b : string) :
  list_ascii_of_string (a ++ b) =
  (list_ascii_of_string a ++ list_ascii_of_string b)%list.
Proof. induction a; simpl; congruence. Qed.

Lemma length_copy_at (source : list octet) : forall offset target,
  length (copy_at source offset target) = length target.
Proof.
  induction source as [|b source IH]; intros offset target; cbn [copy_at];
    [reflexivity|].
  now rewrite IH, length_insert.
Qed.

(** A source that fits is copied whole at the offset. *)
Lemma copy_at_fits (source : list octet) : forall offset target,
  (offset + length source <= length target)%nat ->
  copy_at source offset target =
  (take offset target ++ source ++ drop (offset + length source) target)%list.
Proof.
  induction source as [|b source IH]; intros offset target H; cbn [copy_at length] in *.
  - rewrite Nat.add_0_r. cbn [app]. now rewrite take_drop.
  - rewrite IH by (rewrite length_insert; lia).
    rewrite take_insert_lt by lia.
    rewrite drop_insert_lt by lia.
    destruct (lookup_lt_is_Some_2 target offset ltac:(lia)) as [x Hx].
    rewrite (take_S_r _ _ _ Hx).
    replace (S offset + length source)%nat with (offset + S (length source))%nat by lia.
    rewrite insert_app_r_alt by (rewrite length_take; lia).
    rewrite length_take, Nat.min_l, Nat.sub_diag by lia.
    cbn [insert list_insert app]. now rewrite <- app_assoc.
Qed.

Lemma take_copy_at_fits (source : list octet) offset target :
  (offset + length source <= length target)%nat ->
  take (offset + length source) (copy_at source offset target) =
  (take offset target ++ source)%list.
Proof.
  intros H. rewrite copy_at_fits by exact H.
  rewrite app_assoc. apply take_app_length'.
  rewrite length_app, length_take. lia.
Qed.

(** The blob has as many octets as were counted; within the capacity it
    is what was received. *)
Lemma flushed_blob_length st :
  length (flushed_blob st) = bufferCounter (binary st).
Proof.
  unfold flushed_blob. rewrite length_copy_at. unfold Buffer_alloc.
  apply length_replicate.
Qed.

Lemma flushed_blob_fits st :
  (bufferCounter (binary st) <= length (binary_buffer (binary st)))%nat ->
  flushed_blob st = binary_received st.
Proof.
  intros H. unfold flushed_blob, binary_received.
  rewrite copy_at_fits.
  - cbn [take app]. rewrite drop_ge, app_nil_r; [reflexivity|].
    unfold Buffer_alloc. rewrite length_replicate, length_take. lia.
  - unfold Buffer_alloc. rewrite length_replicate, length_take. lia.
Qed.

(** One chunk in binary mode. *)
Lemma readSBD_binary_chunk st chunk :
  mode (binary st) = true ->
  exists st',
    readSBD chunk st = Ok st' /\
    trace st' = trace st /\ data st' = data st /\ buffer st' = buffer st /\
    df st' = df st /\ er st' = er st /\ timers st' = timers st /\
    mode (binary st') = true /\
    bufferCounter (binary st') = (bufferCounter (binary st) + String.length chunk)%nat /\
    length (binary_buffer (binary st')) = length (binary_buffer (binary st)) /\
    length (flushed_blob st') = (bufferCounter (binary st) + String.length chunk)%nat /\
    ((bufferCounter (binary st) + String.length chunk
      <= length (binary_buffer (binary st)))%nat ->
     binary_received st' = (binary_received st ++ list_ascii_of_string chunk)%list).
Proof.
  intros Hm. unfold readSBD. cbn [binary set_serialEmitter]. rewrite Hm.
  eexists. split; [reflexivity|].
  do 9 (split; [first [reflexivity | cbn; apply length_copy_at]|]).
  split; [apply flushed_blob_length|].
  intros Hfit. unfold binary_received. cbn.
  rewrite <- length_list_ascii_of_string.
  apply take_copy_at_fits. rewrite length_list_ascii_of_string. exact Hfit.
Qed.

(** X2.  In binary mode readSBD emits nothing: it only counts the chunk and
    copies what fits into the fixed buffer, whose length never changes. *)
Theorem readSBD_binary_mode st chunk :
  mode (binary st) = true ->
  exists st',
    readSBD chunk st = Ok st' /\
    trace st' = trace st /\ data st' = data st /\ buffer st' = buffer st /\
    df st' = df st /\ er st' = er st /\ timers st' = timers st /\
    mode (binary st') = true /\
    bufferCounter (binary st') = (bufferCounter (binary st) + String.length chunk)%nat /\
    length (binary_buffer (binary st')) = length (binary_buffer (binary st)) /\
    length (flushed_blob st') = (bufferCounter (binary st) + String.length chunk)%nat /\
    ((bufferCounter (binary st) + String.length chunk
      <= length (binary_buffer (binary st)))%nat ->
     binary_received st' = (binary_received st ++ list_ascii_of_string chunk)%list).
Proof. exact (readSBD_binary_chunk st chunk). Qed.

Lemma readSBD_binary_mode_witness :
  exists st',
    readSBD "abc" (readBinaryMessage "0" (f_app 1) ready) = Ok st' /\
    trace st' = trace (readBinaryMessage "0" (f_app 1) ready) /\
    data st' = data (readBinaryMessage "0" (f_app 1) ready) /\
    buffer st' = buffer (readBinaryMessage "0" (f_app 1) ready) /\
    df st' = df (readBinaryMessage "0" (f_app 1) ready) /\
    er st' = er (readBinaryMessage "0" (f_app 1) ready) /\
    timers st' = timers (readBinaryMessage "0" (f_app 1) ready) /\
    mode (binary st') = true /\
    bufferCounter (binary st') =
      (bufferCounter (binary (readBinaryMessage "0" (f_app 1) ready)) + String.length "abc")%nat /\
    length (binary_buffer (binary st')) =
      length (binary_buffer (binary (readBinaryMessage "0" (f_app 1) ready))) /\
    length (flushed_blob st') =
      (bufferCounter (binary (readBinaryMessage "0" (f_app 1) ready)) + String.length "abc")%nat /\
    ((bufferCounter (binary (readBinaryMessage "0" (f_app 1) ready)) + String.length "abc"
      <= length (binary_buffer (binary (readBinaryMessage "0" (f_app 1) ready))))%nat ->
     binary_received st' =
       (binary_received (readBinaryMessage "0" (f_app 1) ready)
        ++ list_ascii_of_string "abc")%list).
Proof.
  apply (readSBD_binary_mode (readBinaryMessage "0" (f_app 1) ready) "abc").
  vm_compute. reflexivity.
Defined.

Lemma length_append (a b : string) :
  String.length (a ++ b) = (String.length a + String.length b)%nat.
Proof. induction a; simpl; congruence. Qed.

Lemma binary_chunks_accumulate (chunks : list string) : forall st,
  mode (binary st) = true ->
  (bufferCounter (binary st) + String.length (stream chunks)
   <= length (binary_buffer (binary st)))%nat ->
  exists st',
    run (map SerialData chunks) st = Ok st' /\
    trace st' = trace st /\ timers st' = timers st /\
    df st' = df st /\ er st' = er st /\ data st' = data st /\
    mode (binary st') = true /\
    length (binary_buffer (binary st')) = length (binary_buffer (binary st)) /\
    bufferCounter (binary st') =
      (bufferCounter (binary st) + String.length (stream chunks))%nat /\
    binary_received st' =
      (binary_received st ++ list_ascii_of_string (stream chunks))%list.
Proof.
  induction chunks as [|chunk chunks IH]; intros st Hm Hfit.
  - exists st. cbn [map run stream String.length list_ascii_of_string].
    rewrite Nat.add_0_r, app_nil_r. repeat split; auto.
  - cbn [map run step stream] in *. rewrite length_append in Hfit.
    destruct (readSBD_binary_chunk st chunk Hm)
      as (st1 & -> & Ht & Hd & _ & Hdf & Her & Htm & Hm1 & Hc1 & Hl1 & _ & Hr1).
    cbn [bind].
    destruct (IH st1 Hm1 ltac:(lia))
      as (st' & -> & Ht' & Htm' & Hdf' & Her' & Hd' & Hm' & Hl' & Hc' & Hr').
    exists st'. split; [reflexivity|].
    rewrite list_ascii_of_string_app, length_append.
    repeat split; try congruence; try lia.
    rewrite Hr', Hr1 by lia. now rewrite <- app_assoc.
Qed.

(** X3.  What arrives while a binary read is pending is what the flush hands
    on: chunks received in binary mode, from an empty count and within the
    capacity of the buffer, are emitted by no line event, and the flush
    timer gives the data handler one Buffer holding exactly their octets in
    order, then returns to text mode with the count at zero. *)
Theorem binary_read_delivers_received_octets (chunks : list string) st :
  mode (binary st) = true ->
  bufferCounter (binary st) = 0%nat ->
  (String.length (stream chunks) <= length (binary_buffer (binary st)))%nat ->
  chunks <> [] ->
  exists st',
    run (map SerialData chunks) st = Ok st' /\
    trace st' = trace st /\ df st' = df st /\ er st' = er st /\
    flush st' =
      bind (on_data (Buf (list_ascii_of_string (stream chunks))) st') end_binary.
Proof.
  intros Hm Hc Hfit Hne.
  destruct (binary_chunks_accumulate chunks st Hm ltac:(lia))
    as (st' & Hrun & Ht & _ & Hdf & Her & _ & Hm' & Hl' & Hc' & Hr').
  exists st'. repeat (split; [assumption|]).
  assert (Hse : serialEmitter st' = true).
  { destruct chunks as [|chunk chunks]; [contradiction|].
    cbn [map run step] in Hrun. unfold readSBD in Hrun at 1.
    cbn [binary set_serialEmitter] in Hrun. rewrite Hm in Hrun. cbn [bind] in Hrun.
    match type of Hrun with run _ ?s = _ =>
      assert (Hs : serialEmitter s = true) by reflexivity;
      assert (Hms : mode (binary s) = true) by reflexivity;
      revert Hs Hms Hrun; generalize s end.
    clear. revert st'.
    induction chunks as [|c cs IH]; intros st' s Hs Hms Hrun.
    - injection Hrun as <-. exact Hs.
    - cbn [map run step] in Hrun. unfold readSBD in Hrun at 1.
      cbn [binary set_serialEmitter] in Hrun. rewrite Hms in Hrun.
      cbn [bind] in Hrun. eapply IH; [| |exact Hrun]; reflexivity. }
  unfold flush. rewrite Hse.
  fold (flushed_blob st'). rewrite flushed_blob_fits by lia.
  rewrite Hr'. unfold binary_received at 1. rewrite Hc. reflexivity.
Qed.

Lemma binary_read_delivers_received_octets_witness :
  exists st',
    run (map SerialData ["ab"; "cd"]) (readBinaryMessage "0" (f_app 1) ready) = Ok st' /\
    trace st' = trace (readBinaryMessage "0" (f_app 1) ready) /\
    df st' = df (readBinaryMessage "0" (f_app 1) ready) /\
    er st' = er (readBinaryMessage "0" (f_app 1) ready) /\
    flush st' =
      bind (on_data (Buf (list_ascii_of_string (stream ["ab"; "cd"]))) st') end_binary.
Proof.
  apply (binary_read_delivers_received_octets ["ab"; "cd"]
           (readBinaryMessage "0" (f_app 1) ready)).
  - vm_compute. reflexivity.
  - vm_compute. reflexivity.
  - vm_compute. lia.
  - discriminate.
Defined.

(** ** The reply to AT+SBDRB *)

Lemma length_header (n : nat) :
  (Z.of_nat n < 65536)%Z ->
  Z.to_nat (256 * octet_val (to_octet (Z.of_nat n / 256)) +
            octet_val (to_octet (Z.of_nat n))) = n.
Proof.
  intros H. rewrite !octet_val_to_octet.
  assert (0 <= Z.of_nat n / 256 < 256)%Z.
  { split; [apply Z.div_pos; lia|]. apply Z.div_lt_upper_bound; lia. }
  rewrite (Z.mod_small (Z.of_nat n / 256)) by lia.
  pose proof (Z.div_mod (Z.of_nat n) 256 ltac:(lia)). lia.
Qed.

Lemma message_of_frame (payload trailer : list octet) :
  message_of (length payload) (payload ++ trailer) = payload.
Proof.
  unfold message_of. rewrite <- app_assoc. apply take_app_length.
Qed.

Lemma length_message_of (n : nat) (after_header : list octet) :
  length (message_of n after_header) = n.
Proof.
  unfold message_of, Buffer_alloc.
  rewrite length_take, length_app, length_replicate. lia.
Qed.

(** X4.  Decoding the reply to AT+SBDRB: from a frame that announces the length
    of its payload, the datafunction of readBinaryMessage emits newmessage
    with exactly that payload and the queue count, stores the count in
    pending, leaves binary mode and sends AT+SBDD1 with the callback as its
    datafunction.  What follows the payload (the checksum) is never looked
    at: any trailer gives the same result. *)
Theorem readBinaryMessage_decodes_frame payload trailer mtqueued callback err st :
  truthy err = false ->
  (Z.of_nat (length payload) < 65536)%Z ->
  exists st',
    call (f_SBDRB mtqueued callback) err (RBuf (SBDRB_frame payload trailer)) st
      = Ok st' /\
    events st' = ev_newmessage payload mtqueued :: events st /\
    pending st' = to_number mtqueued /\
    mode (binary st') = false /\
    writes st' = Str ("AT+SBDD1" ++ CR) :: writes st /\
    df st' = Some callback /\
    calls st' = calls st /\ completions st' = completions st.
Proof.
  intros Herr Hlen. unfold SBDRB_frame. cbn [call]. rewrite Herr.
  rewrite length_header by exact Hlen. rewrite message_of_frame.
  eexists. split; [reflexivity|].
  unfold clearMTBuffers, ATS, emit. proj. repeat split; reflexivity.
Qed.

Lemma readBinaryMessage_decodes_frame_witness :
  exists st',
    call (f_SBDRB "2" (f_app 1)) ENull
         (RBuf (SBDRB_frame ["222"; "173"; "190"; "239"]%char ["000"; "000"]%char))
         reading_MT = Ok st' /\
    events st' = ev_newmessage ["222"; "173"; "190"; "239"]%char "2" :: events reading_MT /\
    pending st' = to_number "2" /\
    mode (binary st') = false /\
    writes st' = Str ("AT+SBDD1" ++ CR) :: writes reading_MT /\
    df st' = Some (f_app 1) /\
    calls st' = calls reading_MT /\ completions st' = completions reading_MT.
Proof.
  apply (readBinaryMessage_decodes_frame ["222"; "173"; "190"; "239"]%char
           ["000"; "000"]%char "2" (f_app 1) ENull reading_MT).
  - reflexivity.
  - vm_compute. reflexivity.
Defined.

(** X5.  The edge cases of that datafunction: data that is not a Buffer of at
    least two octets (a text line, an empty or one-octet blob) raises an
    exception with the state untouched; and a blob shorter than the length
    it announces still yields a message of the announced length. *)
Theorem readBinaryMessage_short_or_text_data mtqueued callback err r st :
  truthy err = false ->
  (forall hi lo after_header, r <> RBuf (hi :: lo :: after_header)) ->
  (exists exception,
     call (f_SBDRB mtqueued callback) err r st = Throw st exception) /\
  forall n after_header, length (message_of n after_header) = n.
Proof.
  intros Herr Hr. split; [|apply length_message_of].
  cbn [call]. rewrite Herr.
  destruct r as [| |[|hi [|lo after]]| | |]; try (eexists; reflexivity).
  now destruct (Hr hi lo after).
Qed.

Lemma readBinaryMessage_short_or_text_data_witness :
  (exists exception,
     call (f_SBDRB "0" (f_app 1)) ENull (RStr ("SBDRING" ++ CR)) reading_MT
       = Throw reading_MT exception) /\
  forall n after_header, length (message_of n after_header) = n.
Proof.
  apply (readBinaryMessage_short_or_text_data "0" (f_app 1) ENull
           (RStr ("SBDRING" ++ CR)) reading_MT).
  - reflexivity.
  - discriminate.
Defined.

(** ** The timeout timer *)

Lemma cancel_tf_effect st :
  let st' := cancel_tf st in
  df st' = df st /\ er st' = er st /\ kr st' = kr st /\ tf st' = tf st /\
  next_timer st' = next_timer st /\ trace st' = trace st /\
  writes st' = writes st /\ sends st' = sends st /\ same_session st st'.
Proof.
  unfold cancel_tf, clearTimeout, same_session.
  destruct (tf st) eqn:E; cbn; rewrite ?E; repeat split; reflexivity.
Qed.

Lemma cancel_tf_df st : df (cancel_tf st) = df st.
Proof. apply (cancel_tf_effect st). Qed.
Lemma cancel_tf_er st : er (cancel_tf st) = er st.
Proof. apply (cancel_tf_effect st). Qed.
Lemma cancel_tf_kr st : kr (cancel_tf st) = kr st.
Proof. apply (cancel_tf_effect st). Qed.
Lemma cancel_tf_tf st : tf (cancel_tf st) = tf st.
Proof. apply (cancel_tf_effect st). Qed.
Lemma cancel_tf_next_timer st : next_timer (cancel_tf st) = next_timer st.
Proof. apply (cancel_tf_effect st). Qed.
Lemma cancel_tf_trace st : trace (cancel_tf st) = trace st.
Proof. apply (cancel_tf_effect st). Qed.
Lemma cancel_tf_buffer st : buffer (cancel_tf st) = buffer st.
Proof. apply (cancel_tf_effect st). Qed.
Lemma cancel_tf_data st : data (cancel_tf st) = data st.
Proof. apply (cancel_tf_effect st). Qed.
Lemma cancel_tf_messagePending st : messagePending (cancel_tf st) = messagePending st.
Proof. apply (cancel_tf_effect st). Qed.
Lemma cancel_tf_binary st : binary (cancel_tf st) = binary st.
Proof. apply (cancel_tf_effect st). Qed.
Lemma cancel_tf_lock st : lock (cancel_tf st) = lock st.
Proof. apply (cancel_tf_effect st). Qed.
Lemma cancel_tf_pending st : pending (cancel_tf st) = pending st.
Proof. apply (cancel_tf_effect st). Qed.
Lemma cancel_tf_c_attempt st : c_attempt (cancel_tf st) = c_attempt st.
Proof. apply (cancel_tf_effect st). Qed.
Lemma cancel_tf_globals st : globals (cancel_tf st) = globals st.
Proof. apply (cancel_tf_effect st). Qed.
Lemma cancel_tf_serialEmitter st : serialEmitter (cancel_tf st) = serialEmitter st.
Proof. apply (cancel_tf_effect st). Qed.
Lemma cancel_tf_series_pos st : series_pos (cancel_tf st) = series_pos st.
Proof. apply (cancel_tf_effect st). Qed.

#[local] Hint Rewrite cancel_tf_df cancel_tf_er cancel_tf_kr cancel_tf_tf
  cancel_tf_next_timer cancel_tf_trace cancel_tf_buffer cancel_tf_data
  cancel_tf_messagePending cancel_tf_binary cancel_tf_lock cancel_tf_pending
  cancel_tf_c_attempt cancel_tf_globals cancel_tf_serialEmitter
  cancel_tf_series_pos : proj.

Lemma AT_timers command e k f timeout st :
  timers (AT command e k f timeout st) =
  if (0 <? effective_timeout timeout st)%Z
  then (next_timer st, (effective_timeout timeout st, t_timeout command))
       :: timers (cancel_tf st)
  else timers (cancel_tf st).
Proof.
  destruct st as [b d mp bin lk pe ca g dfn ern krn tfn se tm nt sp tr];
    unfold AT, effective_timeout, cancel_tf, log, emit, write, setTimeout, clearTimeout.
  cbn.
  destruct timeout as [t|]; [destruct (t =? 0)%Z|]; destruct tfn; cbn;
    repeat (break_if; cbn); destruct command; cbn; repeat (break_if; cbn);
    reflexivity.
Qed.

Lemma AT_tf command e k f timeout st :
  tf (AT command e k f timeout st) =
  if (0 <? effective_timeout timeout st)%Z then Some (next_timer st) else tf st.
Proof.
  destruct st as [b d mp bin lk pe ca g dfn ern krn tfn se tm nt sp tr];
    unfold AT, effective_timeout, cancel_tf, log, emit, write, setTimeout, clearTimeout.
  cbn.
  destruct timeout as [t|]; [destruct (t =? 0)%Z|]; destruct tfn; cbn;
    repeat (break_if; cbn); destruct command; cbn; repeat (break_if; cbn);
    reflexivity.
Qed.

Lemma AT_next_timer command e k f timeout st :
  next_timer (AT command e k f timeout st) =
  if (0 <? effective_timeout timeout st)%Z then S (next_timer st) else next_timer st.
Proof.
  destruct st as [b d mp bin lk pe ca g dfn ern krn tfn se tm nt sp tr];
    unfold AT, effective_timeout, cancel_tf, log, emit, write, setTimeout, clearTimeout.
  cbn.
  destruct timeout as [t|]; [destruct (t =? 0)%Z|]; destruct tfn; cbn;
    repeat (break_if; cbn); destruct command; cbn; repeat (break_if; cbn);
    reflexivity.
Qed.

Lemma find_timer_clearTimeout id l :
  find_timer id (List.filter (fun t => negb (fst t =? id)%nat) l) = None.
Proof.
  induction l as [|[i t] l IH]; [reflexivity|].
  cbn [List.filter fst]. destruct (i =? id)%nat eqn:E; cbn [negb]; [exact IH|].
  cbn [find_timer]. now rewrite E.
Qed.

(** X6.  A command with a positive effective timeout (its own, or
    defaultTimeout when none or 0 is given) arms exactly one timer: the
    previous timeout timer is cancelled, the new one gets a fresh handle
    that is kept in tf.  The datafunction of a command still in flight is
    replaced without being run. *)
Theorem AT_positive_timeout command e k f timeout st :
  (0 < effective_timeout timeout st)%Z ->
  let st' := AT command e k f timeout st in
  tf st' = Some (next_timer st) /\
  timers st' =
    (next_timer st, (effective_timeout timeout st, t_timeout command))
    :: timers (cancel_tf st) /\
  (forall id, tf st = Some id -> find_timer id (timers (cancel_tf st)) = None) /\
  df st' = Some f /\
  completions st' = completions st /\ calls st' = calls st /\
  sends st' = S (sends st).
Proof.
  intros H. cbv zeta.
  rewrite AT_tf, AT_timers.
  assert (E : (0 <? effective_timeout timeout st)%Z = true) by lia.
  rewrite E. repeat split.
  - intros id Hid. unfold cancel_tf, clearTimeout. rewrite Hid. cbn.
    apply find_timer_clearTimeout.
  - apply AT_effect.
  - apply (AT_effect command e k f timeout st).
  - apply (AT_effect command e k f timeout st).
  - apply (AT_effect command e k f timeout st).
Qed.

Lemma AT_positive_timeout_witness :
  let st' := AT (Str "AT+CSQ") (Some OK) (Some ALL) (f_app 1) None in_session in
  tf st' = Some (next_timer in_session) /\
  timers st' =
    (next_timer in_session,
     (effective_timeout None in_session, t_timeout (Str "AT+CSQ")))
    :: timers (cancel_tf in_session) /\
  (forall id, tf in_session = Some id ->
              find_timer id (timers (cancel_tf in_session)) = None) /\
  df st' = Some (f_app 1) /\
  completions st' = completions in_session /\ calls st' = calls in_session /\
  sends st' = S (sends in_session).
Proof.
  apply (AT_positive_timeout (Str "AT+CSQ") (Some OK) (Some ALL) (f_app 1) None
           in_session).
  vm_compute. reflexivity.
Defined.

(** X7.  When a timeout timer expires nothing happens to the command: the
    timer is dropped and a debug message is logged; the datafunction, the
    patterns, the body buffer, the port, the callbacks and the counts of
    sends and completions are as before. *)
Theorem timeout_timer_changes_nothing id delay command st :
  find_timer id (timers st) = Some (delay, t_timeout command) ->
  exists st',
    fire id st = Ok st' /\
    find_timer id (timers st') = None /\
    df st' = df st /\ er st' = er st /\ kr st' = kr st /\
    writes st' = writes st /\ sends st' = sends st /\
    same_session st st'.
Proof.
  intros H. rewrite (fire_timeout id delay command st H).
  eexists. split; [reflexivity|].
  unfold same_session, clearTimeout. proj.
  repeat split; try reflexivity.
  apply find_timer_clearTimeout.
Qed.

Lemma timeout_timer_changes_nothing_witness :
  exists st',
    fire 4 (getSignalQuality (f_app 1) ready) = Ok st' /\
    find_timer 4 (timers st') = None /\
    df st' = df (getSignalQuality (f_app 1) ready) /\
    er st' = er (getSignalQuality (f_app 1) ready) /\
    kr st' = kr (getSignalQuality (f_app 1) ready) /\
    writes st' = writes (getSignalQuality (f_app 1) ready) /\
    sends st' = sends (getSignalQuality (f_app 1) ready) /\
    same_session (getSignalQuality (f_app 1) ready) st'.
Proof.
  apply (timeout_timer_changes_nothing 4 40000 (Str "AT+CSQ")
           (getSignalQuality (f_app 1) ready)).
  vm_compute. reflexivity.
Defined.

(** ** The body of a response *)

Lemma bind_Ok (o : outcome) : bind o Ok = o.
Proof. now destruct o. Qed.

(** A line of the body: kept or dropped, nothing else. *)
Lemma on_data_body_line st line e :
  er st = Some e ->
  body_line e line = true ->
  on_data (Str line) st =
  Ok (if kept (kr st) line
      then set_buffer (buffer st ++ (line ++ LF))
                      (log [PStr "< "; PData (Str line)] st)
      else log [PStr "< "; PData (Str line)] st).
Proof.
  intros He Hb. unfold body_line in Hb. unfold on_data.
  rewrite log_er, He.
  destruct (first_match unsollicited line); [discriminate|].
  destruct (first_error line); [discriminate|].
  rewrite log_kr, log_buffer. unfold kept.
  destruct (kr st) as [k|]; [destruct (test k line)|]; cbn [er];
    rewrite ?log_er, ?He; cbn [er set_buffer];
    apply negb_true_iff in Hb; rewrite ?log_er, ?He, Hb; reflexivity.
Qed.

(** The line that ends the command. *)
Lemma on_data_end_line st line e f :
  er st = Some e ->
  df st = Some f ->
  end_line e line = true ->
  on_data (Str line) st =
  bind (call f ENull
             (RStr (buffer st ++ (if kept (kr st) line then line ++ LF else "")))
             (record (Completed ENull
                        (RStr (buffer st ++ (if kept (kr st) line then line ++ LF else ""))))
                     (cancel_tf
                        (if kept (kr st) line
                         then set_buffer (buffer st ++ (line ++ LF))
                                (log [PStr "< "; PData (Str line)] st)
                         else log [PStr "< "; PData (Str line)] st))))
       (fun st => Ok (set_buffer "" st)).
Proof.
  intros He Hf Hb. unfold end_line in Hb. unfold on_data.
  rewrite log_er, He.
  destruct (first_match unsollicited line); [discriminate|].
  destruct (first_error line); [discriminate|].
  rewrite log_kr, log_buffer. unfold kept, invoke_df.
  destruct (kr st) as [k|]; [destruct (test k line)|]; rewrite Hb;
    cbn [df buffer set_buffer]; rewrite ?log_df, ?log_buffer, Hf, ?append_nil_r;
    reflexivity.
Qed.

Lemma emit_data_app (l1 l2 : list string) : forall st,
  emit_data (l1 ++ l2)%list st = bind (emit_data l1 st) (emit_data l2).
Proof.
  induction l1 as [|x l1 IH]; intros st; [reflexivity|].
  cbn [emit_data app]. destruct (on_data (Str x) st); cbn [bind]; auto.
Qed.

Lemma unlines_app (l1 l2 : list string) :
  unlines (l1 ++ l2)%list = unlines l1 ++ unlines l2.
Proof.
  induction l1 as [|x l1 IH]; [reflexivity|].
  cbn [app unlines]. now rewrite IH, !append_assoc.
Qed.

Lemma only_body_differs_refl st : only_body_differs st st.
Proof. unfold only_body_differs. repeat split. Qed.

Lemma only_body_differs_trans st0 st1 st2 :
  only_body_differs st0 st1 -> only_body_differs st1 st2 ->
  only_body_differs st0 st2.
Proof.
  unfold only_body_differs. intros H1 H2.
  decompose [and] H1. decompose [and] H2. repeat split; congruence.
Qed.

Lemma body_line_step st line e :
  er st = Some e ->
  body_line e line = true ->
  exists st',
    on_data (Str line) st = Ok st' /\
    buffer st' = buffer st ++ (if kept (kr st) line then line ++ LF else "") /\
    only_body_differs st st'.
Proof.
  intros He Hb. rewrite (on_data_body_line st line e He Hb).
  eexists. split; [reflexivity|].
  unfold only_body_differs.
  destruct (kept (kr st) line); proj; rewrite ?append_nil_r;
    repeat split; reflexivity.
Qed.

(** Lines of the body accumulate in the body buffer, each followed by LF,
    when the keep pattern is missing or matches them; nothing else moves. *)
Lemma emit_data_body (lines : list string) : forall st e,
  er st = Some e ->
  forallb (body_line e) lines = true ->
  exists st',
    emit_data lines st = Ok st' /\
    buffer st' = buffer st ++ unlines (List.filter (kept (kr st)) lines) /\
    only_body_differs st st'.
Proof.
  induction lines as [|line lines IH]; intros st e He Hall.
  - exists st. cbn. rewrite append_nil_r. auto using only_body_differs_refl.
  - cbn [forallb] in Hall. apply andb_prop in Hall as [Hb Hall].
    destruct (body_line_step st line e He Hb) as (st1 & Hs & Hbuf & Hsame).
    cbn [emit_data]. rewrite Hs. cbn [bind].
    assert (He1 : er st1 = Some e) by (unfold only_body_differs in Hsame; intuition congruence).
    assert (Hk1 : kr st1 = kr st) by (unfold only_body_differs in Hsame; intuition congruence).
    destruct (IH st1 e He1 Hall) as (st' & Hr & Hbuf' & Hsame').
    exists st'. split; [exact Hr|]. split.
    + rewrite Hbuf', Hbuf, Hk1. cbn [List.filter].
      destruct (kept (kr st) line); cbn [unlines];
        now rewrite ?append_nil_r, ?append_assoc.
    + eapply only_body_differs_trans; eassumption.
Qed.

(** X8.  The body of a response.  While a command with an end pattern is in
    flight, lines that are neither unsolicited, nor errors, nor its end
    are collected; the line that matches the end pattern then hands the
    callback the collected lines and itself, those that the keep pattern
    admits, each followed by LF, in order, and empties the body buffer. *)
Theorem response_body_is_kept_lines lines last st e id :
  er st = Some e ->
  df st = Some (f_app id) ->
  forallb (body_line e) lines = true ->
  end_line e last = true ->
  exists st',
    emit_data (lines ++ [last])%list st = Ok st' /\
    calls st' =
      (id, ENull,
       RStr (buffer st ++ unlines (List.filter (kept (kr st)) (lines ++ [last])%list)))
      :: calls st /\
    buffer st' = "" /\
    completions st' = S (completions st) /\
    writes st' = writes st /\ events st' = events st.
Proof.
  intros He Hf Hall Hend.
  destruct (emit_data_body lines st e He Hall) as (st1 & Hr & Hbuf & Hsame).
  rewrite emit_data_app, Hr. cbn [bind emit_data].
  unfold only_body_differs in Hsame. decompose [and] Hsame.
  rewrite (on_data_end_line st1 last e (f_app id)) by congruence.
  cbn [call bind]. eexists. split; [reflexivity|].
  rewrite List.filter_app, unlines_app. cbn [List.filter].
  replace (kr st1) with (kr st) by congruence.
  unfold completions, calls, writes, events in *.
  destruct (kept (kr st) last); cbn [unlines]; proj;
    rewrite Hbuf, ?append_nil_r, ?append_assoc;
    repeat split; try congruence;
    match goal with H : calls_of (trace st1) = _ |- _ => rewrite H end;
    reflexivity.
Qed.

Lemma response_body_is_kept_lines_witness :
  exists st',
    emit_data (["+CIEV:0,0" ++ CR; "+SBDIX: 1, 42, 0, 0, 0, 0" ++ CR]%string ++ ["OK" ++ CR]%string)%list
              (AT (Str "AT+SBDIXA") (Some OK) (Some RE_SBDIX) (f_app 3) None ready)
      = Ok st' /\
    calls st' =
      (3%nat, ENull,
       RStr (buffer (AT (Str "AT+SBDIXA") (Some OK) (Some RE_SBDIX) (f_app 3) None ready) ++
             unlines (List.filter
                        (kept (kr (AT (Str "AT+SBDIXA") (Some OK) (Some RE_SBDIX)
                                      (f_app 3) None ready)))
                        (["+CIEV:0,0" ++ CR; "+SBDIX: 1, 42, 0, 0, 0, 0" ++ CR]%string
                         ++ ["OK" ++ CR]%string)%list)))
      :: calls (AT (Str "AT+SBDIXA") (Some OK) (Some RE_SBDIX) (f_app 3) None ready) /\
    buffer st' = "" /\
    completions st' =
      S (completions (AT (Str "AT+SBDIXA") (Some OK) (Some RE_SBDIX) (f_app 3) None ready)) /\
    writes st' = writes (AT (Str "AT+SBDIXA") (Some OK) (Some RE_SBDIX) (f_app 3) None ready) /\
    events st' = events (AT (Str "AT+SBDIXA") (Some OK) (Some RE_SBDIX) (f_app 3) None ready).
Proof.
  apply (response_body_is_kept_lines
           ["+CIEV:0,0" ++ CR; "+SBDIX: 1, 42, 0, 0, 0, 0" ++ CR] ("OK" ++ CR)
           (AT (Str "AT+SBDIXA") (Some OK) (Some RE_SBDIX) (f_app 3) None ready) OK 3);
    vm_compute; reflexivity.
Defined.

(** ** Error and registration lines *)

(** X9.  An error line.  While a command with an end pattern is in flight, a
    line that is not unsolicited and contains ERROR completes the command
    with the error pattern as the error and the body collected so far as
    the text; the error line itself is not part of the body, whatever the
    end and keep patterns say, and the body buffer is emptied. *)
Theorem error_line_completes_with_error st line e id :
  er st = Some e ->
  df st = Some (f_app id) ->
  first_match unsollicited line = None ->
  test RE_ERROR line = true ->
  exists st',
    on_data (Str line) st = Ok st' /\
    calls st' = (id, ERegExp RE_ERROR, RStr (buffer st)) :: calls st /\
    buffer st' = "" /\
    completions st' = S (completions st) /\
    writes st' = writes st /\ events st' = events st /\
    df st' = df st /\ er st' = er st.
Proof.
  intros He Hf Hu Herr. unfold on_data.
  rewrite log_er, He, Hu. unfold first_error. cbn [errors map first_match].
  rewrite Herr. unfold invoke_df. rewrite log_df, Hf, log_buffer.
  cbn [call bind]. eexists. split; [reflexivity|].
  proj. repeat split; assumption.
Qed.

Lemma error_line_completes_with_error_witness :
  exists st',
    on_data (Str ("ERROR" ++ CR)) (clearMOBuffers (f_app 3) ready) = Ok st' /\
    calls st' = (3%nat, ERegExp RE_ERROR, RStr (buffer (clearMOBuffers (f_app 3) ready)))
                :: calls (clearMOBuffers (f_app 3) ready) /\
    buffer st' = "" /\
    completions st' = S (completions (clearMOBuffers (f_app 3) ready)) /\
    writes st' = writes (clearMOBuffers (f_app 3) ready) /\
    events st' = events (clearMOBuffers (f_app 3) ready) /\
    df st' = df (clearMOBuffers (f_app 3) ready) /\
    er st' = er (clearMOBuffers (f_app 3) ready).
Proof.
  apply (error_line_completes_with_error (clearMOBuffers (f_app 3) ready)
           ("ERROR" ++ CR) OK 3); vm_compute; reflexivity.
Defined.

(** X10.  A registration line.  While a command with an end pattern is in
    flight, a line starting with +AREG that carries its two numbers only
    logs the registration result; one that lacks them raises an exception
    in the handler.  In both cases everything but the debug trace is as
    before. *)
Theorem areg_line_logs_or_raises st line e :
  er st = Some e ->
  test RE_AREG line = true ->
  (forall regevent regerr,
     match_AREG line = Some [regevent; regerr] ->
     on_data (Str line) st =
     Ok (log [PStr "Registration result: "; PStr regevent;
              PStr " with error "; PStr regerr]
             (log [PStr "< "; PData (Str line)] st))) /\
  (match_AREG line = None ->
   exists exception,
     on_data (Str line) st =
     Throw (log [PStr "< "; PData (Str line)] st) exception) /\
  buffer (state_of (on_data (Str line) st)) = buffer st /\
  only_body_differs st (state_of (on_data (Str line) st)).
Proof.
  intros He Ha.
  assert (Hm : first_match unsollicited line = Some h_areg).
  { cbn [unsollicited first_match]. rewrite Ha.
    destruct (test RE_SBDRING line) eqn:Er; [|reflexivity].
    cbn [test] in *. unfold starts_with in *.
    destruct line as [|c line]; [discriminate|].
    cbn [strip_prefix] in *.
    destruct (Ascii.eqb "S" c) eqn:E1; [|discriminate].
    destruct (Ascii.eqb "+" c) eqn:E2; [|discriminate].
    apply Ascii.eqb_eq in E1, E2. congruence. }
  unfold on_data. rewrite log_er, He, Hm. cbn [execute]. unfold areg.
  split; [|split].
  - intros regevent regerr ->. reflexivity.
  - intros ->. eexists. reflexivity.
  - unfold only_body_differs.
    destruct (match_AREG line) as [[|? [|? [|? ?]]]|]; cbn [state_of];
      proj; repeat split; reflexivity.
Qed.

Lemma areg_line_logs_or_raises_witness :
  (forall regevent regerr,
     match_AREG ("+AREG" ++ CR) = Some [regevent; regerr] ->
     on_data (Str ("+AREG" ++ CR)) in_session =
     Ok (log [PStr "Registration result: "; PStr regevent;
              PStr " with error "; PStr regerr]
             (log [PStr "< "; PData (Str ("+AREG" ++ CR))] in_session))) /\
  (exists exception,
     on_data (Str ("+AREG" ++ CR)) in_session =
     Throw (log [PStr "< "; PData (Str ("+AREG" ++ CR))] in_session) exception) /\
  buffer (state_of (on_data (Str ("+AREG" ++ CR)) in_session)) = buffer in_session /\
  only_body_differs in_session (state_of (on_data (Str ("+AREG" ++ CR)) in_session)).
Proof.
  destruct (areg_line_logs_or_raises in_session ("+AREG" ++ CR) OK)
    as (H1 & H2 & H3 & H4).
  - vm_compute. reflexivity.
  - vm_compute. reflexivity.
  - split; [exact H1|]. split; [apply H2; vm_compute; reflexivity|].
    split; assumption.
Defined.

(** ** The session result *)

(** X11.  A session reply that cannot be parsed.  When the response to
    AT+SBDIXA holds no +SBDIX line of six numbers, the datafunction of
    initiateSession raises an exception after logging: the callback is not
    called, AT+SBDD0 is not sent and the slot is left as it was. *)
Theorem unparsed_SBDIX_raises callback text err st :
  truthy err = false ->
  match_SBDIX text = None ->
  exists exception,
    call (f_SBDIXA callback) err (RStr text) st =
      Throw (log [PStr "Error parsing SBDIX!"] st) exception /\
    writes (log [PStr "Error parsing SBDIX!"] st) = writes st /\
    calls (log [PStr "Error parsing SBDIX!"] st) = calls st /\
    df (log [PStr "Error parsing SBDIX!"] st) = df st /\
    messagePending (log [PStr "Error parsing SBDIX!"] st) = messagePending st.
Proof.
  intros Herr Hm. cbn [call]. rewrite Herr, Hm.
  eexists. split; [reflexivity|]. proj. repeat split; reflexivity.
Qed.

Lemma unparsed_SBDIX_raises_witness :
  exists exception,
    call (f_SBDIXA (f_app 7)) ENull (RStr "") in_session =
      Throw (log [PStr "Error parsing SBDIX!"] in_session) exception /\
    writes (log [PStr "Error parsing SBDIX!"] in_session) = writes in_session /\
    calls (log [PStr "Error parsing SBDIX!"] in_session) = calls in_session /\
    df (log [PStr "Error parsing SBDIX!"] in_session) = df in_session /\
    messagePending (log [PStr "Error parsing SBDIX!"] in_session) =
      messagePending in_session.
Proof.
  apply (unparsed_SBDIX_raises (f_app 7) "" ENull in_session); reflexivity.
Defined.

Lemma readBinaryMessage_effect mtqueued callback st :
  (forall id, tf st = Some id -> (id < next_timer st)%nat) ->
  let st' := readBinaryMessage mtqueued callback st in
  mode (binary st') = true /\
  find_timer (next_timer st) (timers st') = Some (1000%Z, t_flush) /\
  er st' = None /\ kr st' = None /\
  writes st' = Str ("AT+SBDRB" ++ CR) :: writes st /\
  df st' = Some (f_SBDRB mtqueued callback) /\
  calls st' = calls st /\ events st' = events st /\
  messagePending st' = messagePending st.
Proof.
  intros Htf. cbv zeta. unfold readBinaryMessage.
  split; [rewrite AT_binary; reflexivity|].
  split.
  { rewrite AT_timers.
    assert (Hc : find_timer (next_timer st)
                   (timers (cancel_tf (enableBinaryMode 1000 st))) =
                 Some (1000%Z, t_flush)).
    { unfold cancel_tf, enableBinaryMode, clearTimeout, setTimeout.
      cbn [snd tf set_timers set_binary timers next_timer].
      destruct (tf st) as [id|] eqn:Etf; cbn [timers set_timers set_binary next_timer].
      - specialize (Htf id eq_refl).
        cbn [List.filter fst].
        assert (En : (next_timer st =? id)%nat = false) by (apply Nat.eqb_neq; lia).
        rewrite En. cbn [negb find_timer]. now rewrite Nat.eqb_refl.
      - cbn [find_timer]. now rewrite Nat.eqb_refl. }
    destruct (0 <? _)%Z; [|exact Hc].
    cbn [find_timer]. unfold enableBinaryMode, setTimeout at 1.
    cbn [snd next_timer set_timers set_binary].
    assert (Ex : (S (next_timer st) =? next_timer st)%nat = false)
      by (apply Nat.eqb_neq; lia).
    rewrite Ex. exact Hc. }
  unfold enableBinaryMode. proj. repeat split; reflexivity.
Qed.

(** X12.  The MT disposition once the MO message succeeded (status at most 4).
    With mtstatus 1 the binary read starts: binary mode is entered, the
    flush timer of 1000 ms is armed and AT+SBDRB is sent with no end and no
    keep pattern; when the read is over AT+SBDD0 follows.  With any other
    mtstatus AT+SBDD0 is sent at once.  In both cases the continuation of
    AT+SBDD0 hands the callback the error of that command and momsn. *)
Theorem initiateSession_MT_disposition callback text m err st :
  truthy err = false ->
  match_SBDIX text = Some m ->
  (to_number (status m) <= 4)%Z ->
  (forall id, tf st = Some id -> (id < next_timer st)%nat) ->
  ((to_number (mtstatus m) = 1)%Z ->
   exists st',
     call (f_SBDIXA callback) err (RStr text) st = Ok st' /\
     mode (binary st') = true /\
     find_timer (next_timer st) (timers st') = Some (1000%Z, t_flush) /\
     er st' = None /\ kr st' = None /\
     writes st' = Str ("AT+SBDRB" ++ CR) :: writes st /\
     df st' = Some (f_SBDRB (mtqueued m) (f_MT_read callback (momsn m))) /\
     forall e r s,
       call (f_MT_read callback (momsn m)) e r s =
       Ok (clearMOBuffers (f_finish callback (RStr (momsn m))) s)) /\
  ((to_number (mtstatus m) <> 1)%Z ->
   exists st',
     call (f_SBDIXA callback) err (RStr text) st = Ok st' /\
     binary st' = binary st /\
     writes st' = Str ("AT+SBDD0" ++ CR) :: writes st /\
     df st' = Some (f_finish callback (RStr (momsn m)))) /\
  forall e r s,
    call (f_finish callback (RStr (momsn m))) e r s =
    call callback e (RStr (momsn m)) s.
Proof.
  intros Herr Hm Hs Htf.
  assert (E4 : (to_number (status m) <=? 4)%Z = true) by lia.
  split; [|split; [|reflexivity]].
  - intros H1. cbn [call]. rewrite Herr, Hm, E4.
    assert (E0 : (to_number (mtstatus m) =? 0)%Z = false) by lia.
    assert (E1 : (to_number (mtstatus m) =? 1)%Z = true) by lia.
    rewrite E0, E1. eexists. split; [reflexivity|].
    match goal with |- context [readBinaryMessage ?q ?c ?s] =>
      assert (Hn : next_timer s = next_timer st)
        by (destruct (0 <? to_number (mtqueued m))%Z; proj; reflexivity);
      assert (Ht : tf s = tf st)
        by (destruct (0 <? to_number (mtqueued m))%Z; proj; reflexivity);
      assert (Hw : writes s = writes st)
        by (destruct (0 <? to_number (mtqueued m))%Z; proj; reflexivity);
      destruct (readBinaryMessage_effect q c s) as (A1 & A2 & A3 & A4 & A5 & A6 & _)
    end.
    { intros id Hid. rewrite Hn. apply Htf. congruence. }
    rewrite Hn in A2. rewrite Hw in A5.
    repeat split; assumption.
  - intros H1. cbn [call]. rewrite Herr, Hm, E4.
    assert (E1 : (to_number (mtstatus m) =? 1)%Z = false) by lia.
    rewrite E1. unfold finishSession, clearMOBuffers, ATS.
    destruct (to_number (mtstatus m) =? 0)%Z;
      (eexists; split; [reflexivity|]);
      destruct (0 <? to_number (mtqueued m))%Z; proj; repeat split; reflexivity.
Qed.

Lemma initiateSession_MT_disposition_witness :
  exists st',
    call (f_SBDIXA (f_app 7)) ENull
         (RStr ("+SBDIX: 2, 43, 1, 7, 4, 2" ++ CR ++ LF)) in_session = Ok st' /\
    mode (binary st') = true /\
    find_timer (next_timer in_session) (timers st') = Some (1000%Z, t_flush) /\
    er st' = None /\ kr st' = None /\
    writes st' = Str ("AT+SBDRB" ++ CR) :: writes in_session /\
    df st' = Some (f_SBDRB "2" (f_MT_read (f_app 7) "43")) /\
    forall e r s,
      call (f_MT_read (f_app 7) "43") e r s =
      Ok (clearMOBuffers (f_finish (f_app 7) (RStr "43")) s).
Proof.
  destruct (initiateSession_MT_disposition (f_app 7)
              ("+SBDIX: 2, 43, 1, 7, 4, 2" ++ CR ++ LF)
              {| status := "2"; momsn := "43"; mtstatus := "1";
                 mtmsn := "7"; mtlen := "4"; mtqueued := "2" |}
              ENull in_session) as (H1 & _ & _).
  - reflexivity.
  - vm_compute. reflexivity.
  - vm_compute. discriminate.
  - intros id Hid. vm_compute in Hid. injection Hid as <-. vm_compute. lia.
  - apply H1. reflexivity.
Defined.

(** ** Failures during a send; mailboxSend *)

(** X13.  An error at any stage of a send clears the MO buffer before it is
    reported.  Each of the datafunctions of a send (after AT+SBDWB, after
    the payload, after AT+SBDWT, after the network wait, after AT+SBDIXA),
    run with an error, sends AT+SBDD0 and leaves a continuation that hands
    the callback that same error; nothing is reported before AT+SBDD0
    completes.  messagePending becomes 0, or 1 when the session command
    failed.  The one stage that ignores its error is the one after
    AT+CIER=0,0,0: the session is initiated whatever that command gave. *)
Theorem stage_error_clears_MO_buffer f ob callback maxWait' err r st :
  In f (send_stages ob callback maxWait') ->
  truthy err = true ->
  (exists st',
     call f err r st = Ok st' /\
     writes st' = Str ("AT+SBDD0" ++ CR) :: writes st /\
     df st' = Some (f_fail callback err) /\
     calls st' = calls st /\
     messagePending st' = pending_after_failure f) /\
  (forall err' r' s,
     call (f_fail callback err) err' r' s = call callback err RUndefined s) /\
  (forall err' r' s,
     call (f_monitoring_off callback) err' r' s = Ok (initiateSession callback s)).
Proof.
  intros Hin Herr. split; [|split; reflexivity].
  unfold send_stages in Hin. cbn [In] in Hin.
  destruct Hin as [<-|[<-|[<-|[<-|[<-|[]]]]]]; cbn [call pending_after_failure];
    rewrite Herr; (eexists; split; [reflexivity|]);
    unfold clearMOBuffers, ATS; proj; repeat split; reflexivity.
Qed.

Lemma stage_error_clears_MO_buffer_witness :
  (exists st',
     call (f_network (f_app 7)) (ERegExp RE_ERROR) (RStr "") in_session = Ok st' /\
     writes st' = Str ("AT+SBDD0" ++ CR) :: writes in_session /\
     df st' = Some (f_fail (f_app 7) (ERegExp RE_ERROR)) /\
     calls st' = calls in_session /\
     messagePending st' = pending_after_failure (f_network (f_app 7))) /\
  (forall err' r' s,
     call (f_fail (f_app 7) (ERegExp RE_ERROR)) err' r' s =
     call (f_app 7) (ERegExp RE_ERROR) RUndefined s) /\
  (forall err' r' s,
     call (f_monitoring_off (f_app 7)) err' r' s = Ok (initiateSession (f_app 7) s)).
Proof.
  apply (stage_error_clears_MO_buffer (f_network (f_app 7)) [] (f_app 7) None
           (ERegExp RE_ERROR) (RStr "") in_session).
  - cbn. auto.
  - reflexivity.
Defined.

(** X14.  What mailboxSend does with the outcome of a send.  On success the
    callback gets (false, momsn) once; a follow-up mailbox check is armed
    1000 ms later when messages are pending, and only otherwise is the lock
    released.  On an error the callback is not called: a timer of 20000 ms
    is armed that runs mailboxSend again with the same buffer and
    callback.  Nothing is written to the port in either case. *)
Theorem mailboxSend_callback_schedules buffer id err momsn st :
  (eq_null err = true ->
   exists st',
     call (f_mailboxSend buffer (f_app id)) err momsn st = Ok st' /\
     calls st' = (id, EFalse, momsn) :: calls st /\
     writes st' = writes st /\
     ((0 < pending st)%Z ->
      lock st' = lock st /\
      timers st' = (next_timer st, (1000%Z, t_drain)) :: timers st) /\
     ((pending st <= 0)%Z -> lock st' = 0%Z /\ timers st' = timers st)) /\
  (eq_null err = false ->
   exists st',
     call (f_mailboxSend buffer (f_app id)) err momsn st = Ok st' /\
     calls st' = calls st /\ writes st' = writes st /\ lock st' = lock st /\
     timers st' =
       (next_timer st, (20000%Z, t_retry buffer (f_app id))) :: timers st /\
     fire (next_timer st) st' =
       mailboxSend buffer (f_app id) (clearTimeout (next_timer st) st')).
Proof.
  split; intros He; cbn [call]; rewrite He.
  - eexists. split; [reflexivity|].
    unfold setTimeout. cbn [snd].
    destruct (strbuf_truthy buffer);
      (destruct (0 <? pending _)%Z eqn:Ep;
       [rewrite ?log_pending in Ep | rewrite ?log_pending in Ep]);
      proj; repeat split; try reflexivity; try lia.
  - eexists. split; [reflexivity|].
    unfold setTimeout. cbn [snd]. proj. repeat split; try reflexivity.
    unfold fire. cbn [timers set_timers find_timer].
    now rewrite Nat.eqb_refl.
Qed.

Lemma mailboxSend_callback_schedules_witness :
  exists st',
    call (f_mailboxSend (Buf ["001"%char]) (f_app 1)) (EStr "radio failure")
         RUndefined ready = Ok st' /\
    calls st' = calls ready /\ writes st' = writes ready /\ lock st' = lock ready /\
    timers st' =
      (next_timer ready, (20000%Z, t_retry (Buf ["001"%char]) (f_app 1)))
      :: timers ready /\
    fire (next_timer ready) st' =
      mailboxSend (Buf ["001"%char]) (f_app 1) (clearTimeout (next_timer ready) st').
Proof.
  apply (mailboxSend_callback_schedules (Buf ["001"%char]) 1
           (EStr "radio failure") RUndefined ready).
  reflexivity.
Defined.

(** X15.  The counter that nothing initialises.  The object literal leaves
    c_attempt undefined, and mailboxSend only increments it.  As long as it
    is undefined or not a number, mailboxSend starts no send: it turns the
    counter into NaN and fails the callback with the maxAttempts error at
    once, and no later event ever starts an attempt either. *)
Theorem mailboxSend_without_counter_never_sends buffer callback st evs :
  c_attempt st = Undefined \/ c_attempt st = NaN ->
  mailboxSend buffer callback st =
    call callback (EObj too_many) RUndefined
         (log [PStr "[SBD] Failed to send. The maxAttempts of send requests has been reached."]
              (set_c_attempt NaN st)) /\
  attempts (state_of (bind (mailboxSend buffer callback st) (run evs))) =
    attempts st /\
  c_attempt iridium = Undefined.
Proof.
  intros Hc. split; [|split; [|reflexivity]].
  - unfold mailboxSend. cbn [c_attempt globals set_c_attempt].
    destruct Hc as [-> | ->]; reflexivity.
  - assert (H : within_quota st
             (state_of (bind (mailboxSend buffer callback st) (run evs)))).
    { pose proof (mailboxSend_within_quota buffer callback st) as Hm.
      destruct (mailboxSend buffer callback st) as [st1|st1 ?|st1];
        cbn [bind state_of] in *; auto.
      eapply within_quota_trans; [exact Hm|apply run_within_quota]. }
    destruct H as (_ & Ha & Hq).
    assert (quota st = 0%Z) by (unfold quota; destruct Hc as [-> | ->]; reflexivity).
    assert (0 <= quota (state_of (bind (mailboxSend buffer callback st) (run evs))))%Z.
    { unfold quota. break_match; lia. }
    lia.
Qed.

Lemma mailboxSend_without_counter_never_sends_witness :
  mailboxSend (Buf ["001"%char]) (f_app 1) ready =
    call (f_app 1) (EObj too_many) RUndefined
         (log [PStr "[SBD] Failed to send. The maxAttempts of send requests has been reached."]
              (set_c_attempt NaN ready)) /\
  attempts (state_of (bind (mailboxSend (Buf ["001"%char]) (f_app 1) ready)
                           (run [SerialData ok_line; TimerFires 0]))) =
    attempts ready /\
  c_attempt iridium = Undefined.
Proof.
  apply (mailboxSend_without_counter_never_sends (Buf ["001"%char]) (f_app 1)
           ready [SerialData ok_line; TimerFires 0]).
  left. vm_compute. reflexivity.
Defined.

(** X16.  The configuration is fixed once open has run: no serial data and no
    timer changes globals, whatever the modem sends and however the run
    ends. *)
Theorem globals_immutable_after_open evs st :
  globals (state_of (run evs st)) = globals st.
Proof. apply (run_within_quota evs st). Qed.

Lemma open_frame (config : list (string * Z)) : forall st,
  let st' := open config st in
  df st' = df st /\ er st' = er st /\ kr st' = kr st /\ tf st' = tf st /\
  timers st' = timers st /\ buffer st' = buffer st /\ data st' = data st /\
  binary st' = binary st /\ lock st' = lock st /\ pending st' = pending st /\
  c_attempt st' = c_attempt st /\ messagePending st' = messagePending st /\
  serialEmitter st' = serialEmitter st /\ next_timer st' = next_timer st /\
  series_pos st' = series_pos st /\
  writes st' = writes st /\ calls st' = calls st /\ events st' = events st.
Proof.
  induction config as [|[key v] config IH]; intros st; cbn [open].
  - repeat split.
  - cbv zeta in *. specialize (IH (log [PStr "set option: "; PStr key; PStr ": "; PNum v]
                     (set_globals (set_option key v (globals st)) st))).
    decompose [and] IH. clear IH.
    repeat split;
      match goal with H : ?p (open _ _) = _ |- ?p (open _ _) = _ =>
        rewrite H end; proj; reflexivity.
Qed.

Lemma set_option_maxWait key v g :
  maxWait g = None -> maxWait (set_option key v g) = None.
Proof.
  intros H. unfold set_option.
  repeat (break_if; [assumption|]). rewrite H.
  now destruct (String.eqb key "maxWait").
Qed.

Lemma set_option_unknown key v g :
  known_option key = false -> maxWait g = None -> set_option key v g = g.
Proof.
  intros Hk Hw. unfold known_option in Hk. cbn [existsb] in Hk.
  repeat (apply orb_false_elim in Hk as [? Hk]).
  unfold set_option.
  repeat match goal with H : String.eqb key ?s = false |- _ => rewrite H; clear H end.
  destruct (String.eqb key "maxWait"); [now rewrite Hw|reflexivity].
Qed.

(** X17.  What open can change.  It touches nothing but globals and the debug
    trace.  A numeric option whose name is not a field of globals is
    ignored, and since the object literal holds no maxWait, a maxWait given
    in the config is never stored: the network wait is then sent with
    timeoutForever.  (port and flowControl, which configure the serial
    port only, are outside the record.) *)
Theorem open_only_sets_known_options config st :
  maxWait (globals st) = None ->
  let st' := open config st in
  maxWait (globals st') = None /\
  (forall callback w,
     waitForNetwork callback w st' =
     ATS (Str "AT+CIER=1,1,0") (Some RE_CIEV) (Some ALL) callback
         (Some (timeoutForever (globals st'))) st') /\
  (forall key v g,
     known_option key = false -> maxWait g = None -> set_option key v g = g) /\
  df st' = df st /\ er st' = er st /\ timers st' = timers st /\
  buffer st' = buffer st /\ data st' = data st /\ binary st' = binary st /\
  lock st' = lock st /\ pending st' = pending st /\
  c_attempt st' = c_attempt st /\
  writes st' = writes st /\ calls st' = calls st /\ events st' = events st.
Proof.
  intros Hw. cbv zeta.
  assert (Hm : maxWait (globals (open config st)) = None).
  { revert st Hw. induction config as [|[key v] config IH]; intros st Hw;
      cbn [open]; [exact Hw|].
    apply IH. rewrite log_globals. cbn [globals set_globals].
    now apply set_option_maxWait. }
  split; [exact Hm|].
  split; [intros callback w; unfold waitForNetwork; now rewrite Hm|].
  split; [apply set_option_unknown|].
  pose proof (open_frame config st) as H. cbv zeta in H.
  decompose [and] H. repeat split; assumption.
Qed.

Lemma open_only_sets_known_options_witness :
  let st' := open [("debug", 1%Z); ("maxWait", 5000%Z); ("verbose", 1%Z)] iridium in
  maxWait (globals st') = None /\
  (forall callback w,
     waitForNetwork callback w st' =
     ATS (Str "AT+CIER=1,1,0") (Some RE_CIEV) (Some ALL) callback
         (Some (timeoutForever (globals st'))) st') /\
  (forall key v g,
     known_option key = false -> maxWait g = None -> set_option key v g = g) /\
  df st' = df iridium /\ er st' = er iridium /\ timers st' = timers iridium /\
  buffer st' = buffer iridium /\ data st' = data iridium /\
  binary st' = binary iridium /\
  lock st' = lock iridium /\ pending st' = pending iridium /\
  c_attempt st' = c_attempt iridium /\
  writes st' = writes iridium /\ calls st' = calls iridium /\
  events st' = events iridium.
Proof.
  apply (open_only_sets_known_options
           [("debug", 1%Z); ("maxWait", 5000%Z); ("verbose", 1%Z)] iridium).
  reflexivity.
Defined.

(** ** The +SBDIX pattern *)

Lemma strip_prefix_app (p r : string) : strip_prefix p (p ++ r) = Some r.
Proof.
  induction p as [|c p IH]; [reflexivity|].
  cbn [append strip_prefix]. now rewrite Ascii.eqb_refl.
Qed.

Lemma search_here {A} (m : string -> option A) (s : string) (r : A) :
  m s = Some r -> search m s = Some r.
Proof. intros H. destruct s; cbn [search]; now rewrite H. Qed.

Lemma span_digits (d r : string) :
  digits_only d = true -> starts_with_digit r = false ->
  span is_digit (d ++ r) = (d, r).
Proof.
  intros Hd Hr. induction d as [|c d IH].
  - destruct r as [|c r]; [reflexivity|]. cbn in *. now rewrite Hr.
  - cbn [digits_only] in Hd. apply andb_prop in Hd as [Hc Hd].
    cbn [append span]. rewrite Hc, (IH Hd). reflexivity.
Qed.

Lemma digits1_number (d r : string) :
  number_text d = true -> starts_with_digit r = false ->
  digits1 (d ++ r) = Some (d, r).
Proof.
  unfold number_text. intros Hd Hr. apply andb_prop in Hd as [Hne Hd].
  unfold digits1. rewrite (span_digits d r Hd Hr).
  destruct d; [discriminate|reflexivity].
Qed.

(** The pattern on a status line followed by [rest]. *)
Lemma match_SBDIX_line m rest :
  well_formed m = true ->
  starts_with_digit rest = false ->
  match_SBDIX (SBDIX_line m ++ rest) = Some m.
Proof.
  unfold well_formed. intros Hw Hr.
  do 5 (apply andb_prop in Hw as [Hw ?]).
  unfold match_SBDIX, SBDIX_line.
  assert (Hs : sbdix_here
            (("+SBDIX: " ++ status m ++ ", " ++ momsn m ++ ", " ++ mtstatus m ++
              ", " ++ mtmsn m ++ ", " ++ mtlen m ++ ", " ++ mtqueued m) ++ rest)
          = Some m).
  { unfold sbdix_here. rewrite !append_assoc, strip_prefix_app.
    cbn [digit_fields].
    repeat (rewrite digits1_number by (try assumption; reflexivity);
            rewrite ?strip_prefix_app).
    now destruct m. }
  now apply search_here.
Qed.

(** X18.  Parsing the status line.  A line made of +SBDIX: and six numbers
    separated by a comma and a space is matched by the pattern of
    initiateSession whatever follows the last number, provided it is not
    one more digit, and the six groups are the six numbers as written. *)
Theorem match_SBDIX_reads_status_line m rest :
  well_formed m = true ->
  starts_with_digit rest = false ->
  match_SBDIX (SBDIX_line m ++ rest) = Some m.
Proof. exact (match_SBDIX_line m rest). Qed.

Lemma match_SBDIX_reads_status_line_witness :
  match_SBDIX (SBDIX_line {| status := "1"; momsn := "42"; mtstatus := "0";
                             mtmsn := "0"; mtlen := "0"; mtqueued := "0" |}
               ++ CR ++ LF) =
  Some {| status := "1"; momsn := "42"; mtstatus := "0";
          mtmsn := "0"; mtlen := "0"; mtqueued := "0" |}.
Proof.
  apply (match_SBDIX_reads_status_line
           {| status := "1"; momsn := "42"; mtstatus := "0";
              mtmsn := "0"; mtlen := "0"; mtqueued := "0" |} (CR ++ LF));
    reflexivity.
Defined.

(** ** Whole exchanges *)

#[local] Arguments AT : simpl never.
#[local] Arguments log : simpl never.
#[local] Arguments cancel_tf : simpl never.

Lemma split_lf_one_line (line : string) :
  no_lf line = true -> split_lf (line ++ LF) = [line; ""].
Proof.
  induction line as [|c line IH]; intros H; [reflexivity|].
  cbn [no_lf] in H. apply andb_prop in H as [Hc H].
  apply negb_true_iff in Hc.
  cbn [append split_lf]. rewrite Hc, (IH H). reflexivity.
Qed.

Lemma frame_text_one_line (line : string) :
  no_lf line = true -> frame_text "" (line ++ LF) = ([line], "").
Proof.
  intros H. unfold frame_text. cbn [append].
  now rewrite (split_lf_one_line line H).
Qed.

(** One whole line in one chunk, in text mode with nothing retained. *)
Lemma readSBD_line st line :
  mode (binary st) = false -> data st = "" -> no_lf line = true ->
  readSBD (line ++ LF) st =
  on_data (Str line) (set_data "" (set_serialEmitter true st)).
Proof.
  intros Hm Hd Hl. unfold readSBD. cbn [binary set_serialEmitter data].
  rewrite Hm, Hd, (frame_text_one_line line Hl). cbn [emit_data].
  apply bind_Ok.
Qed.

(** The line that ends the command in flight: its datafunction runs with
    the body, on a state that differs from the one before the line in
    nothing a datafunction reads but the timers. *)
Lemma line_completes e k f st line :
  er st = Some e -> kr st = k -> df st = Some f ->
  data st = "" -> mode (binary st) = false ->
  no_lf line = true -> end_line e line = true ->
  exists st1,
    readSBD (line ++ LF) st =
      bind (call f ENull
                 (RStr (buffer st ++ (if kept k line then line ++ LF else ""))) st1)
           (fun s => Ok (set_buffer "" s)) /\
    arrived st st1.
Proof.
  intros He Hk Hf Hd Hm Hl Hend.
  rewrite (readSBD_line st line Hm Hd Hl).
  rewrite (on_data_end_line _ line e f) by (cbn; assumption).
  cbn [kr buffer set_data set_serialEmitter]. rewrite Hk.
  eexists. split; [reflexivity|].
  unfold arrived. destruct (kept k line); proj; repeat split; reflexivity.
Qed.

(** A line containing ERROR ends the command with the error pattern. *)
Lemma line_fails e f st line :
  er st = Some e -> df st = Some f ->
  data st = "" -> mode (binary st) = false ->
  no_lf line = true ->
  first_match unsollicited line = None -> test RE_ERROR line = true ->
  exists st1,
    readSBD (line ++ LF) st =
      bind (call f (ERegExp RE_ERROR) (RStr (buffer st)) st1)
           (fun s => Ok (set_buffer "" s)) /\
    arrived st st1.
Proof.
  intros He Hf Hd Hm Hl Hu Herr.
  rewrite (readSBD_line st line Hm Hd Hl).
  unfold on_data. rewrite log_er. cbn [er set_data set_serialEmitter].
  rewrite He, Hu. unfold first_error. cbn [errors map first_match].
  rewrite Herr. unfold invoke_df. rewrite log_df, log_buffer.
  cbn [df buffer set_data set_serialEmitter]. rewrite Hf.
  eexists. split; [reflexivity|].
  unfold arrived. proj. repeat split; reflexivity.
Qed.

(** The state a datafunction leaves when it sends the next command. *)
Lemma next_command command e k f timeout st :
  let st' := set_buffer "" (AT command e k f timeout st) in
  er st' = e /\ kr st' = k /\ df st' = Some f /\ buffer st' = "" /\
  data st' = data st /\ binary st' = binary st /\
  messagePending st' = messagePending st /\ lock st' = lock st /\
  pending st' = pending st /\ c_attempt st' = c_attempt st /\
  globals st' = globals st /\ series_pos st' = series_pos st /\
  writes st' = wire_of command :: writes st /\
  calls st' = calls st /\ events st' = events st.
Proof. cbv zeta. proj. repeat split; reflexivity. Qed.

Ltac norm_in H :=
  unfold calls, writes, events, sends, completions, attempts in H;
  repeat (progress (autorewrite with proj in H; cbn in H)).

(** Use [line_completes] on the first readSBD of the goal. *)
Ltac complete_line E K F :=
  match goal with
  | |- context [readSBD (?line ++ LF) ?s] =>
      let s1 := fresh "s" in
      let Hr := fresh "Hr" in
      let Ha := fresh "Ha" in
      destruct (line_completes E K F s line) as (s1 & Hr & Ha);
      [ .. | rewrite Hr; clear Hr; unfold arrived in Ha; norm_in Ha;
             decompose [and] Ha; clear Ha ]
  end.

Ltac side := proj; first [reflexivity | assumption | congruence].

(** X19.  The initialisation.  Once the port is open the driver sends ATE0,
    AT+SBDD2, AT+SBDAREG=1 and AT+SBDMTA=1, each after the OK to the one
    before, and then emits initialized once; no callback is involved. *)
Theorem init_runs_four_commands st :
  data st = "" -> mode (binary st) = false ->
  exists st',
    run [PortOpen; SerialData (("OK" ++ CR) ++ LF); SerialData (("OK" ++ CR) ++ LF);
         SerialData (("OK" ++ CR) ++ LF); SerialData (("OK" ++ CR) ++ LF)] st = Ok st' /\
    writes st' =
      Str ("AT+SBDMTA=1" ++ CR) :: Str ("AT+SBDAREG=1" ++ CR) ::
      Str ("AT+SBDD2" ++ CR) :: Str ("ATE0" ++ CR) :: writes st /\
    events st' = ev_initialized :: events st /\
    calls st' = calls st.
Proof.
  intros Hd Hm. cbn [run step bind]. unfold init, echoOff, ATS.
  complete_line OK (Some ALL) (f_series 0); try side.
  cbn [call]. unfold series_callback at 1.
  replace (series_pos s) with 0%nat by congruence. cbn [Nat.eqb negb truthy].
  unfold clearBuffers, ATS. cbn [bind].
  complete_line OK (Some ALL) (f_series 1); try side.
  cbn [call]. unfold series_callback at 1.
  replace (series_pos s0) with 1%nat by congruence. cbn [Nat.eqb negb truthy].
  unfold enableRegistration, ATS. cbn [bind].
  complete_line OK (Some ALL) (f_series 2); try side.
  cbn [call]. unfold series_callback at 1.
  replace (series_pos s1) with 2%nat by congruence. cbn [Nat.eqb negb truthy].
  unfold ringAlertEnable, ATS. cbn [bind].
  complete_line OK (Some ALL) (f_series 3); try side.
  cbn [call]. unfold series_callback at 1.
  replace (series_pos s2) with 3%nat by congruence. cbn [Nat.eqb negb truthy bind].
  eexists. split; [reflexivity|].
  unfold emit. proj. repeat split; congruence.
Qed.

Lemma init_runs_four_commands_witness :
  exists st',
    run [PortOpen; SerialData (("OK" ++ CR) ++ LF); SerialData (("OK" ++ CR) ++ LF);
         SerialData (("OK" ++ CR) ++ LF); SerialData (("OK" ++ CR) ++ LF)] iridium
      = Ok st' /\
    writes st' =
      Str ("AT+SBDMTA=1" ++ CR) :: Str ("AT+SBDAREG=1" ++ CR) ::
      Str ("AT+SBDD2" ++ CR) :: Str ("ATE0" ++ CR) :: writes iridium /\
    events st' = ev_initialized :: events iridium /\
    calls st' = calls iridium.
Proof.
  apply (init_runs_four_commands iridium); reflexivity.
Defined.

(** X20.  The initialisation stops at the first error.  When the reply to ATE0
    is a line that contains ERROR (and is not an unsolicited one), nothing
    more is written and initialized is not emitted: the series ends there,
    with no exception and no retry. *)
Theorem init_stops_at_error st line :
  data st = "" -> mode (binary st) = false ->
  no_lf line = true ->
  first_match unsollicited line = None -> test RE_ERROR line = true ->
  exists st',
    run [PortOpen; SerialData (line ++ LF)] st = Ok st' /\
    writes st' = Str ("ATE0" ++ CR) :: writes st /\
    events st' = events st /\ calls st' = calls st.
Proof.
  intros Hd Hm Hl Hu He. cbn [run step bind]. unfold init, echoOff, ATS.
  match goal with
  | |- context [readSBD _ ?s] =>
      destruct (line_fails OK (f_series 0) s line) as (s1 & Hr & Ha);
        [ try side .. | ]
  end.
  rewrite Hr. clear Hr. unfold arrived in Ha. norm_in Ha.
  decompose [and] Ha. clear Ha.
  cbn [call]. unfold series_callback.
  replace (series_pos s1) with 0%nat by congruence.
  cbn [Nat.eqb negb truthy bind].
  eexists. split; [reflexivity|].
  proj. repeat split; congruence.
Qed.

Lemma init_stops_at_error_witness :
  exists st',
    run [PortOpen; SerialData (("ERROR" ++ CR) ++ LF)] iridium = Ok st' /\
    writes st' = Str ("ATE0" ++ CR) :: writes iridium /\
    events st' = events iridium /\ calls st' = calls iridium.
Proof.
  apply (init_stops_at_error iridium ("ERROR" ++ CR)); reflexivity.
Defined.

Lemma has_char_app c (a b : string) :
  has_char c (a ++ b) = has_char c a || has_char c b.
Proof.
  induction a as [|x a IH]; [reflexivity|].
  cbn [append has_char]. now rewrite IH, orb_assoc.
Qed.

Lemma no_lf_app (a b : string) : no_lf (a ++ b) = no_lf a && no_lf b.
Proof.
  induction a as [|x a IH]; [reflexivity|].
  cbn [append no_lf]. now rewrite IH, andb_assoc.
Qed.

Lemma no_lf_has_char (s : string) : no_lf s = negb (has_char "010" s).
Proof.
  induction s as [|c s IH]; [reflexivity|].
  cbn [no_lf has_char]. rewrite IH, negb_orb.
  now rewrite (Ascii.eqb_sym c).
Qed.

(** A string without the first character of a pattern cannot contain it. *)
Lemma contains_absent (c : ascii) (p s : string) :
  has_char c s = false -> contains (String c p) s = false.
Proof.
  unfold contains. intros H.
  assert (Hs : search (strip_prefix (String c p)) s = None).
  { induction s as [|x s IH]; [reflexivity|].
    cbn [has_char] in H. apply orb_false_elim in H as [Hx H].
    cbn [search strip_prefix]. rewrite Hx. exact (IH H). }
  now rewrite Hs.
Qed.

Lemma digit_is_no (c x : ascii) :
  is_digit x = true -> is_digit c = false -> Ascii.eqb c x = false.
Proof.
  intros Hx Hc. destruct (Ascii.eqb c x) eqn:E; [|reflexivity].
  apply Ascii.eqb_eq in E. congruence.
Qed.

Lemma digits_have_no (c : ascii) (d : string) :
  is_digit c = false -> digits_only d = true -> has_char c d = false.
Proof.
  intros Hc. induction d as [|x d IH]; [reflexivity|].
  cbn [digits_only has_char]. intros H. apply andb_prop in H as [Hx H].
  now rewrite (digit_is_no c x Hx Hc), (IH H).
Qed.

Lemma number_has_no (c : ascii) (d : string) :
  is_digit c = false -> number_text d = true -> has_char c d = false.
Proof.
  unfold number_text. intros Hc H. apply andb_prop in H as [_ H].
  now apply digits_have_no.
Qed.

(** No character outside the digits and those of the frame of the line
    occurs in a status line. *)
Lemma SBDIX_line_has_no (c : ascii) (m : sbdix) :
  well_formed m = true ->
  is_digit c = false -> has_char c "+SBDIX: ," = false ->
  has_char c (SBDIX_line m ++ CR) = has_char c CR.
Proof.
  unfold well_formed. intros Hw Hc Hf.
  do 5 (apply andb_prop in Hw as [Hw ?]).
  unfold SBDIX_line. rewrite !has_char_app.
  rewrite (number_has_no c (status m)), (number_has_no c (momsn m)),
    (number_has_no c (mtstatus m)), (number_has_no c (mtmsn m)),
    (number_has_no c (mtlen m)), (number_has_no c (mtqueued m)) by assumption.
  cbn [has_char] in *.
  repeat (apply orb_false_elim in Hf as [? Hf]).
  repeat match goal with H : Ascii.eqb c _ = false |- _ => rewrite H; clear H end.
  reflexivity.
Qed.

Lemma SBDIX_line_facts (m : sbdix) :
  well_formed m = true ->
  no_lf (SBDIX_line m ++ CR) = true /\
  body_line OK (SBDIX_line m ++ CR) = true /\
  kept (Some RE_SBDIX) (SBDIX_line m ++ CR) = true /\
  match_SBDIX ((SBDIX_line m ++ CR) ++ LF) = Some m.
Proof.
  intros Hw. split; [|split; [|split]].
  - rewrite no_lf_has_char, (SBDIX_line_has_no _ m Hw); reflexivity.
  - unfold body_line, first_error.
    assert (He : test RE_ERROR (SBDIX_line m ++ CR) = false).
    { cbn [test]. apply contains_absent.
      rewrite (SBDIX_line_has_no _ m Hw); reflexivity. }
    cbn [errors map first_match]. rewrite He. reflexivity.
  - reflexivity.
  - rewrite append_assoc. now apply match_SBDIX_line.
Qed.

Lemma CIEV_line_facts (bars : ascii) :
  In bars ["1"; "2"; "3"; "4"; "5"]%char ->
  no_lf (CIEV_line bars ++ CR) = true /\
  end_line RE_CIEV (CIEV_line bars ++ CR) = true.
Proof.
  cbn [In]. intros [<-|[<-|[<-|[<-|[<-|[]]]]]]; split; reflexivity.
Qed.

(** A line of the body, in one chunk. *)
Lemma line_collected e k st line :
  er st = Some e -> kr st = k ->
  data st = "" -> mode (binary st) = false ->
  no_lf line = true -> body_line e line = true ->
  exists st1,
    readSBD (line ++ LF) st = Ok st1 /\
    buffer st1 = buffer st ++ (if kept k line then line ++ LF else "") /\
    er st1 = Some e /\ kr st1 = k /\ df st1 = df st /\
    arrived st st1.
Proof.
  intros He Hk Hd Hm Hl Hb.
  rewrite (readSBD_line st line Hm Hd Hl).
  destruct (body_line_step (set_data "" (set_serialEmitter true st)) line e)
    as (st1 & Hs & Hbuf & Hsame); [exact He|exact Hb|].
  cbn [kr buffer set_data set_serialEmitter] in Hbuf. rewrite Hk in Hbuf.
  exists st1. split; [exact Hs|]. split; [exact Hbuf|].
  unfold only_body_differs, arrived, writes, calls, events, sends, completions in *.
  cbn in Hsame.
  decompose [and] Hsame. repeat split; congruence.
Qed.

(** Use [line_collected] on the first readSBD of the goal. *)
Ltac collect_line E K :=
  match goal with
  | |- context [readSBD (?line ++ LF) ?s] =>
      let s1 := fresh "s" in
      let Hr := fresh "Hr" in
      let Hb := fresh "Hb" in
      let He := fresh "He" in
      let Hk := fresh "Hk" in
      let Hf := fresh "Hf" in
      let Ha := fresh "Ha" in
      destruct (line_collected E K s line) as (s1 & Hr & Hb & He & Hk & Hf & Ha);
      [ .. | rewrite Hr; clear Hr; unfold arrived in Ha; norm_in Ha;
             cbn [buffer set_buffer] in Hb;
             norm_in Hf; decompose [and] Ha; clear Ha ]
  end.

(** Follow the equations that relate each state to the one before. *)
Ltac chase :=
  repeat match goal with
         | H : ?p ?a = _ |- context [?p ?a] => rewrite H
         | H : ?p (?q ?a) = _ |- context [?p (?q ?a)] => rewrite H
         end;
  try reflexivity; try assumption; try lia.

(** The session result with the MO message sent and no MT message to
    read: AT+SBDD0 is sent next. *)
Lemma SBDIXA_no_MT callback text m s :
  match_SBDIX text = Some m ->
  (to_number (status m) <= 4)%Z -> (to_number (mtstatus m) <> 1)%Z ->
  exists s',
    call (f_SBDIXA callback) ENull (RStr text) s =
      Ok (AT (Str "AT+SBDD0") (Some OK) (Some ALL)
             (f_finish callback (RStr (momsn m)))
             (Some (simpleTimeout (globals s'))) s') /\
    data s' = data s /\ binary s' = binary s /\ messagePending s' = 0%Z /\
    lock s' = lock s /\ pending s' = pending s /\
    globals s' = globals s /\ writes s' = writes s /\ calls s' = calls s /\
    events s' = events s.
Proof.
  intros Hm Hs Hmt. cbn [call truthy]. rewrite Hm.
  assert (E4 : (to_number (status m) <=? 4)%Z = true) by lia.
  assert (E1 : (to_number (mtstatus m) =? 1)%Z = false) by lia.
  rewrite E4, E1. unfold finishSession, clearMOBuffers, ATS.
  destruct (to_number (mtstatus m) =? 0)%Z;
    destruct (0 <? to_number (mtqueued m))%Z;
    (eexists; split; [reflexivity|]); proj; repeat split; reflexivity.
Qed.

(** A send that goes through, up to the call of its callback. *)
Lemma session_chain st message callback maxWait' m bars :
  data st = "" -> mode (binary st) = false ->
  well_formed m = true ->
  (to_number (status m) <= 4)%Z -> (to_number (mtstatus m) <> 1)%Z ->
  In bars ["1"; "2"; "3"; "4"; "5"]%char ->
  exists s,
    bind (sendMessage (Str message) callback maxWait' st)
         (run (session_replies bars m)) =
      bind (call callback ENull (RStr (momsn m)) s)
           (fun s' => Ok (set_buffer "" s')) /\
    writes s = (session_writes (write_command message) ++ writes st)%list /\
    calls s = calls st /\ events s = events st /\
    messagePending s = 0%Z /\ lock s = lock st /\ pending s = pending st.
Proof.
  intros Hd Hm Hw Hs Hmt Hbars.
  destruct (SBDIX_line_facts m Hw) as (Hl1 & Hl2 & Hl3 & Hl4).
  destruct (CIEV_line_facts bars Hbars) as (Hc1 & Hc2).
  unfold sendMessage, session_replies. fold (write_command message).
  cbn [bind run step].
  complete_line OK (Some ALL) (f_SBDWT callback maxWait'); try side.
  cbn [call truthy]. unfold waitForNetwork, ATS. cbn [bind].
  complete_line RE_CIEV (Some ALL) (f_network callback); try side.
  cbn [call truthy]. unfold disableSignalMonitoring, ATS. cbn [bind].
  complete_line OK (Some ALL) (f_monitoring_off callback); try side.
  cbn [call]. unfold initiateSession. cbn [bind].
  collect_line OK (Some RE_SBDIX); try side.
  cbn [bind].
  complete_line OK (Some RE_SBDIX) (f_SBDIXA callback); try side.
  rewrite Hl3 in Hb.
  change ("" ++ ((SBDIX_line m ++ CR) ++ LF)) with ((SBDIX_line m ++ CR) ++ LF) in Hb.
  replace (kept (Some RE_SBDIX) ("OK" ++ CR)) with false by reflexivity.
  rewrite append_nil_r, Hb.
  destruct (SBDIXA_no_MT callback ((SBDIX_line m ++ CR) ++ LF) m s3 Hl4 Hs Hmt)
    as (s4 & -> & Hq).
  decompose [and] Hq. clear Hq. cbn [bind].
  complete_line OK (Some ALL) (f_finish callback (RStr (momsn m))); try side.
  cbn [call]. eexists. split; [apply bind_Ok|].
  unfold session_writes, writes, calls, events in *. cbn [app].
  repeat split; chase.
Qed.

(** X21.  A text send that goes through.  With the port idle in text mode,
    sendMessage followed by the replies of the modem (OK, a signal
    indication of 1 to 5 bars, OK, a well-formed +SBDIX line with MO status
    at most 4 and MT status other than 1, OK, OK) writes the write command,
    AT+CIER=1,1,0, AT+CIER=0,0,0, AT+SBDIXA and AT+SBDD0 in this order,
    calls the callback exactly once, with a null error and the MOMSN text
    of the status line, and leaves messagePending at 0.  The maxWait
    argument plays no part. *)
Theorem sendMessage_session_reports_momsn st message id maxWait' m bars :
  data st = "" -> mode (binary st) = false ->
  well_formed m = true ->
  (to_number (status m) <= 4)%Z -> (to_number (mtstatus m) <> 1)%Z ->
  In bars ["1"; "2"; "3"; "4"; "5"]%char ->
  exists st',
    bind (sendMessage (Str message) (f_app id) maxWait' st)
         (run (session_replies bars m)) = Ok st' /\
    writes st' = (session_writes (write_command message) ++ writes st)%list /\
    calls st' = (id, ENull, RStr (momsn m)) :: calls st /\
    events st' = events st /\ messagePending st' = 0%Z.
Proof.
  intros Hd Hm Hw Hs Hmt Hbars.
  destruct (session_chain st message (f_app id) maxWait' m bars Hd Hm Hw Hs Hmt Hbars)
    as (s & -> & Hwr & Hc & He & Hp & _).
  cbn [call bind]. eexists. split; [reflexivity|].
  proj. repeat split; try assumption.
  unfold calls in *. cbn [trace record calls_of]. now rewrite Hc.
Qed.

Lemma sendMessage_session_reports_momsn_witness :
  exists st',
    bind (sendMessage (Str "hello") (f_app 7) (Some 5000%Z) iridium)
         (run (session_replies "3"
                 {| status := "2"; momsn := "43"; mtstatus := "0"; mtmsn := "0";
                    mtlen := "0"; mtqueued := "0" |})) = Ok st' /\
    writes st' =
      (session_writes (write_command "hello") ++ writes iridium)%list /\
    calls st' = (7%nat, ENull, RStr "43") :: calls iridium /\
    events st' = events iridium /\ messagePending st' = 0%Z.
Proof.
  apply (sendMessage_session_reports_momsn iridium "hello" 7 (Some 5000%Z)
           {| status := "2"; momsn := "43"; mtstatus := "0"; mtmsn := "0";
              mtlen := "0"; mtqueued := "0" |} "3").
  - reflexivity.
  - reflexivity.
  - vm_compute; reflexivity.
  - vm_compute; discriminate.
  - vm_compute; discriminate.
  - vm_compute; tauto.
Defined.

(** X22.  A mailbox check that goes through ends in an exception.  mailboxCheck
    on an unlocked driver calls sendMessage with an empty message and no
    callback: AT+SBDD0, AT+CIER=1,1,0, AT+CIER=0,0,0, AT+SBDIXA and
    AT+SBDD0 are written, and on the last OK the call of the missing
    callback raises a TypeError inside the data handler.  No callback of
    the application has run. *)
Theorem mailboxCheck_session_raises st m bars :
  lock st = 0%Z ->
  data st = "" -> mode (binary st) = false ->
  well_formed m = true ->
  (to_number (status m) <= 4)%Z -> (to_number (mtstatus m) <> 1)%Z ->
  In bars ["1"; "2"; "3"; "4"; "5"]%char ->
  exists st',
    bind (mailboxCheck st) (run (session_replies bars m)) =
      Throw st' "TypeError: callback is not a function" /\
    writes st' = (session_writes "AT+SBDD0" ++ writes st)%list /\
    calls st' = calls st /\ messagePending st' = 0%Z.
Proof.
  intros Hl Hd Hm Hw Hs Hmt Hbars. unfold mailboxCheck. rewrite Hl.
  cbn [Z.eqb].
  destruct (session_chain st "" f_undefined None m bars Hd Hm Hw Hs Hmt Hbars)
    as (s & -> & Hwr & Hc & He & Hp & _).
  cbn [call bind]. eexists. split; [reflexivity|].
  repeat split; assumption.
Qed.

Lemma mailboxCheck_session_raises_witness :
  exists st',
    bind (mailboxCheck iridium)
         (run (session_replies "5"
                 {| status := "0"; momsn := "12"; mtstatus := "0"; mtmsn := "0";
                    mtlen := "0"; mtqueued := "0" |})) =
      Throw st' "TypeError: callback is not a function" /\
    writes st' = (session_writes "AT+SBDD0" ++ writes iridium)%list /\
    calls st' = calls iridium /\ messagePending st' = 0%Z.
Proof.
  apply (mailboxCheck_session_raises iridium
           {| status := "0"; momsn := "12"; mtstatus := "0"; mtmsn := "0";
              mtlen := "0"; mtqueued := "0" |} "5").
  - reflexivity.
  - reflexivity.
  - reflexivity.
  - vm_compute; reflexivity.
  - vm_compute; discriminate.
  - vm_compute; discriminate.
  - vm_compute; tauto.
Defined.

(** * Chunking, parse failures and the two counters *)

(** ** The line framer inside readSBD *)

(** No datafunction, handler or callback touches the retained fragment. *)
Lemma series_callback_data i err st :
  data (state_of (series_callback i err st)) = data st.
Proof.
  unfold series_callback, clearBuffers, enableRegistration,
    ringAlertEnable, ATS, emit.
  repeat break_match; cbn [state_of]; proj; reflexivity.
Qed.

Lemma call_data f : forall err r st,
  data (state_of (call f err r st)) = data st.
Proof.
  induction f; intros e r st; cbn [call];
    unfold finishSession, readBinaryMessage, enableBinaryMode,
      clearMOBuffers, clearMTBuffers, waitForNetwork,
      disableSignalMonitoring, initiateSession, ATS, emit, setTimeout;
    try apply series_callback_data;
    repeat break_match; rewrite ?IHf; cbn [state_of]; proj; reflexivity.
Qed.

Lemma invoke_df_data err text st :
  data (state_of (invoke_df err text st)) = data st.
Proof.
  unfold invoke_df. destruct (df st); [|reflexivity].
  rewrite call_data. proj. reflexivity.
Qed.

Lemma state_of_bind_set_buffer_data o v :
  data (state_of (bind o (fun st => Ok (set_buffer v st)))) = data (state_of o).
Proof. now destruct o. Qed.

Lemma on_data_data d st : data (state_of (on_data d st)) = data st.
Proof.
  unfold on_data. rewrite log_er.
  destruct (er st) as [er'|];
    [|rewrite invoke_df_data; proj; reflexivity].
  destruct d as [line|b]; [|cbn [state_of]; proj; reflexivity].
  destruct (first_match unsollicited line) as [h|].
  { destruct h; cbn [execute]; unfold sbdring, areg, emit;
      repeat break_match; cbn [state_of]; proj; reflexivity. }
  destruct (first_error line).
  { rewrite state_of_bind_set_buffer_data, invoke_df_data. proj. reflexivity. }
  rewrite log_kr.
  match goal with |- context [if test er' line then _ else _] =>
    destruct (test er' line) end;
    rewrite ?state_of_bind_set_buffer_data, ?invoke_df_data;
    destruct (kr st); try break_match; cbn [state_of]; proj; reflexivity.
Qed.

Lemma emit_data_data parts : forall st,
  data (state_of (emit_data parts st)) = data st.
Proof.
  induction parts as [|part parts IH]; intros st; [reflexivity|].
  cbn [emit_data]. pose proof (on_data_data (Str part) st) as Hd.
  destruct (on_data (Str part) st) as [s|s x|s]; cbn [bind state_of] in *;
    [rewrite IH|..]; exact Hd.
Qed.

(** readSBD in text mode is the framer: it emits the lines of
    [frame_text] to the data handler and retains its fragment. *)
Lemma readSBD_text chunk st :
  mode (binary st) = false ->
  readSBD chunk st =
    emit_data (fst (frame_text (data st) chunk))
              (set_data (snd (frame_text (data st) chunk))
                        (set_serialEmitter true st)) /\
  data (state_of (readSBD chunk st)) = snd (frame_text (data st) chunk).
Proof.
  intros Hm. unfold readSBD. cbn [binary set_serialEmitter data]. rewrite Hm.
  destruct (frame_text (data st) chunk) as [parts rest]. cbn [fst snd].
  split; [reflexivity|]. now rewrite emit_data_data.
Qed.

Lemma readSBD_lines_one (d chunk : string) :
  readSBD_lines d [chunk] = frame_text d chunk.
Proof.
  cbn [readSBD_lines]. destruct (frame_text d chunk) as [parts rest].
  now rewrite app_nil_r.
Qed.

(** The body of a response through the driver, chunk by chunk. *)
Lemma run_body_chunks (chunks : list string) : forall st e,
  mode (binary st) = false ->
  no_lf (data st) = true ->
  er st = Some e ->
  forallb (body_line e) (fst (frame_text (data st) (stream chunks))) = true ->
  exists st',
    run (map SerialData chunks) st = Ok st' /\
    data st' = snd (frame_text (data st) (stream chunks)) /\
    buffer st' =
      buffer st ++
      unlines (List.filter (kept (kr st))
                           (fst (frame_text (data st) (stream chunks)))) /\
    binary st' = binary st /\ df st' = df st /\ er st' = er st /\
    kr st' = kr st /\
    writes st' = writes st /\ calls st' = calls st /\ events st' = events st /\
    completions st' = completions st.
Proof.
  induction chunks as [|c cs IH]; intros st e Hm Hd He Hall.
  - exists st. cbn [map run stream] in *.
    unfold frame_text. rewrite append_nil_r, (split_lf_no_lf _ Hd).
    cbn. rewrite append_nil_r. repeat split; reflexivity.
  - cbn [map run step stream] in *. rewrite frame_text_app in *.
    cbn [fst snd] in *. rewrite forallb_app in Hall.
    apply andb_prop in Hall as [H1 H2].
    destruct (readSBD_text c st Hm) as [-> _].
    destruct (emit_data_body (fst (frame_text (data st) c))
                (set_data (snd (frame_text (data st) c))
                          (set_serialEmitter true st)) e He H1)
      as (st1 & -> & Hb1 & Hs1).
    cbn [bind]. unfold only_body_differs in Hs1.
    cbn [data buffer kr set_data set_serialEmitter] in Hs1, Hb1.
    decompose [and] Hs1. clear Hs1.
    match goal with H : data st1 = _ |- _ => rename H into Hd1 end.
    destruct (IH st1 e) as (st' & Hr & Hd' & Hb' & Hbin & Hdf & Her & Hkr & Hw & Hc & Hev & Hco).
    + cbn in *. congruence.
    + rewrite Hd1. unfold frame_text. cbn [snd]. apply last_split_no_lf.
    + cbn in *. congruence.
    + now rewrite Hd1.
    + exists st'. split; [exact Hr|].
      rewrite Hd1 in *.
      assert (Hk : kr st1 = kr st) by (cbn in *; congruence).
      rewrite Hk in *.
      split; [exact Hd'|]. split.
      { rewrite Hb', Hb1, List.filter_app, unlines_app.
        now rewrite append_assoc. }
      unfold writes, calls, events, completions, sends in *. cbn in *.
      repeat split; congruence.
Qed.

(** C6.  In text mode readSBD is a framer of the byte stream, not of the
    chunks.  Over any run of chunks, starting from any retained fragment,
    the lines it emits and the fragment it retains are those of the whole
    stream taken at once, so two ways of cutting one stream into chunks
    give the same lines in the same order.  The lines, each followed by the
    LF that ended it, and then the fragment, are exactly the old fragment
    followed by the stream: lines are cut at LF and nowhere else, nothing is
    dropped or added, CR stays where it is, and the fragment is what follows
    the last LF.  One chunk through readSBD hands those lines to the data
    handler and stores that fragment, whatever the handler does; and when
    the lines are the body of a response, the driver ends with the same
    body buffer and fragment for both cuts. *)
Theorem readSBD_chunking (chunks1 chunks2 : list string) (st : state) :
  mode (binary st) = false ->
  no_lf (data st) = true ->
  stream chunks1 = stream chunks2 ->
  readSBD_lines (data st) chunks1 = readSBD_lines (data st) chunks2 /\
  readSBD_lines (data st) chunks1 = frame_text (data st) (stream chunks1) /\
  unlines (fst (readSBD_lines (data st) chunks1)) ++
    snd (readSBD_lines (data st) chunks1) = data st ++ stream chunks1 /\
  all_no_lf (fst (readSBD_lines (data st) chunks1)) = true /\
  no_lf (snd (readSBD_lines (data st) chunks1)) = true /\
  (forall chunk,
     readSBD chunk st =
       emit_data (fst (readSBD_lines (data st) [chunk]))
                 (set_data (snd (readSBD_lines (data st) [chunk]))
                           (set_serialEmitter true st)) /\
     data (state_of (readSBD chunk st)) =
       snd (readSBD_lines (data st) [chunk])) /\
  (forall e,
     er st = Some e ->
     forallb (body_line e) (fst (readSBD_lines (data st) chunks1)) = true ->
     exists st1 st2,
       run (map SerialData chunks1) st = Ok st1 /\
       run (map SerialData chunks2) st = Ok st2 /\
       data st1 = snd (readSBD_lines (data st) chunks1) /\
       buffer st1 =
         buffer st ++
         unlines (List.filter (kept (kr st))
                              (fst (readSBD_lines (data st) chunks1))) /\
       data st2 = data st1 /\ buffer st2 = buffer st1 /\
       writes st1 = writes st /\ writes st2 = writes st /\
       calls st1 = calls st /\ calls st2 = calls st /\
       events st1 = events st /\ events st2 = events st).
Proof.
  intros Hm Hd Hs.
  rewrite !readSBD_lines_stream by exact Hd. rewrite <- Hs.
  split; [reflexivity|]. split; [reflexivity|].
  unfold frame_text at 1 2 3 4. cbn [fst snd].
  destruct (split_lf_lossless (data st ++ stream chunks1)) as [Hl1 Hl2].
  split; [exact Hl1|]. split; [exact Hl2|].
  split; [apply last_split_no_lf|].
  split.
  - intros chunk. rewrite readSBD_lines_one. now apply readSBD_text.
  - intros e He Hall.
    destruct (run_body_chunks chunks1 st e Hm Hd He Hall)
      as (st1 & Hr1 & Hd1 & Hb1 & _ & _ & _ & _ & Hw1 & Hc1 & He1 & _).
    rewrite Hs in Hall.
    destruct (run_body_chunks chunks2 st e Hm Hd He Hall)
      as (st2 & Hr2 & Hd2 & Hb2 & _ & _ & _ & _ & Hw2 & Hc2 & He2 & _).
    rewrite <- Hs in Hd2, Hb2.
    exists st1, st2. repeat split; congruence.
Qed.

Lemma readSBD_chunking_witness :
  readSBD_lines (data in_session) ["+SBDIX: 0, 1"; ", 0, 0, 0, 0" ++ CR ++ LF ++ "O"] =
    (["+SBDIX: 0, 1, 0, 0, 0, 0" ++ CR], "O") /\
  exists st1 st2,
    run (map SerialData ["+SBDIX: 0, 1"; ", 0, 0, 0, 0" ++ CR ++ LF ++ "O"])
        in_session = Ok st1 /\
    run (map SerialData ["+SBDIX: 0, 1, 0, 0, 0, 0" ++ CR ++ LF ++ "O"])
        in_session = Ok st2 /\
    data st1 = "O" /\
    buffer st1 = buffer in_session ++ "+SBDIX: 0, 1, 0, 0, 0, 0" ++ CR ++ LF /\
    data st2 = data st1 /\ buffer st2 = buffer st1.
Proof.
  destruct (readSBD_chunking
              ["+SBDIX: 0, 1"; ", 0, 0, 0, 0" ++ CR ++ LF ++ "O"]
              ["+SBDIX: 0, 1, 0, 0, 0, 0" ++ CR ++ LF ++ "O"] in_session)
    as (_ & H2 & _ & _ & _ & _ & H7).
  - vm_compute. reflexivity.
  - vm_compute. reflexivity.
  - vm_compute. reflexivity.
  - split; [rewrite H2; vm_compute; reflexivity|].
    destruct (H7 OK) as (st1 & st2 & Hr1 & Hr2 & Hd1 & Hb1 & Hd2 & Hb2 & _).
    + vm_compute. reflexivity.
    + vm_compute. reflexivity.
    + exists st1, st2. repeat split; assumption.
Defined.

(** ** The three queries *)

Lemma search_inv {A} (m : string -> option A) (s : string) (r : A) :
  search m s = Some r -> exists pre suf, s = pre ++ suf /\ m suf = Some r.
Proof.
  induction s as [|c s IH]; cbn [search]; intros H.
  - destruct (m "") eqn:E; [|discriminate]. injection H as <-.
    now exists "", "".
  - destruct (m (String c s)) eqn:E.
    + injection H as <-. now exists "", (String c s).
    + destruct (IH H) as (pre & suf & -> & Hm).
      now exists (String c pre), suf.
Qed.

Lemma search_app {A} (m : string -> option A) (pre suf : string) (r : A) :
  m suf = Some r -> exists r', search m (pre ++ suf) = Some r'.
Proof.
  intros H. induction pre as [|c pre IH]; cbn [append].
  - exists r. now apply search_here.
  - cbn [search]. destruct (m (String c (pre ++ suf))); [eauto|exact IH].
Qed.

(** A weaker pattern is found wherever a stronger one is. *)
Lemma search_weaken {A B} (m1 : string -> option A) (m2 : string -> option B) s :
  (forall s', m1 s' <> None -> m2 s' <> None) ->
  search m1 s <> None -> search m2 s <> None.
Proof.
  intros Hw. induction s as [|c s IH]; cbn [search]; intros H.
  - destruct (m1 "") eqn:E1; [|congruence].
    destruct (m2 "") eqn:E2; [discriminate|].
    exfalso. apply (Hw ""); congruence.
  - destruct (m2 (String c s)) eqn:E2; [discriminate|].
    destruct (m1 (String c s)) eqn:E1.
    + exfalso. apply (Hw (String c s)); congruence.
    + auto.
Qed.

Lemma strip_prefix_inv (p s r : string) :
  strip_prefix p s = Some r -> s = p ++ r.
Proof.
  revert s. induction p as [|a p IH]; intros s H; cbn [strip_prefix] in H.
  - now injection H as <-.
  - destruct s as [|b s]; [discriminate|].
    destruct (Ascii.eqb a b) eqn:E; [|discriminate].
    apply Ascii.eqb_eq in E. subst b. cbn [append]. now rewrite (IH s H).
Qed.

Lemma span_digits_inv (s a b : string) :
  span is_digit s = (a, b) -> s = a ++ b /\ digits_only a = true.
Proof.
  revert a b. induction s as [|c s IH]; intros a b H; cbn [span] in H.
  - injection H as <- <-. now split.
  - destruct (is_digit c) eqn:Ec.
    + destruct (span is_digit s) as [a' b'] eqn:E. injection H as <- <-.
      destruct (IH a' b' eq_refl) as [-> Hd].
      cbn [append digits_only]. now rewrite Ec, Hd.
    + injection H as <- <-. now split.
Qed.

Lemma digits1_inv (s d r : string) :
  digits1 s = Some (d, r) -> s = d ++ r /\ number_text d = true.
Proof.
  unfold digits1. intros H.
  destruct (span is_digit s) as [a b] eqn:E.
  destruct (span_digits_inv s a b E) as [-> Hd].
  destruct a as [|c a]; [discriminate|]. injection H as <- <-.
  split; [reflexivity|]. unfold number_text. now rewrite Hd.
Qed.

(** A number at the front is read, whatever follows. *)
Lemma digits1_front (d post : string) :
  number_text d = true -> exists d' r, digits1 (d ++ post) = Some (d', r).
Proof.
  unfold number_text. intros H. apply andb_prop in H as [Hn Hd].
  destruct d as [|c d]; [discriminate|].
  cbn [digits_only] in Hd. apply andb_prop in Hd as [Hc _].
  unfold digits1. cbn [append span]. rewrite Hc.
  destruct (span is_digit (d ++ post)) as [a b]. eauto.
Qed.

(** The pattern of getSystemTime finds exactly the responses that hold a
    clock. *)
Lemma match_CCLK_clock (text : string) :
  match_CCLK text <> None <-> clock_text text.
Proof.
  unfold match_CCLK, clock_text. split.
  - intros H. destruct (search cclk_here text) as [ds|] eqn:E; [|congruence].
    destruct (search_inv _ _ _ E) as (pre & suf & -> & Hm).
    unfold cclk_here in Hm.
    destruct (strip_prefix "CCLK:" suf) as [r0|] eqn:E0; [|discriminate].
    apply strip_prefix_inv in E0. subst suf.
    cbn [digit_fields] in Hm.
    repeat match type of Hm with
           | context [digits1 ?s] =>
               let d := fresh "d" in
               let r := fresh "r" in
               let Ed := fresh "Ed" in
               let Hn := fresh "Hn" in
               destruct (digits1 s) as [[d r]|] eqn:Ed; cbn beta iota in Hm;
               [|discriminate];
               apply digits1_inv in Ed; destruct Ed as [-> Hn]
           | context [strip_prefix ?p ?s] =>
               let r := fresh "r" in
               let Es := fresh "Es" in
               destruct (strip_prefix p s) as [r|] eqn:Es; cbn beta iota in Hm;
               [|discriminate];
               apply strip_prefix_inv in Es; subst
           end.
    exists pre. do 7 eexists. split; [reflexivity|]. repeat split; assumption.
  - intros (pre & d1 & d2 & d3 & d4 & d5 & d6 & post & -> & H1 & H2 & H3 & H4 & H5 & H6).
    destruct (digits1_front d6 post H6) as (d' & r' & E6).
    assert (Hm : cclk_here ("CCLK:" ++ d1 ++ "/" ++ d2 ++ "/" ++ d3 ++ "," ++
                            d4 ++ ":" ++ d5 ++ ":" ++ d6 ++ post)
                 = Some [d1; d2; d3; d4; d5; d']).
    { unfold cclk_here. rewrite strip_prefix_app. cbn [digit_fields].
      repeat (rewrite digits1_number by (try assumption; reflexivity);
              rewrite ?strip_prefix_app).
      now rewrite E6. }
    destruct (search_app cclk_here pre _ _ Hm) as (r & ->). discriminate.
Qed.

(** The patterns of the other two queries find a response exactly when it
    holds their tag: the group after it may be anything, or empty. *)
Lemma tagged_found (tag text : string) :
  search (tagged_here tag) text <> None <-> contains tag text = true.
Proof.
  unfold contains. split.
  - intros H.
    destruct (search (strip_prefix tag) text) eqn:E; [reflexivity|].
    exfalso. revert E. apply (search_weaken (tagged_here tag)); [|exact H].
    intros s Hs. unfold tagged_here in Hs.
    destruct (strip_prefix tag s); congruence.
  - intros H. apply (search_weaken (strip_prefix tag)).
    + intros s Hs. unfold tagged_here.
      destruct (strip_prefix tag s) as [rest|]; [|congruence].
      now destruct (span is_space rest).
    + destruct (search (strip_prefix tag) text); congruence.
Qed.

Lemma found_search (m : string -> bool) (s : string) :
  found m s = true ->
  search (fun s' => if m s' then Some tt else None) s <> None.
Proof. unfold found. now destruct (search _ s). Qed.

Lemma two_digits_inv (s r : string) :
  two_digits s = Some r ->
  exists d, s = d ++ r /\ number_text d = true.
Proof.
  destruct s as [|a [|b s]]; cbn [two_digits]; try discriminate.
  destruct (is_digit a) eqn:Ea; [|discriminate].
  destruct (is_digit b) eqn:Eb; [|discriminate].
  cbn [andb]. intros H. injection H as <-.
  exists (String a (String b "")). split; [reflexivity|].
  unfold number_text. cbn. now rewrite Ea, Eb.
Qed.

(** A response of the shape the specification gives holds what the
    pattern of the code looks for. *)
Lemma expected_shape_answers (q : query) (text : string) :
  expected_shape q text = true -> answers q text.
Proof.
  destruct q; cbn [expected_shape answers]; intros H; apply found_search in H.
  - apply tagged_found with (tag := "CSQ:"). revert H. apply search_weaken.
    intros s Hs. unfold csq_shape_here, after_tag, tagged_here in *.
    destruct (strip_prefix "CSQ:" s) as [rest|]; [|congruence].
    now destruct (span is_space rest).
  - destruct (search _ text) as [[]|] eqn:E; [|congruence].
    destruct (search_inv _ _ _ E) as (pre & suf & -> & Hm).
    unfold cclk_shape_here in Hm.
    destruct (strip_prefix "CCLK:" suf) as [r0|] eqn:E0; [|discriminate].
    apply strip_prefix_inv in E0. subst suf.
    cbn [two_digit_fields] in Hm.
    repeat match type of Hm with
           | context [two_digits ?s] =>
               let r := fresh "r" in
               let Ed := fresh "Ed" in
               let d := fresh "d" in
               let Hn := fresh "Hn" in
               destruct (two_digits s) as [r|] eqn:Ed; cbn beta iota in Hm;
               [|discriminate];
               apply two_digits_inv in Ed; destruct Ed as (d & -> & Hn)
           | context [strip_prefix ?p ?s] =>
               let r := fresh "r" in
               let Es := fresh "Es" in
               destruct (strip_prefix p s) as [r|] eqn:Es; cbn beta iota in Hm;
               [|discriminate];
               apply strip_prefix_inv in Es; subst
           end.
    exists pre. do 7 eexists. split; [reflexivity|]. repeat split; assumption.
  - apply tagged_found with (tag := "-MSSTM:"). revert H. apply search_weaken.
    intros s Hs. unfold msstm_shape_here, after_tag, tagged_here in *.
    destruct (strip_prefix "-MSSTM:" s) as [rest|]; [|congruence].
    now destruct (span is_space rest).
Qed.

(** C9 as stated fails twice.  A response that does not have the shape
    the specification gives may still be taken as an answer: +CSQ:abc and
    -MSSTM: no network service are reported with a null error.  And on a
    response that answers neither, getSystemTime and getNetworkTime report
    the same error. *)
Lemma malformed_answers_pass_and_time_errors_coincide :
  expected_shape SignalQuality ("+CSQ:abc" ++ CR ++ LF) = false /\
  reported_error SignalQuality ("+CSQ:abc" ++ CR ++ LF) = Some ENull /\
  expected_shape NetworkTime ("-MSSTM: no network service" ++ CR ++ LF) = false /\
  reported_error NetworkTime ("-MSSTM: no network service" ++ CR ++ LF) = Some ENull /\
  SystemTime <> NetworkTime /\
  expected_shape SystemTime ok_line = false /\
  expected_shape NetworkTime ok_line = false /\
  reported_error SystemTime ok_line = Some (EStr "UNKNOWN_TIME") /\
  ~ distinct_parse_errors SystemTime NetworkTime ok_line ok_line.
Proof.
  do 4 (split; [vm_compute; reflexivity|]).
  split; [discriminate|].
  do 3 (split; [vm_compute; reflexivity|]).
  intros H. apply H. vm_compute; reflexivity.
Qed.

(** C9, amended.  A query reports its parse failure exactly when its
    response does not hold what its pattern looks for: CSQ: for the signal
    quality, -MSSTM: for the network time, and for the system time CCLK:
    followed by six numbers separated by / / , : and :.  The signal quality
    calls back with UNKNOWN_SIGNAL_QUALITY, which differs from the
    UNKNOWN_TIME that both time queries call back with.  Whenever the
    response holds it, and so whenever it has the shape the specification
    gives, the callback gets a null error and a value. *)
Theorem query_parse_failure q text callback err st :
  truthy err = false ->
  (~ answers q text ->
   call (query_fn q callback) err (RStr text) st =
     call callback (EStr (parse_failure_kind q)) RUndefined st) /\
  (answers q text ->
   exists value,
     call (query_fn q callback) err (RStr text) st =
       call callback ENull value st) /\
  (expected_shape q text = true -> answers q text) /\
  parse_failure_kind SignalQuality <> parse_failure_kind SystemTime /\
  parse_failure_kind SignalQuality <> parse_failure_kind NetworkTime /\
  parse_failure_kind SystemTime = parse_failure_kind NetworkTime.
Proof.
  intros Herr.
  split; [|split; [|split; [apply expected_shape_answers|
                            repeat split; discriminate]]].
  - intros Hn.
    destruct q; cbn [query_fn call answers parse_failure_kind] in *;
      rewrite Herr.
    + destruct (match_CSQ text) eqn:E; [|reflexivity].
      exfalso. apply Hn. apply tagged_found. unfold match_CSQ in E. congruence.
    + destruct (match_CCLK text) eqn:E; [|reflexivity].
      exfalso. apply Hn. apply match_CCLK_clock. congruence.
    + destruct (match_MSSTM text) eqn:E; [|reflexivity].
      exfalso. apply Hn. apply tagged_found. unfold match_MSSTM in E. congruence.
  - intros Ha.
    destruct q; cbn [query_fn call answers] in *; rewrite Herr.
    + apply tagged_found in Ha. fold (match_CSQ text) in Ha.
      destruct (match_CSQ text); [eauto|congruence].
    + apply match_CCLK_clock in Ha.
      destruct (match_CCLK text); [eauto|congruence].
    + apply tagged_found in Ha. fold (match_MSSTM text) in Ha.
      destruct (match_MSSTM text); [eauto|congruence].
Qed.

Lemma query_parse_failure_witness :
  call (query_fn SignalQuality (f_app 9)) ENull (RStr ok_line) ready =
    call (f_app 9) (EStr (parse_failure_kind SignalQuality)) RUndefined ready /\
  (exists value,
     call (query_fn NetworkTime (f_app 9)) ENull
          (RStr ("-MSSTM: a1b2c3d4" ++ CR ++ LF)) ready =
       call (f_app 9) ENull value ready) /\
  answers SystemTime ("+CCLK:24/03/09,11:22:33" ++ CR ++ LF).
Proof.
  split; [|split].
  - apply (query_parse_failure SignalQuality ok_line (f_app 9) ENull ready);
      [reflexivity|].
    cbn [answers]. vm_compute. discriminate.
  - apply (query_parse_failure NetworkTime ("-MSSTM: a1b2c3d4" ++ CR ++ LF)
             (f_app 9) ENull ready); [reflexivity|].
    cbn [answers]. vm_compute. reflexivity.
  - apply (query_parse_failure SystemTime ("+CCLK:24/03/09,11:22:33" ++ CR ++ LF)
             (f_app 9) ENull ready); [reflexivity|].
    vm_compute. reflexivity.
Defined.

(** ** The pending counter of mailboxCheck *)

(** Integers of at most 53 bits are doubles. *)
Lemma round_double_exact (z : Z) :
  (Z.abs z < 2 ^ 53)%Z -> round_double z = z.
Proof.
  intros H. unfold round_double.
  assert (E : Z.max 0 (Z.log2 (Z.abs z) - 52) = 0%Z).
  { destruct (Z.eq_dec (Z.abs z) 0%Z) as [->|Hn]; [reflexivity|].
    assert (Z.log2 (Z.abs z) < 53)%Z by (apply Z.log2_lt_pow2; lia).
    lia. }
  rewrite E. change (2 ^ 0)%Z with 1%Z.
  rewrite Z.div_1_r, Z.mod_1_r.
  change (2 * 0 <? 1)%Z with true. cbv iota.
  rewrite Z.mul_1_r. rewrite Z.mul_comm. apply Z.abs_sgn.
Qed.

(** Below 2^53 the increment is the successor. *)
Lemma increment_exact (z : Z) :
  (- 2 ^ 53 < z < 2 ^ 53)%Z -> increment z = Some (z + 1)%Z.
Proof.
  intros H. unfold increment.
  assert (E : ((- 2 ^ 53 <? z) && (z <? 2 ^ 64))%Z = true).
  { apply andb_true_intro. split; apply Z.ltb_lt; lia. }
  rewrite E, (round_double_exact z) by lia.
  destruct (Z.eq_dec (z + 1)%Z (2 ^ 53)%Z) as [->|Hn]; [reflexivity|].
  rewrite round_double_exact by lia. reflexivity.
Qed.

(** C10 as stated fails once pending has reached 2^53, where a double no
    longer has a successor one above it: with the lock set and pending at
    2^53, or holding the text 9007199254740993 of a status line,
    mailboxCheck leaves the counter at 9007199254740992. *)
Lemma pending_increment_is_absorbed :
  lock (set_lock 1 (set_pending (2 ^ 53) ready)) <> 0%Z /\
  mailboxCheck (set_lock 1 (set_pending (2 ^ 53) ready)) =
    Ok (set_lock 1 (set_pending (2 ^ 53) ready)) /\
  pending (state_of (mailboxCheck (set_lock 1 (set_pending (2 ^ 53) ready)))) <>
    (pending (set_lock 1 (set_pending (2 ^ 53) ready)) + 1)%Z /\
  pending (state_of (mailboxCheck
             (set_lock 1 (set_pending (to_number "9007199254740993") ready)))) =
    9007199254740992%Z.
Proof.
  split; [vm_compute; discriminate|].
  split; [vm_compute; reflexivity|].
  split; [vm_compute; discriminate|].
  vm_compute; reflexivity.
Qed.

(** C10, amended.  With the lock set, mailboxCheck touches nothing but
    pending: the trace (so the port), the slot, the timers and every other
    field are as before, whatever pending holds; and while pending is below
    2^53 it becomes pending + 1.  With the lock clear mailboxCheck is
    sendMessage("") with no callback. *)
Theorem mailboxCheck_locked_only_counts st :
  (lock st <> 0%Z ->
   trace (state_of (mailboxCheck st)) = trace st /\
   df (state_of (mailboxCheck st)) = df st /\
   er (state_of (mailboxCheck st)) = er st /\
   kr (state_of (mailboxCheck st)) = kr st /\
   tf (state_of (mailboxCheck st)) = tf st /\
   timers (state_of (mailboxCheck st)) = timers st /\
   next_timer (state_of (mailboxCheck st)) = next_timer st /\
   buffer (state_of (mailboxCheck st)) = buffer st /\
   data (state_of (mailboxCheck st)) = data st /\
   binary (state_of (mailboxCheck st)) = binary st /\
   messagePending (state_of (mailboxCheck st)) = messagePending st /\
   lock (state_of (mailboxCheck st)) = lock st /\
   c_attempt (state_of (mailboxCheck st)) = c_attempt st /\
   globals (state_of (mailboxCheck st)) = globals st) /\
  (lock st <> 0%Z -> (- 2 ^ 53 < pending st < 2 ^ 53)%Z ->
   mailboxCheck st = Ok (set_pending (pending st + 1) st) /\
   pending (state_of (mailboxCheck st)) = (pending st + 1)%Z) /\
  (lock st = 0%Z ->
   mailboxCheck st = sendMessage (Str "") f_undefined None st).
Proof.
  unfold mailboxCheck. split; [|split].
  - intros H. destruct (lock st =? 0)%Z eqn:E; [lia|].
    destruct (increment (pending st)); cbn [state_of];
      repeat split; reflexivity.
  - intros H Hp. destruct (lock st =? 0)%Z eqn:E; [lia|].
    rewrite (increment_exact _ Hp). split; reflexivity.
  - intros H. now rewrite H.
Qed.

Lemma mailboxCheck_locked_only_counts_witness :
  (mailboxCheck (set_lock 1 ready) =
     Ok (set_pending (pending (set_lock 1 ready) + 1) (set_lock 1 ready)) /\
   pending (state_of (mailboxCheck (set_lock 1 ready))) =
     (pending (set_lock 1 ready) + 1)%Z) /\
  trace (state_of (mailboxCheck (set_lock 1 ready))) = trace (set_lock 1 ready) /\
  mailboxCheck ready = sendMessage (Str "") f_undefined None ready.
Proof.
  split; [|split].
  - apply (mailboxCheck_locked_only_counts (set_lock 1 ready)).
    + vm_compute. discriminate.
    + vm_compute. split; reflexivity.
  - apply (mailboxCheck_locked_only_counts (set_lock 1 ready)).
    vm_compute. discriminate.
  - apply (mailboxCheck_locked_only_counts ready). vm_compute. reflexivity.
Defined.

(** ** Sessions never outnumber the attempts and checks that start them *)

Lemma filter_timers_settled (p : nat * (Z * task) -> bool) l :
  forallb timer_settled l = true ->
  forallb timer_settled (List.filter p l) = true.
Proof.
  induction l as [|t l IH]; [reflexivity|].
  cbn [forallb List.filter]. intros H. apply andb_prop in H as [Ht Hl].
  destruct (p t); cbn [forallb]; rewrite ?Ht; auto.
Qed.

Lemma clearTimeout_timers_settled id st :
  forallb timer_settled (timers st) = true ->
  forallb timer_settled (timers (clearTimeout id st)) = true.
Proof. intros H. unfold clearTimeout. cbn. now apply filter_timers_settled. Qed.

Lemma cancel_tf_timers_settled st :
  forallb timer_settled (timers st) = true ->
  forallb timer_settled (timers (cancel_tf st)) = true.
Proof.
  intros H. unfold cancel_tf. destruct (tf st); [|exact H].
  now apply clearTimeout_timers_settled.
Qed.

Lemma AT_timers_settled command e k f timeout st :
  forallb timer_settled (timers st) = true ->
  forallb timer_settled (timers (AT command e k f timeout st)) = true.
Proof.
  intros H. rewrite AT_timers.
  destruct (0 <? effective_timeout timeout st)%Z; cbn [forallb timer_settled snd];
    now apply cancel_tf_timers_settled.
Qed.

(** The timers of a state built from an orderly one. *)
Ltac settle :=
  repeat first
    [ assumption
    | reflexivity
    | apply AT_timers_settled
    | apply cancel_tf_timers_settled
    | apply clearTimeout_timers_settled
    | progress (autorewrite with proj)
    | progress cbn
    | match goal with
      | H : ?b = true |- context [?b] => rewrite H
      end ].

Lemma settled_not_on_the_way f : settled f = true -> on_the_way f = false.
Proof. destruct f; cbn; congruence. Qed.

(** [calm st0 X] for a state [X] built from [st] with [calm st0 st]. *)
Ltac calm_tac :=
  cbn [state_of];
  match goal with
  | H : calm _ _ |- calm _ _ =>
      let Ho := fresh "Ho" in
      let Ha := fresh "Ha" in
      let Hn := fresh "Hn" in
      let Hslot := fresh "Hslot" in
      let Htim := fresh "Htim" in
      destruct H as (Ho & Ha & Hn);
      unfold orderly in Ho; apply andb_prop in Ho as [Hslot Htim];
      unfold calm, orderly, sessions, sessions_ahead in *;
      split; [apply andb_true_intro; split; [proj; settle | settle]|];
      split; [proj; try assumption; try lia|];
      proj;
      repeat match goal with
             | H : ?b = true |- context [?b] => rewrite H
             | H : settled ?f = true |- context [on_the_way ?f] =>
                 rewrite (settled_not_on_the_way f H)
             end;
      cbn; try lia
  end.

Lemma series_callback_calm i err st0 st :
  calm st0 st -> calm st0 (state_of (series_callback i err st)).
Proof.
  intros H. unfold series_callback, clearBuffers, enableRegistration,
    ringAlertEnable, ATS, emit.
  repeat break_match; calm_tac.
Qed.

(** A settled closure starts no session and makes no attempt, and what
    it leaves in the slot and in the timers is settled again. *)
Lemma call_calm f : forall err r st0 st,
  settled f = true -> calm st0 st -> calm st0 (state_of (call f err r st)).
Proof.
  induction f; intros e r st0 st Hs H; cbn [settled] in Hs; try discriminate;
    cbn [call];
    unfold finishSession, readBinaryMessage, enableBinaryMode,
      clearMOBuffers, clearMTBuffers, waitForNetwork,
      disableSignalMonitoring, initiateSession, ATS, emit, setTimeout;
    try (apply series_callback_calm; assumption);
    repeat break_match;
    try (apply IHf; [assumption|]);
    calm_tac.
Qed.

Lemma calm_refl st : orderly st = true -> calm st st.
Proof. intros H. repeat split; [exact H|lia]. Qed.

(** A stage of a send moves to the next stage, gives up, or starts the
    one session the send had ahead. *)
Lemma stage_calm f err r st0 st :
  on_the_way f = true -> df st = Some f ->
  calm st0 st -> calm st0 (state_of (call f err r st)).
Proof.
  intros Hs Hdf H.
  assert (Hahead : sessions_ahead st = 1)
    by (unfold sessions_ahead; now rewrite Hdf, Hs).
  destruct H as (Ho & Ha & Hn). rewrite Hahead in Hn.
  unfold orderly in Ho. apply andb_prop in Ho as [Hslot Htim].
  destruct f; cbn [on_the_way] in Hs; try discriminate; cbn [call];
    unfold clearMOBuffers, waitForNetwork, disableSignalMonitoring,
      initiateSession, ATS;
    repeat break_match; cbn [state_of];
    unfold calm, orderly, sessions, sessions_ahead in *;
    (split; [apply andb_true_intro; split; [proj; settle | settle]|]);
    (split; [proj; try assumption; try lia|]);
    proj; rewrite ?Hs; cbn; lia.
Qed.

Lemma invoke_df_calm err text st0 st :
  calm st0 st -> calm st0 (state_of (invoke_df err text st)).
Proof.
  intros H. unfold invoke_df. destruct (df st) as [f|] eqn:E; [|exact H].
  assert (Ht : settled f || on_the_way f = true).
  { destruct H as (Ho & _). unfold orderly in Ho. rewrite E in Ho.
    now apply andb_prop in Ho as [Ho _]. }
  assert (H' : calm st0 (record (Completed err text) (cancel_tf st)))
    by calm_tac.
  destruct (settled f) eqn:Es.
  - now apply call_calm.
  - cbn [orb] in Ht. apply stage_calm; [exact Ht| |exact H'].
    cbn [df record]. now rewrite cancel_tf_df.
Qed.

Lemma state_of_bind_set_buffer_calm o v st0 :
  calm st0 (state_of o) ->
  calm st0 (state_of (bind o (fun st => Ok (set_buffer v st)))).
Proof. destruct o; cbn; auto. Qed.

Lemma on_data_calm d st0 st :
  calm st0 st -> calm st0 (state_of (on_data d st)).
Proof.
  intros H. unfold on_data.
  assert (H' : calm st0 (log [PStr "< "; PData d] st)) by calm_tac.
  rewrite log_er. destruct (er st) as [er'|]; [|now apply invoke_df_calm].
  destruct d as [line|b]; [|exact H'].
  destruct (first_match unsollicited line) as [h|].
  { destruct h; cbn [execute]; unfold sbdring, areg, emit;
      repeat break_match; calm_tac. }
  destruct (first_error line).
  { apply state_of_bind_set_buffer_calm. now apply invoke_df_calm. }
  rewrite log_kr.
  match goal with |- context [if test er' line then _ else _] =>
    destruct (test er' line) end.
  - apply state_of_bind_set_buffer_calm. apply invoke_df_calm.
    destruct (kr st); [break_match|]; calm_tac.
  - destruct (kr st); [break_match|]; calm_tac.
Qed.

Lemma emit_data_calm parts : forall st0 st,
  calm st0 st -> calm st0 (state_of (emit_data parts st)).
Proof.
  induction parts as [|part parts IH]; intros st0 st H; [exact H|].
  cbn [emit_data].
  pose proof (on_data_calm (Str part) st0 st H) as Hd.
  destruct (on_data (Str part) st); cbn [bind state_of] in *; auto.
Qed.

Lemma readSBD_calm chunk st0 st :
  calm st0 st -> calm st0 (state_of (readSBD chunk st)).
Proof.
  intros H. unfold readSBD. cbn [binary set_serialEmitter].
  destruct (mode (binary st)); [calm_tac|].
  destruct (frame_text _ _) as [parts rest].
  apply emit_data_calm. calm_tac.
Qed.

Lemma flush_calm st0 st : calm st0 st -> calm st0 (state_of (flush st)).
Proof.
  intros H. unfold flush. destruct (serialEmitter st); [|exact H].
  match goal with |- context [on_data ?d st] =>
    pose proof (on_data_calm d st0 st H) as Hd;
    destruct (on_data d st) end; cbn [bind state_of] in *;
    try exact Hd; calm_tac.
Qed.

Lemma sessions_ahead_le st : sessions_ahead st <= 1.
Proof. unfold sessions_ahead. repeat break_match; lia. Qed.

Lemma calm_paced st0 st : calm st0 st -> paced 0 st0 st.
Proof. intros (Ho & Ha & Hn). repeat split; [exact Ho|lia|lia]. Qed.

Lemma paced_trans j k st0 st1 st2 :
  paced j st0 st1 -> paced k st1 st2 -> paced (j + k) st0 st2.
Proof.
  intros (_ & Ha1 & Hn1) (Ho & Ha2 & Hn2). repeat split; [exact Ho|lia|lia].
Qed.

Lemma paced_more j k st0 st : j <= k -> paced j st0 st -> paced k st0 st.
Proof. intros Hjk (Ho & Ha & Hn). repeat split; [exact Ho|lia|lia]. Qed.

(** A state built from an orderly one by a command that puts a send on
    its way: one session ahead, none started. *)
Ltac on_its_way :=
  cbn [state_of];
  match goal with
  | Ho : orderly _ = true |- _ =>
      let Hslot := fresh "Hslot" in
      let Htim := fresh "Htim" in
      unfold orderly in Ho; apply andb_prop in Ho as [Hslot Htim];
      unfold orderly, sessions, sessions_ahead in *;
      split; [apply andb_true_intro; split; [proj; settle | settle]|];
      split; [proj; try reflexivity; try lia|];
      proj;
      repeat match goal with
             | H : ?b = true |- context [?b] => rewrite H
             end;
      cbn; try lia
  end.

(** sendMessage starts no session at once: it leaves at most one ahead. *)
Lemma sendMessage_one_ahead message callback maxWait' st :
  settled callback = true -> orderly st = true ->
  orderly (state_of (sendMessage message callback maxWait' st)) = true /\
  attempts (state_of (sendMessage message callback maxWait' st)) = attempts st /\
  sessions (state_of (sendMessage message callback maxWait' st)) +
    sessions_ahead (state_of (sendMessage message callback maxWait' st))
    <= sessions st + 1.
Proof.
  intros Hs Ho. pose proof (sessions_ahead_le st) as Hle.
  unfold sendMessage.
  destruct message as [[|c s]|[|b l]]; cbn [strbuf_truthy]; on_its_way.
Qed.

Lemma sendBinaryMessage_one_ahead message callback maxWait' st :
  settled callback = true -> orderly st = true ->
  orderly (state_of (sendBinaryMessage message callback maxWait' st)) = true /\
  attempts (state_of (sendBinaryMessage message callback maxWait' st)) = attempts st /\
  sessions (state_of (sendBinaryMessage message callback maxWait' st)) +
    sessions_ahead (state_of (sendBinaryMessage message callback maxWait' st))
    <= sessions st + 1.
Proof.
  intros Hs Ho. pose proof (sessions_ahead_le st) as Hle.
  unfold sendBinaryMessage.
  destruct (strbuf_length message =? 0)%nat;
    [now apply sendMessage_one_ahead|].
  destruct message as [s|b]; cbn [state_of].
  - repeat split; [exact Ho|lia].
  - on_its_way.
Qed.

(** mailboxSend either makes one attempt, which puts one send on its way,
    or calls back. *)
Lemma mailboxSend_paced buffer callback st :
  settled callback = true -> orderly st = true ->
  paced 0 st (state_of (mailboxSend buffer callback st)).
Proof.
  intros Hs Ho. unfold mailboxSend. cbn [c_attempt globals set_c_attempt].
  destruct (num_le (incr (c_attempt st)) (maxAttempts (globals st))).
  - match goal with |- context [sendBinaryMessage ?m ?f ?w ?s] =>
      destruct (sendBinaryMessage_one_ahead m f w s) as (Ho' & Ha' & Hn')
    end; [exact Hs|exact Ho|].
    unfold paced. split; [exact Ho'|].
    rewrite Ha'. unfold attempts, sessions, writes in *. cbn in *. lia.
  - apply calm_paced, call_calm; [exact Hs|].
    pose proof (calm_refl st Ho) as H. calm_tac.
Qed.

Lemma find_timer_settled id delay buffer callback l :
  forallb timer_settled l = true ->
  find_timer id l = Some (delay, t_retry buffer callback) ->
  settled callback = true.
Proof.
  induction l as [|[i t] l IH]; [discriminate|].
  cbn [forallb find_timer]. intros H Hf. apply andb_prop in H as [Ht Hl].
  destruct (i =? id)%nat; [|now apply IH].
  injection Hf as ->. exact Ht.
Qed.

Lemma fire_paced id st :
  orderly st = true ->
  paced (if fires_check (TimerFires id) st then 1 else 0) st
        (state_of (fire id st)).
Proof.
  intros Ho. unfold fire, fires_check.
  destruct (find_timer id (timers st)) as [[delay f]|] eqn:E;
    [|apply calm_paced, calm_refl, Ho].
  assert (Hc : calm st (clearTimeout id st)).
  { pose proof (calm_refl st Ho) as H. unfold clearTimeout. calm_tac. }
  destruct f.
  - apply calm_paced. calm_tac.
  - apply calm_paced. now apply flush_calm.
  - destruct Hc as (Ho' & Ha' & Hn').
    destruct (sendMessage_one_ahead (Str "") f_undefined None
                (clearTimeout id st) eq_refl Ho') as (Ho2 & Ha2 & Hn2).
    unfold paced. split; [exact Ho2|]. lia.
  - assert (Hs : settled callback = true).
    { unfold orderly in Ho. apply andb_prop in Ho as [_ Ht].
      exact (find_timer_settled _ _ _ _ _ Ht E). }
    apply (paced_trans 0 0 st (clearTimeout id st)); [now apply calm_paced|].
    apply mailboxSend_paced; [exact Hs|apply Hc].
Qed.

Lemma step_paced ev st :
  orderly st = true ->
  paced (if fires_check ev st then 1 else 0) st (state_of (step ev st)).
Proof.
  intros Ho. destruct ev; cbn [step].
  - apply calm_paced. pose proof (calm_refl st Ho) as H.
    unfold init, echoOff, ATS. calm_tac.
  - apply calm_paced, readSBD_calm, calm_refl, Ho.
  - now apply fire_paced.
Qed.

Lemma run_paced evs : forall st,
  orderly st = true -> paced (checks evs st) st (state_of (run evs st)).
Proof.
  induction evs as [|ev evs IH]; intros st Ho; cbn [run checks].
  - apply calm_paced, calm_refl, Ho.
  - pose proof (step_paced ev st Ho) as Hs.
    destruct (step ev st) as [st1|st1 ?|st1]; cbn [bind state_of] in *;
      try (eapply paced_more; [|exact Hs]; lia).
    eapply paced_trans; [exact Hs|]. apply IH. apply Hs.
Qed.

(** C5 as stated fails twice.  With maxAttempts 5 and the counter
    started at 0, four failed attempts and a fifth that succeeds while a
    message is waiting are followed by the mailbox check that mailboxSend
    schedules: six SBDIX sessions for five attempts.  And once the counter
    has passed maxAttempts, one more OK from the modem runs the
    continuation of the last command again, which arms another retry: the
    callback gets the bounded error a second time. *)
Lemma sessions_exceed_maxAttempts_and_error_repeats :
  maxAttempts (globals (counting_from 0)) = 5%Z /\
  attempts (state_of (bind (mailboxSend (Buf ["001"%char]) (f_app 1) (counting_from 0))
                           (run five_attempts_and_a_check))) = 5 /\
  sessions (state_of (bind (mailboxSend (Buf ["001"%char]) (f_app 1) (counting_from 0))
                           (run five_attempts_and_a_check))) = 6 /\
  calls (state_of (bind (mailboxSend (Buf ["001"%char]) (f_app 1) (counting_from 4))
                        (run refused_then_stray_OK))) =
    [(1, EObj too_many, RUndefined); (1, EObj too_many, RUndefined)].
Proof.
  repeat split; vm_compute; reflexivity.
Qed.

(** C5, amended.  On a driver whose callbacks are those of the
    application, with maxAttempts and the counter below 2^53, and however
    the modem answers and whichever timers fire after
    mailboxSend(buffer, callback): the send attempts it and its retries
    start number at most maxAttempts; every SBDIX session started is that
    of one attempt, of one follow-up mailbox check fired, or of the send
    that was already on its way; and when the incremented counter is not
    within maxAttempts, mailboxSend starts no attempt, writes nothing, arms
    no timer and calls the callback with the error object. *)
Theorem mailboxSend_attempts_bounded buffer callback st evs :
  counter_started st ->
  (maxAttempts (globals st) < 2 ^ 53)%Z ->
  settled callback = true ->
  orderly st = true ->
  (Z.of_nat (attempts (state_of (bind (mailboxSend buffer callback st) (run evs)))
             - attempts st)
   <= Z.max 0 (maxAttempts (globals st)))%Z /\
  sessions (state_of (bind (mailboxSend buffer callback st) (run evs)))
    + attempts st
  <= sessions st + sessions_ahead st
     + attempts (state_of (bind (mailboxSend buffer callback st) (run evs)))
     + checks evs (state_of (mailboxSend buffer callback st)) /\
  (num_le (incr (c_attempt st)) (maxAttempts (globals st)) = false ->
   forall id, exists st',
     mailboxSend buffer (f_app id) st = Ok st' /\
     attempts st' = attempts st /\
     writes st' = writes st /\
     timers st' = timers st /\
     df st' = df st /\
     calls st' = (id, EObj too_many, RUndefined) :: calls st).
Proof.
  intros Hc Hmax Hs Ho. split; [|split].
  - assert (H : within_quota st
             (state_of (bind (mailboxSend buffer callback st) (run evs)))).
    { pose proof (mailboxSend_within_quota buffer callback st) as Hm.
      destruct (mailboxSend buffer callback st) as [st1|st1 ?|st1];
        cbn [bind state_of] in *; auto.
      eapply within_quota_trans; [exact Hm|apply run_within_quota]. }
    destruct H as (Hg & Ha & Hq).
    assert (quota st <= Z.max 0 (maxAttempts (globals st)))%Z.
    { unfold quota, counter_started in *. destruct (c_attempt st); lia. }
    assert (0 <= quota (state_of (bind (mailboxSend buffer callback st) (run evs))))%Z.
    { unfold quota. break_match; lia. }
    lia.
  - pose proof (mailboxSend_paced buffer callback st Hs Ho) as Hm.
    destruct (mailboxSend buffer callback st) as [st1|st1 ?|st1];
      cbn [bind state_of] in *;
      try (destruct Hm as (_ & Ha & Hn); lia).
    pose proof (run_paced evs st1 (proj1 Hm)) as Hr.
    destruct Hm as (_ & Ha & Hn). destruct Hr as (_ & Ha' & Hn'). lia.
  - intros E id. unfold mailboxSend. cbn [c_attempt globals set_c_attempt].
    rewrite E. cbn [call]. eexists. split; [reflexivity|].
    unfold too_many. proj. repeat split; reflexivity.
Qed.

Lemma mailboxSend_attempts_bounded_witness :
  (Z.of_nat (attempts (state_of (bind (mailboxSend (Buf ["001"%char]) (f_app 1)
                                         (counting_from 0))
                                      (run five_attempts_and_a_check)))
             - attempts (counting_from 0))
   <= Z.max 0 (maxAttempts (globals (counting_from 0))))%Z /\
  sessions (state_of (bind (mailboxSend (Buf ["001"%char]) (f_app 1)
                              (counting_from 0))
                           (run five_attempts_and_a_check)))
    + attempts (counting_from 0)
  <= sessions (counting_from 0) + sessions_ahead (counting_from 0)
     + attempts (state_of (bind (mailboxSend (Buf ["001"%char]) (f_app 1)
                                   (counting_from 0))
                                (run five_attempts_and_a_check)))
     + checks five_attempts_and_a_check
         (state_of (mailboxSend (Buf ["001"%char]) (f_app 1) (counting_from 0))) /\
  forall id, exists st',
    mailboxSend (Buf ["001"%char]) (f_app id) (counting_from 5) = Ok st' /\
    attempts st' = attempts (counting_from 5) /\
    writes st' = writes (counting_from 5) /\
    timers st' = timers (counting_from 5) /\
    df st' = df (counting_from 5) /\
    calls st' = (id, EObj too_many, RUndefined) :: calls (counting_from 5).
Proof.
  destruct (mailboxSend_attempts_bounded (Buf ["001"%char]) (f_app 1)
              (counting_from 0) five_attempts_and_a_check) as (H1 & H2 & _).
  - vm_compute. split; [discriminate|reflexivity].
  - vm_compute. reflexivity.
  - reflexivity.
  - vm_compute. reflexivity.
  - split; [exact H1|]. split; [exact H2|].
    destruct (mailboxSend_attempts_bounded (Buf ["001"%char]) (f_app 1)
                (counting_from 5) []) as (_ & _ & H3).
    + vm_compute. split; [discriminate|reflexivity].
    + vm_compute. reflexivity.
    + reflexivity.
    + vm_compute. reflexivity.
    + apply H3. vm_compute. reflexivity.
Defined.
